(** * updatesparser: parse, filter and render updateinfo XML feeds

    A shallow embedding of the Go sources
      - updatesparser/pkg/types/updateinfo.go   (record model, date coercions)
      - updatesparser/pkg/parser/parser.go      (filter options, Parse, rendering)
      - the [RunE] closure of the root command  (flag wiring)
    together with models of the few standard-library functions they call.

    Conventions.  A Go function returning [(v, error)] is a function into
    [V * option error]; a Go function that writes through a pointer receives
    the old value and returns the new one; a function that can hit a nil
    dereference returns an [outcome].  [int64] and [uint64] values are [Z]
    with the wrap-around written out. *)

From Stdlib Require Import ZArith List String Ascii Bool Lia.
Import ListNotations.

Local Open Scope string_scope.
Local Open Scope Z_scope.

(* ================================================================== *)
(** * Part I: definitions                                              *)
(* ================================================================== *)

(** ** Go [error] values *)

(** [errorString] is what [errors.New] and [fmt.Errorf] (without [%w])
    build; [NumError] is [*strconv.NumError]; [eofError] is the one value
    [io.EOF], which the program tells from every other error by identity
    ([tokenErr == io.EOF]), whatever the other error prints.  Errors
    coming out of other libraries (encoding/xml, net/url, os,
    text/template) are arbitrary values of this type. *)
Inductive error : Type :=
| errorString (s : string)
| NumError (Func Num : string) (Err : error)
| eofError.

Fixpoint error_eqb (a b : error) : bool :=
  match a, b with
  | errorString s, errorString t => String.eqb s t
  | NumError f n e, NumError f' n' e' =>
      String.eqb f f' && String.eqb n n' && error_eqb e e'
  | eofError, eofError => true
  | _, _ => false
  end.

(** Result of a call that may panic. *)
Inductive outcome (A : Type) : Type :=
| Returns (a : A)
| Panics.
Arguments Returns {A} a.
Arguments Panics {A}.

(** ** package strconv *)
Module strconv.

Definition dquote : ascii := "034"%char.
Definition backslash : ascii := "092"%char.

Definition hexDigit (n : N) : ascii :=
  match get (N.to_nat n) "0123456789abcdef" with
  | Some c => c
  | None => "0"%char
  end.

(** [appendEscapedRune] for a one-byte rune, quote character [dquote]:
    this is [Quote] on strings of ASCII bytes.  Bytes from 0x80 up
    belong to multi-byte runes,
    which [Quote] copies when they are printable, and they are copied
    here; the escapes Go writes for the other ones (invalid UTF-8, runes
    that [IsPrint] refuses) are left out. *)
Definition appendEscapedByte (c : ascii) : string :=
  let n := N_of_ascii c in
  if (Ascii.eqb c dquote || Ascii.eqb c backslash)%bool then
    String backslash (String c "")
  else if ((32 <=? n) && (n <=? 126))%N%bool then String c ""
  else
    match n with
    | 7%N => String backslash "a"
    | 8%N => String backslash "b"
    | 12%N => String backslash "f"
    | 10%N => String backslash "n"
    | 13%N => String backslash "r"
    | 9%N => String backslash "t"
    | 11%N => String backslash "v"
    | _ =>
        if ((n <? 32) || (n =? 127))%N%bool then
          String backslash
            (String "x" (String (hexDigit (n / 16)) (String (hexDigit (n mod 16)) "")))
        else String c ""
    end.

Fixpoint escape (s : string) : string :=
  match s with
  | EmptyString => EmptyString
  | String c rest => appendEscapedByte c ++ escape rest
  end.

(** [strconv.Quote], which is also what [fmt]'s [%q] verb prints for a
    string operand. *)
Definition Quote (s : string) : string :=
  String dquote (escape s ++ String dquote "").

Definition ErrSyntax : error := errorString "invalid syntax".
Definition ErrRange : error := errorString "value out of range".

Definition maxUint64 : Z := 2 ^ 64 - 1.

Definition syntaxError (fn str : string) : error := NumError fn str ErrSyntax.
Definition rangeError (fn str : string) : error := NumError fn str ErrRange.

(** The [for _, c := range []byte(s)] loop of [ParseUint] for base 10 and
    bitSize 64, from accumulator [n]; [s0] is the whole argument, kept
    for the error value.  [n + d] is a [uint64] addition. *)
Fixpoint parseUintLoop (s0 s : string) (n : Z) : Z * option error :=
  match s with
  | EmptyString => (n, None)
  | String c rest =>
      let v := Z.of_N (N_of_ascii c) in
      if (48 <=? v) && (v <=? 57) then
        let d := v - 48 in
        let cutoff := maxUint64 / 10 + 1 in
        let maxVal := 2 ^ 64 - 1 in
        if n >=? cutoff then (maxVal, Some (rangeError "ParseUint" s0))
        else
          let n := n * 10 in
          let n1 := (n + d) mod 2 ^ 64 in
          if (n1 <? n) || (n1 >? maxVal) then
            (maxVal, Some (rangeError "ParseUint" s0))
          else parseUintLoop s0 rest n1
      else (0, Some (syntaxError "ParseUint" s0))
  end.

(** [strconv.ParseUint(s, 10, 64)]. *)
Definition ParseUint (s : string) : Z * option error :=
  match s with
  | EmptyString => (0, Some (syntaxError "ParseUint" s))
  | _ => parseUintLoop s s 0
  end.

(** [strconv.ParseInt(s, 10, 64)].  [ParseUint] only ever returns a
    [NumError], so the type assertion on its error cannot fail. *)
Definition ParseInt (s : string) : Z * option error :=
  match s with
  | EmptyString => (0, Some (syntaxError "ParseInt" s))
  | String c0 rest =>
      let s0 := s in
      let '(neg, s) :=
        if Ascii.eqb c0 "+" then (false, rest)
        else if Ascii.eqb c0 "-" then (true, rest)
        else (false, s) in
      let '(un, err) := ParseUint s in
      let checked :=
        let cutoff := 2 ^ 63 in
        if negb neg && (un >=? cutoff) then
          (cutoff - 1, Some (rangeError "ParseInt" s0))
        else if neg && (un >? cutoff) then
          (- cutoff, Some (rangeError "ParseInt" s0))
        else (if neg then - un else un, None) in
      match err with
      | Some (NumError _ _ e) =>
          if negb (error_eqb e ErrRange) then (0, Some (NumError "ParseInt" s0 e))
          else checked
      | _ => checked
      end
  end.

Definition digitChar (d : Z) : ascii := ascii_of_N (Z.to_N (48 + d)).

(** Decimal digits of [u], most significant first, in front of [acc]. *)
Fixpoint formatBits (fuel : nat) (u : Z) (acc : string) : string :=
  match fuel with
  | O => acc
  | S fuel' =>
      if u <? 10 then String (digitChar u) acc
      else formatBits fuel' (u / 10) (String (digitChar (u mod 10)) acc)
  end.

(** [strconv.FormatInt(i, 10)] for an [int64] [i]; a [uint64] has at most
    twenty decimal digits. *)
Definition FormatInt (i : Z) : string :=
  if i <? 0 then String "-" (formatBits 20 (- i) "")
  else formatBits 20 i "".

End strconv.

(** The [Error()] method. *)
Fixpoint Error (e : error) : string :=
  match e with
  | errorString s => s
  | NumError f num err =>
      "strconv." ++ f ++ ": parsing " ++ strconv.Quote num ++ ": " ++ Error err
  | eofError => "EOF"
  end.


(** [int64] wrap-around. *)
Definition wrap64 (z : Z) : Z := (z + 2 ^ 63) mod 2 ^ 64 - 2 ^ 63.

(** ** package time *)
Module time.

(** A [time.Time] without monotonic clock reading: [sec] is the [int64]
    count of seconds since January 1, year 1 (the [ext] field), [nsec]
    the nanoseconds within the second.  Every [Time] this program
    handles comes from [time.Unix], [time.Parse] or [AddDate], none of
    which keeps a monotonic reading. *)
Record Time : Type := { sec : Z; nsec : Z }.

Definition unixToInternal : Z :=
  (1969 * 365 + 1969 / 4 - 1969 / 100 + 1969 / 400) * 86400.
Definition internalToUnix : Z := - unixToInternal.

(** [time.Unix(sec, nsec)]; Go's [/] on integers truncates. *)
Definition Unix (sec nsec : Z) : Time :=
  let '(sec, nsec) :=
    if (nsec <? 0) || (nsec >=? 1000000000) then
      let n := Z.quot nsec 1000000000 in
      let sec := wrap64 (sec + n) in
      let nsec := wrap64 (nsec - wrap64 (n * 1000000000)) in
      if nsec <? 0 then (wrap64 (sec - 1), wrap64 (nsec + 1000000000))
      else (sec, nsec)
    else (sec, nsec) in
  {| sec := wrap64 (sec + unixToInternal); nsec := nsec |}.

(** The method [t.Unix()]. *)
Definition Time_Unix (t : Time) : Z := wrap64 (sec t + internalToUnix).

Definition Before (t u : Time) : bool :=
  (sec t <? sec u) || ((sec t =? sec u) && (nsec t <? nsec u)).

Definition After (t u : Time) : bool :=
  (sec t >? sec u) || ((sec t =? sec u) && (nsec t >? nsec u)).

(** What the program takes from the wall clock and the calendar:
    [time.Now()], [t.AddDate(years, months, days)] and
    [time.Parse(layout, value)]. *)
Class Calendar : Type := {
  Now : Time;
  AddDate : Time -> Z -> Z -> Z -> Time;
  Parse : string -> string -> Time * option error
}.

End time.

(** ** package strings *)
Module strings.

Fixpoint bytes (l : list nat) : string :=
  match l with
  | [] => EmptyString
  | b :: l' => String (ascii_of_nat b) (bytes l')
  end.

(** UTF-8 encodings of the runes with Unicode's White_Space property,
    the ones [unicode.IsSpace] accepts. *)
Definition spaceRunes : list string :=
  map bytes
    ([ [9]; [10]; [11]; [12]; [13]; [32]; [194; 133]; [194; 160]; [225; 154; 128] ]
     ++ map (fun b => [226; 128; b]) (seq 128 11)
     ++ [ [226; 128; 168]; [226; 128; 169]; [226; 128; 175]; [226; 129; 159];
          [227; 128; 128] ])%list%nat.

Fixpoint stripPrefix (p s : string) : option string :=
  match p, s with
  | EmptyString, _ => Some s
  | String a p', String b s' => if Ascii.eqb a b then stripPrefix p' s' else None
  | String _ _, EmptyString => None
  end.

Fixpoint stripAny (ps : list string) (s : string) : option string :=
  match ps with
  | [] => None
  | p :: ps' =>
      match stripPrefix p s with
      | Some r => Some r
      | None => stripAny ps' s
      end
  end.

(** Drop leading occurrences of the given byte sequences. *)
Fixpoint trimLeft (ps : list string) (fuel : nat) (s : string) : string :=
  match fuel with
  | O => s
  | S fuel' =>
      match stripAny ps s with
      | Some r => trimLeft ps fuel' r
      | None => s
      end
  end.

Fixpoint rev (s : string) : string :=
  match s with
  | EmptyString => EmptyString
  | String c r => rev r ++ String c EmptyString
  end.

(** [strings.TrimSpace]: white space runes removed at both ends. *)
Definition TrimSpace (s : string) : string :=
  let l := trimLeft spaceRunes (String.length s) s in
  rev (trimLeft (map rev spaceRunes) (String.length l) (rev l)).

(** [strings.Split(s, sep)] for a one-byte separator (the program only
    splits on "|"); [cur] is the field being read. *)
Fixpoint splitFrom (s : string) (sep : ascii) (cur : string) : list string :=
  match s with
  | EmptyString => [cur]
  | String c rest =>
      if Ascii.eqb c sep then cur :: splitFrom rest sep EmptyString
      else splitFrom rest sep (cur ++ String c EmptyString)
  end.

Definition Split (s : string) (sep : ascii) : list string :=
  splitFrom s sep EmptyString.

End strings.

(** ** package bufio *)
Module bufio.

Definition MaxScanTokenSize : nat := 64 * 1024.
Definition ErrTooLong : error := errorString "bufio.Scanner: token too long".

Definition dropCR (line : string) : string :=
  match strings.rev line with
  | String c r => if Ascii.eqb c "013" then strings.rev r else line
  | EmptyString => line
  end.

(** All the tokens a [Scanner] with the default split function
    ([ScanLines]) and the default buffer yields on [data], and the value
    of [scanner.Err()] afterwards.  [line] holds the bytes of the current
    line read so far.  The buffer grows to [MaxScanTokenSize] bytes and
    no further: a line is a token only if its terminating newline, or
    the end of input, is seen before the buffer is full.  [readErr] is
    the error, if any, with which the underlying reader ends instead of
    [io.EOF]. *)
Fixpoint scanLines (data line : string) (readErr : option error)
  : list string * option error :=
  match data with
  | EmptyString =>
      if (MaxScanTokenSize <=? String.length line)%nat then ([], Some ErrTooLong)
      else
        match line with
        | EmptyString => ([], readErr)
        | _ => ([dropCR line], readErr)
        end
  | String c rest =>
      if Ascii.eqb c "010" then
        if (MaxScanTokenSize <=? String.length line)%nat then ([], Some ErrTooLong)
        else
          let '(toks, err) := scanLines rest EmptyString readErr in
          (dropCR line :: toks, err)
      else scanLines rest (line ++ String c EmptyString) readErr
  end.

End bufio.

(** ** package io *)
Module io.

(** The sentinel: an error of another library whose text is also EOF is a
    different value, [errorString] of that text. *)
Definition EOF : error := eofError.

End io.

(** ** package net/url *)
Module url.

(** [url.URL] and [url.Parse] are taken as given; [zero] is [url.URL{}]. *)
Class Parser : Type := {
  URL : Type;
  zero : URL;
  Parse : string -> URL + error
}.

End url.

(** ** package encoding/xml: what the decoder hands to this program *)
Module xml.

(** [xml.Attr], local name only. *)
Record Attr : Type := { Name : string; Value : string }.

(** The content of an [<update>] element as [DecodeElement] walks it, in
    document order: child elements that hold text, [<issued>] with its
    attributes, each [<reference>] under [<references>], each [<package>]
    under [<pkglist><collection>] with its attributes and the text of its
    [<filename>] child, and a place where the XML is malformed. *)
Inductive Child : Type :=
| Child_text (name text : string)
| Child_issued (attrs : list Attr)
| Child_reference (attrs : list Attr)
| Child_package (attrs : list Attr) (filename : option string)
| Child_malformed (e : error).

Record Element : Type := { Attrs : list Attr; Children : list Child }.

(** One result of [d.Token()] as [Parse] looks at it.  For a start
    element, [content] is the subtree [DecodeElement] consumes when it is
    called on the element; when it is not called, the tokens of the
    subtree simply follow in the stream and [content] is not used. *)
Inductive Token : Type :=
| StartElement (Name_Local : string) (content : Element)
| OtherToken.

(** A reader given to [xml.NewDecoder] is the list of the results of the
    successive [d.Token()] calls: a token or an error.  Reading past the
    end of the list gives [io.EOF]. *)
Definition Reader : Type := list (Token + error).

End xml.

(** ** package os *)
Module os.

(** An open file as the program reads it: its bytes, the error the reads
    end with (if not [io.EOF]), the token stream an XML decoder produces
    on it, and what [Close] returns. *)
Record File : Type := {
  data : string;
  readErr : option error;
  tokens : xml.Reader;
  closeErr : option error
}.

Class FileSystem : Type := {
  Open : string -> File + error
}.

End os.

(** ** updatesparser/pkg/types/updateinfo.go *)
Module types.
Section Types.
Context {U : url.Parser}.

Definition date : Type := time.Time.

(** The [XMLName] marker fields are left out of the records. *)
Record Issued : Type := { Issued_Date : option date }.

Definition href : Type := url.URL.

Record Reference : Type := {
  Reference_URL : href;
  Reference_ID : string;
  Reference_Title : string;
  Reference_Type : string
}.

Record Package : Type := {
  Package_Name : string;
  Package_Version : string;
  Package_Release : string;
  Package_Arch : string;
  Package_Filename : string
}.

Record Update : Type := {
  Update_Type : string;
  Update_Status : string;
  Update_ID : string;
  Update_Title : string;
  Update_Severity : string;
  Update_Release : string;
  Update_Issued : Issued;
  Update_References : list Reference;
  Update_Description : string;
  Update_Packages : list Package
}.

(** [func (i Issued) MarshalJSON() ([]byte, error)]: [*i.Date] is a nil
    dereference when the pointer is nil. *)
Definition Issued_MarshalJSON (i : Issued) : outcome (string * option error) :=
  match Issued_Date i with
  | None => Panics
  | Some t =>
      Returns (strconv.Quote (strconv.FormatInt (time.Time_Unix t)), None)
  end.

(** [func (d *date) UnmarshalXMLAttr(attr xml.Attr) error] *)
Definition date_UnmarshalXMLAttr (d : date) (attr : xml.Attr) : date * option error :=
  let '(ts, err) := strconv.ParseInt (xml.Value attr) in
  match err with
  | Some e => (d, Some e)
  | None => (time.Unix ts 0, None)
  end.

(** [func (h *href) UnmarshalXMLAttr(attr xml.Attr) error] *)
Definition href_UnmarshalXMLAttr (h : href) (attr : xml.Attr) : href * option error :=
  match url.Parse (xml.Value attr) with
  | inr err => (h, Some err)
  | inl u => (u, None)
  end.

(** *** Zero values *)
Definition zeroTime : time.Time := {| time.sec := 0; time.nsec := 0 |}.

Definition zeroReference : Reference :=
  {| Reference_URL := url.zero; Reference_ID := ""; Reference_Title := "";
     Reference_Type := "" |}.

Definition zeroPackage : Package :=
  {| Package_Name := ""; Package_Version := ""; Package_Release := "";
     Package_Arch := ""; Package_Filename := "" |}.

Definition zeroUpdate : Update :=
  {| Update_Type := ""; Update_Status := ""; Update_ID := ""; Update_Title := "";
     Update_Severity := ""; Update_Release := "";
     Update_Issued := {| Issued_Date := None |};
     Update_References := []; Update_Description := ""; Update_Packages := [] |}.

(** *** What [d.DecodeElement(&u, &t)] does with the struct tags above *)

(** Attributes of [<issued>]: the [date] attribute goes through
    [UnmarshalXMLAttr] on a freshly allocated [date] when the pointer is
    still nil. *)
Fixpoint decodeIssued (i : Issued) (attrs : list xml.Attr) : Issued + error :=
  match attrs with
  | [] => inl i
  | a :: rest =>
      if String.eqb (xml.Name a) "date" then
        let d0 := match Issued_Date i with Some d => d | None => zeroTime end in
        match date_UnmarshalXMLAttr d0 a with
        | (_, Some e) => inr e
        | (d, None) => decodeIssued {| Issued_Date := Some d |} rest
        end
      else decodeIssued i rest
  end.

Fixpoint decodeReference (r : Reference) (attrs : list xml.Attr) : Reference + error :=
  match attrs with
  | [] => inl r
  | a :: rest =>
      let n := xml.Name a in
      let v := xml.Value a in
      if String.eqb n "href" then
        match href_UnmarshalXMLAttr (Reference_URL r) a with
        | (_, Some e) => inr e
        | (h, None) =>
            decodeReference
              {| Reference_URL := h; Reference_ID := Reference_ID r;
                 Reference_Title := Reference_Title r;
                 Reference_Type := Reference_Type r |} rest
        end
      else if String.eqb n "id" then
        decodeReference
          {| Reference_URL := Reference_URL r; Reference_ID := v;
             Reference_Title := Reference_Title r;
             Reference_Type := Reference_Type r |} rest
      else if String.eqb n "title" then
        decodeReference
          {| Reference_URL := Reference_URL r; Reference_ID := Reference_ID r;
             Reference_Title := v; Reference_Type := Reference_Type r |} rest
      else if String.eqb n "type" then
        decodeReference
          {| Reference_URL := Reference_URL r; Reference_ID := Reference_ID r;
             Reference_Title := Reference_Title r; Reference_Type := v |} rest
      else decodeReference r rest
  end.

Fixpoint decodePackage (p : Package) (attrs : list xml.Attr) : Package :=
  match attrs with
  | [] => p
  | a :: rest =>
      let n := xml.Name a in
      let v := xml.Value a in
      if String.eqb n "name" then
        decodePackage
          {| Package_Name := v; Package_Version := Package_Version p;
             Package_Release := Package_Release p; Package_Arch := Package_Arch p;
             Package_Filename := Package_Filename p |} rest
      else if String.eqb n "version" then
        decodePackage
          {| Package_Name := Package_Name p; Package_Version := v;
             Package_Release := Package_Release p; Package_Arch := Package_Arch p;
             Package_Filename := Package_Filename p |} rest
      else if String.eqb n "release" then
        decodePackage
          {| Package_Name := Package_Name p; Package_Version := Package_Version p;
             Package_Release := v; Package_Arch := Package_Arch p;
             Package_Filename := Package_Filename p |} rest
      else if String.eqb n "arch" then
        decodePackage
          {| Package_Name := Package_Name p; Package_Version := Package_Version p;
             Package_Release := Package_Release p; Package_Arch := v;
             Package_Filename := Package_Filename p |} rest
      else decodePackage p rest
  end.

(** Attributes of [<update>]: [type] and [status]. *)
Fixpoint decodeUpdateAttrs (u : Update) (attrs : list xml.Attr) : Update :=
  match attrs with
  | [] => u
  | a :: rest =>
      let n := xml.Name a in
      let v := xml.Value a in
      if String.eqb n "type" then
        decodeUpdateAttrs
          {| Update_Type := v; Update_Status := Update_Status u;
             Update_ID := Update_ID u; Update_Title := Update_Title u;
             Update_Severity := Update_Severity u; Update_Release := Update_Release u;
             Update_Issued := Update_Issued u; Update_References := Update_References u;
             Update_Description := Update_Description u;
             Update_Packages := Update_Packages u |} rest
      else if String.eqb n "status" then
        decodeUpdateAttrs
          {| Update_Type := Update_Type u; Update_Status := v;
             Update_ID := Update_ID u; Update_Title := Update_Title u;
             Update_Severity := Update_Severity u; Update_Release := Update_Release u;
             Update_Issued := Update_Issued u; Update_References := Update_References u;
             Update_Description := Update_Description u;
             Update_Packages := Update_Packages u |} rest
      else decodeUpdateAttrs u rest
  end.

(** A child element holding text, stored by its name. *)
Definition decodeText (u : Update) (name text : string) : Update :=
  let pick (field : string) (old : string) : string :=
    if String.eqb name field then text else old in
  {| Update_Type := Update_Type u; Update_Status := Update_Status u;
     Update_ID := pick "id" (Update_ID u);
     Update_Title := pick "title" (Update_Title u);
     Update_Severity := pick "severity" (Update_Severity u);
     Update_Release := pick "release" (Update_Release u);
     Update_Issued := Update_Issued u; Update_References := Update_References u;
     Update_Description := pick "description" (Update_Description u);
     Update_Packages := Update_Packages u |}.

Definition withIssued (u : Update) (i : Issued) : Update :=
  {| Update_Type := Update_Type u; Update_Status := Update_Status u;
     Update_ID := Update_ID u; Update_Title := Update_Title u;
     Update_Severity := Update_Severity u; Update_Release := Update_Release u;
     Update_Issued := i; Update_References := Update_References u;
     Update_Description := Update_Description u;
     Update_Packages := Update_Packages u |}.

Definition appendReference (u : Update) (r : Reference) : Update :=
  {| Update_Type := Update_Type u; Update_Status := Update_Status u;
     Update_ID := Update_ID u; Update_Title := Update_Title u;
     Update_Severity := Update_Severity u; Update_Release := Update_Release u;
     Update_Issued := Update_Issued u;
     Update_References := (Update_References u ++ [r])%list;
     Update_Description := Update_Description u;
     Update_Packages := Update_Packages u |}.

Definition appendPackage (u : Update) (p : Package) : Update :=
  {| Update_Type := Update_Type u; Update_Status := Update_Status u;
     Update_ID := Update_ID u; Update_Title := Update_Title u;
     Update_Severity := Update_Severity u; Update_Release := Update_Release u;
     Update_Issued := Update_Issued u; Update_References := Update_References u;
     Update_Description := Update_Description u;
     Update_Packages := (Update_Packages u ++ [p])%list |}.

Definition withFilename (p : Package) (filename : option string) : Package :=
  match filename with
  | None => p
  | Some f =>
      {| Package_Name := Package_Name p; Package_Version := Package_Version p;
         Package_Release := Package_Release p; Package_Arch := Package_Arch p;
         Package_Filename := f |}
  end.

(** Children in document order; the first failure ends the decoding. *)
Fixpoint decodeChildren (u : Update) (cs : list xml.Child) : Update + error :=
  match cs with
  | [] => inl u
  | xml.Child_text name text :: rest => decodeChildren (decodeText u name text) rest
  | xml.Child_issued attrs :: rest =>
      match decodeIssued (Update_Issued u) attrs with
      | inr e => inr e
      | inl i => decodeChildren (withIssued u i) rest
      end
  | xml.Child_reference attrs :: rest =>
      match decodeReference zeroReference attrs with
      | inr e => inr e
      | inl r => decodeChildren (appendReference u r) rest
      end
  | xml.Child_package attrs filename :: rest =>
      decodeChildren
        (appendPackage u (withFilename (decodePackage zeroPackage attrs) filename))
        rest
  | xml.Child_malformed e :: _ => inr e
  end.

(** [d.DecodeElement(&u, &t)] with [u := types.Update{}]. *)
Definition DecodeElement (t : xml.Element) : Update + error :=
  decodeChildren (decodeUpdateAttrs zeroUpdate (xml.Attrs t)) (xml.Children t).

End Types.
End types.

(** ** package encoding/json *)
Module json.
Section Json.
Context {U : url.Parser}.

(** The part of [json.MarshalIndent] that is not this program's: how the
    array is laid out from the records, their struct tags and the bytes
    their [MarshalJSON] methods returned. *)
Class Encoder : Type := {
  encode : list types.Update -> list string -> string * option error
}.

(** The calls to [Issued.MarshalJSON], one per record (a struct field is
    never left out by [omitempty]); a panic in one of them is not
    recovered by the encoder. *)
Fixpoint marshalDates (updates : list types.Update) : outcome (list string) :=
  match updates with
  | [] => Returns []
  | u :: rest =>
      match types.Issued_MarshalJSON (types.Update_Issued u) with
      | Panics => Panics
      | Returns (b, _) =>
          match marshalDates rest with
          | Panics => Panics
          | Returns bs => Returns (b :: bs)
          end
      end
  end.

Definition MarshalIndent {E : Encoder} (updates : list types.Update)
  : outcome (string * option error) :=
  match marshalDates updates with
  | Panics => Panics
  | Returns dates => Returns (encode updates dates)
  end.

End Json.
End json.

(** ** package text/template and the output sink *)
Module template.
Section Template.
Context {U : url.Parser}.

(** [Writer] is the state of the [io.Writer] the output goes to;
    [ExecuteTemplate t w name data] runs the named template of [t]
    against [w], [data] being nil or a record; [Write] is the writer's
    own method. *)
Class Engine : Type := {
  Writer : Type;
  Write : Writer -> string -> Writer * option error;
  Template : Type;
  ExecuteTemplate :
    Template -> Writer -> string -> option types.Update -> Writer * option error
}.

End Template.
End template.

(** ** package slices *)
Module slices.

(** [slices.Contains] on a slice of strings. *)
Definition Contains (s : list string) (v : string) : bool :=
  existsb (fun x => String.eqb x v) s.

End slices.

(** ** updatesparser/pkg/parser/parser.go *)
Module parser.
Section Parser.
Context {U : url.Parser} {C : time.Calendar} {FS : os.FileSystem}.
Context {T : template.Engine} {J : json.Encoder}.

Definition updateToken : string := "update".

Record filterConfig : Type := {
  beforeDate : time.Time;
  afterDate : time.Time;
  dateFormat : string;
  pkgWhiteList : list string;
  updateType : string
}.

(** [output] is a writer that is there and works: a nil [io.Writer], on
    which the first [Write] panics, is not a value of [template.Writer]. *)
Record outputConfig : Type := {
  output : template.Writer;
  close : option (unit -> option error);
  template : option template.Template;
  jsonOut : bool
}.

(** [FilterOpt], a function from a pointer to [filterConfig] to an
    error: the configuration goes in, the configuration as the option
    left it comes out, with the error. *)
Definition FilterOpt : Type := filterConfig -> filterConfig * option error.

Definition parseTime (date format : string) : time.Time * option error :=
  if String.eqb format "" then
    let '(i, err) := strconv.ParseInt date in
    match err with
    | Some e =>
        (types.zeroTime,
         Some (errorString ("failed parsing date '" ++ date ++ "': " ++ Error e)))
    | None => (time.Unix i 0, None)
    end
  else time.Parse format date.

Definition WithDateFormat (format : string) : FilterOpt :=
  fun f =>
    ({| beforeDate := beforeDate f; afterDate := afterDate f; dateFormat := format;
        pkgWhiteList := pkgWhiteList f; updateType := updateType f |}, None).

Definition WithBeforeTime (before : string) : FilterOpt :=
  fun f =>
    let '(t, err) := parseTime before (dateFormat f) in
    match err with
    | Some e => (f, Some e)
    | None =>
        ({| beforeDate := t; afterDate := afterDate f; dateFormat := dateFormat f;
            pkgWhiteList := pkgWhiteList f; updateType := updateType f |}, None)
    end.

Definition WithAfterTime (after : string) : FilterOpt :=
  fun f =>
    let '(t, err) := parseTime after (dateFormat f) in
    match err with
    | Some e => (f, Some e)
    | None =>
        ({| beforeDate := beforeDate f; afterDate := t; dateFormat := dateFormat f;
            pkgWhiteList := pkgWhiteList f; updateType := updateType f |}, None)
    end.

(** The body of the [for scanner.Scan()] loop. *)
Definition appendPackageName (packages : list string) (line : string) : list string :=
  let pkgData := strings.Split (strings.TrimSpace line) "|" in
  (packages ++ [hd "" pkgData])%list.

Definition readPackagesFile (pkgFile : string) : list string * option error :=
  let packages := [] in
  if String.eqb pkgFile "" then (packages, None)
  else
    match os.Open pkgFile with
    | inr err =>
        ([], Some (errorString
                     ("failed opening file '" ++ pkgFile ++ "': " ++ Error err)))
    | inl file =>
        let '(lines, scanErr) :=
          bufio.scanLines (os.data file) "" (os.readErr file) in
        let packages := fold_left appendPackageName lines packages in
        match scanErr with
        | Some err =>
            ([], Some (errorString
                         ("failed scanning lines on file '" ++ pkgFile ++ "': "
                          ++ Error err)))
        | None => (packages, None)
        end
    end.

Definition WithPackagesFile (packagesFile : string) : FilterOpt :=
  fun f =>
    let '(pkgs, err) := readPackagesFile packagesFile in
    ({| beforeDate := beforeDate f; afterDate := afterDate f;
        dateFormat := dateFormat f; pkgWhiteList := pkgs;
        updateType := updateType f |}, err).

Definition WithUpdateType (uType : string) : FilterOpt :=
  fun f =>
    ({| beforeDate := beforeDate f; afterDate := afterDate f;
        dateFormat := dateFormat f; pkgWhiteList := pkgWhiteList f;
        updateType := uType |}, None).

(** The [for _, o := range opts] loop of [NewFilterConfig]. *)
Fixpoint applyOpts (opts : list FilterOpt) (fCfg : filterConfig)
  : filterConfig + error :=
  match opts with
  | [] => inl fCfg
  | o :: rest =>
      match o fCfg with
      | (_, Some err) => inr err
      | (fCfg', None) => applyOpts rest fCfg'
      end
  end.

Definition NewFilterConfig (opts : list FilterOpt) : filterConfig + error :=
  let fCfg :=
    {| beforeDate := time.AddDate time.Now 100 0 0;
       afterDate := time.Unix 0 0;
       dateFormat := ""; pkgWhiteList := []; updateType := "" |} in
  applyOpts opts fCfg.

(** [UpdateHandlerFunc], a function from a pointer to [types.Update] to
    an error; a handler closes over variables, whose values are the
    state [S] it transforms. *)
Definition UpdateHandlerFunc (S : Type) : Type :=
  types.Update -> S -> S * option error.

(** The [for _, pkg := range u.Packages] loop with its [break]. *)
Fixpoint pkgMatchLoop (pkgWhiteList : list string) (pkgs : list types.Package) : bool :=
  match pkgs with
  | [] => false
  | pkg :: rest =>
      if slices.Contains pkgWhiteList (types.Package_Name pkg) then true
      else pkgMatchLoop pkgWhiteList rest
  end.

Fixpoint Parse {S : Type} (reader : xml.Reader) (filter : filterConfig)
    (handler : UpdateHandlerFunc S) (st : S) : S * option error :=
  match reader with
  | [] => (st, None)
  | inr tokenErr :: _ =>
      if error_eqb tokenErr io.EOF then (st, None)
      else (st, Some (errorString ("decoding token: " ++ Error tokenErr)))
  | inl xml.OtherToken :: rest => Parse rest filter handler st
  | inl (xml.StartElement Name_Local content) :: rest =>
      if String.eqb Name_Local updateToken then
        match types.DecodeElement content with
        | inr err =>
            (st, Some (errorString
                         ("decoding element " ++ strconv.Quote Name_Local ++ ": "
                          ++ Error err)))
        | inl u =>
            if negb (String.eqb (updateType filter) "")
               && negb (String.eqb (types.Update_Type u) (updateType filter))
            then Parse rest filter handler st
            else
              match types.Issued_Date (types.Update_Issued u) with
              | None => Parse rest filter handler st
              | Some uDate =>
                  if time.Before uDate (beforeDate filter)
                     && time.After uDate (afterDate filter)
                  then
                    let pkgMatch :=
                      pkgMatchLoop (pkgWhiteList filter) (types.Update_Packages u) in
                    if (Nat.eqb (List.length (pkgWhiteList filter)) 0) || pkgMatch
                    then
                      match handler u st with
                      | (st', Some err) => (st', Some err)
                      | (st', None) => Parse rest filter handler st'
                      end
                    else Parse rest filter handler st
                  else Parse rest filter handler st
              end
        end
      else Parse rest filter handler st
  end.

(** The deferred function of [ParseToOutput]: [out.close] runs on the
    way out and its error is returned only when no other is. *)
Definition deferClose (out : outputConfig) (ret : template.Writer * option error)
  : template.Writer * option error :=
  match close out with
  | None => ret
  | Some closeFn =>
      let err := closeFn tt in
      match snd ret, err with
      | None, Some e => (fst ret, Some e)
      | _, _ => ret
      end
  end.

(** The handler of the template strategy; its state is the writer and
    the captured variable [first]. *)
Definition templateHandler (tmpl : template.Template)
  : UpdateHandlerFunc (template.Writer * bool) :=
  fun u '(w, first) =>
    let '(w, err) :=
      if negb first then template.ExecuteTemplate tmpl w "join" None
      else (w, None) in
    match err with
    | Some e => ((w, first), Some e)
    | None =>
        let '(w, err) := template.ExecuteTemplate tmpl w "body" (Some u) in
        match err with
        | Some e => ((w, first), Some e)
        | None => ((w, false), None)
        end
    end.

(** The handler of the JSON strategy; its state is the slice [updates]. *)
Definition jsonHandler : UpdateHandlerFunc (list types.Update) :=
  fun u updates => ((updates ++ [u])%list, None).

Definition ParseToOutput (reader : xml.Reader) (filter : filterConfig)
    (out : outputConfig) : outcome (template.Writer * option error) :=
  if negb (jsonOut out) then
    match template out with
    | None => Panics
    | Some tmpl =>
        let '(w, err) := template.ExecuteTemplate tmpl (output out) "header" None in
        match err with
        | Some e => Returns (deferClose out (w, Some e))
        | None =>
            let '((w, _), err) := Parse reader filter (templateHandler tmpl) (w, true) in
            match err with
            | Some e => Returns (deferClose out (w, Some e))
            | None =>
                Returns (deferClose out
                           (template.ExecuteTemplate tmpl w "footer" None))
            end
        end
    end
  else
    let '(updates, err) := Parse reader filter jsonHandler [] in
    match err with
    | Some e => Returns (deferClose out (output out, Some e))
    | None =>
        match json.MarshalIndent updates with
        | Panics => Panics
        | Returns (data, Some e) => Returns (deferClose out (output out, Some e))
        | Returns (data, None) =>
            Returns (deferClose out (template.Write (output out) data))
        end
    end.

Definition ParseFileToOutput (updateXML : string) (filter : filterConfig)
    (out : outputConfig) : outcome (template.Writer * option error) :=
  match os.Open updateXML with
  | inr err => Returns (output out, None)
  | inl f =>
      match ParseToOutput (os.tokens f) filter out with
      | Panics => Panics
      | Returns (w, retErr) =>
          let err := os.closeErr f in
          match retErr, err with
          | None, Some e => Returns (w, Some e)
          | _, _ => Returns (w, retErr)
          end
      end
  end.

End Parser.
End parser.

(** ** The root command: the part of [RunE] that turns the flags into the
    filter configuration *)
Module cmd.
Section Cmd.
Context {U : url.Parser} {C : time.Calendar} {FS : os.FileSystem}.

Definition securityType : string := "security".

(** The values [RunE] reads with [flags.GetString] and [flags.GetBool]. *)
Record Flags : Type := {
  beforeStr : string;
  afterStr : string;
  packagesF : string;
  tmplF : string;
  output : string;
  sec : bool;
  json : bool
}.

Definition RunE_fOpts (flags : Flags) : list parser.FilterOpt :=
  let fOpts := [] in
  let fOpts :=
    if negb (String.eqb (beforeStr flags) "")
    then (fOpts ++ [parser.WithBeforeTime (beforeStr flags)])%list else fOpts in
  let fOpts :=
    if negb (String.eqb (afterStr flags) "")
    then (fOpts ++ [parser.WithBeforeTime (afterStr flags)])%list else fOpts in
  let fOpts :=
    if negb (String.eqb (packagesF flags) "")
    then (fOpts ++ [parser.WithPackagesFile (packagesF flags)])%list else fOpts in
  let fOpts :=
    if sec flags
    then (fOpts ++ [parser.WithUpdateType securityType])%list else fOpts in
  fOpts.

(** [fCfg, err := parser.NewFilterConfig(fOpts...)] *)
Definition RunE_fCfg (flags : Flags) : parser.filterConfig + error :=
  parser.NewFilterConfig (RunE_fOpts flags).

End Cmd.
End cmd.

(** ** A small concrete world to run the definitions in *)
Module sample.

Definition urls : url.Parser :=
  {| url.URL := string; url.zero := ""; url.Parse := fun s => inl s |}.

(** The clock stands at 1700000000; a year is counted as 365 days. *)
Definition calendar : time.Calendar :=
  {| time.Now := time.Unix 1700000000 0;
     time.AddDate := fun t y m d =>
       {| time.sec := time.sec t + (365 * y + 30 * m + d) * 86400;
          time.nsec := time.nsec t |};
     time.Parse := fun _ _ => (types.zeroTime, Some (errorString "no layout")) |}.

Definition newline : string := String "010" "".

Definition packagesFile : os.File :=
  {| os.data := "kernel-default|6.4.0|150600.1|x86_64" ++ newline
                ++ newline ++ "  glibc|2.38|1|x86_64" ++ newline;
     os.readErr := None; os.tokens := []; os.closeErr := None |}.

Definition blankFile : os.File :=
  {| os.data := newline; os.readErr := None; os.tokens := []; os.closeErr := None |}.

Definition files : os.FileSystem :=
  {| os.Open := fun path =>
       if String.eqb path "sl-micro.packages" then inl packagesFile
       else if String.eqb path "blank.packages" then inl blankFile
       else inr (errorString ("open " ++ path ++ ": no such file or directory")) |}.

(** The writer records which template sections were run on it, and with
    which record, and the byte strings written to it. *)
Inductive emitted : Type :=
| section (name : string) (data : option (@types.Update urls))
| written (bytes : string).

Definition engine : @template.Engine urls :=
  {| template.Writer := list emitted;
     template.Write := fun w b => ((w ++ [written b])%list, None);
     template.Template := unit;
     template.ExecuteTemplate := fun _ w name data =>
       ((w ++ [section name data])%list, None) |}.

Definition encoder : @json.Encoder urls :=
  {| json.encode := fun _ dates => ("[" ++ String.concat "," dates ++ "]", None) |}.

Definition attr (n v : string) : xml.Attr := {| xml.Name := n; xml.Value := v |}.

(** [<update type=T><id>I</id><issued date=D/><pkglist>...P...</pkglist></update>] *)
Definition content (T I D P : string) : xml.Element :=
  {| xml.Attrs := [attr "type" T];
     xml.Children :=
       [ xml.Child_text "id" I;
         xml.Child_issued [attr "date" D];
         xml.Child_package [attr "name" P] None ] |}.

(** The same without any [<issued>] child. *)
Definition undatedContent (T I P : string) : xml.Element :=
  {| xml.Attrs := [attr "type" T];
     xml.Children := [ xml.Child_text "id" I; xml.Child_package [attr "name" P] None ] |}.

(** The record such an element decodes to. *)
Definition record (T I : string) (issued : option time.Time) (P : string)
  : @types.Update urls :=
  {| types.Update_Type := T; types.Update_Status := ""; types.Update_ID := I;
     types.Update_Title := ""; types.Update_Severity := ""; types.Update_Release := "";
     types.Update_Issued := {| types.Issued_Date := issued |};
     types.Update_References := []; types.Update_Description := "";
     types.Update_Packages :=
       [ {| types.Package_Name := P; types.Package_Version := "";
            types.Package_Release := ""; types.Package_Arch := "";
            types.Package_Filename := "" |} ] |}.

Definition root : xml.Token :=
  xml.StartElement "updates" {| xml.Attrs := []; xml.Children := [] |}.

Definition feed : xml.Reader :=
  [ inl root;
    inl (xml.StartElement "update" (content "security" "SUSE-2023-1" "1700000000" "glibc"));
    inl xml.OtherToken;
    inl (xml.StartElement "update" (content "bugfix" "SUSE-2023-2" "1700000100" "vim"));
    inl (xml.StartElement "update" (undatedContent "security" "SUSE-2023-3" "glibc"));
    inl xml.OtherToken ].

Definition allTime : parser.filterConfig :=
  {| parser.beforeDate := time.Unix 4000000000 0;
     parser.afterDate := time.Unix 0 0;
     parser.dateFormat := ""; parser.pkgWhiteList := [];
     parser.updateType := "" |}.

(** Output to an empty writer that needs no closing. *)
Definition templateOut : @parser.outputConfig urls engine :=
  @parser.Build_outputConfig urls engine [] None (Some tt) false.

Definition jsonOut : @parser.outputConfig urls engine :=
  @parser.Build_outputConfig urls engine [] None None true.

(** A handler that refuses every record. *)
Definition refusing : @parser.UpdateHandlerFunc urls (list (@types.Update urls)) :=
  fun u seen => ((seen ++ [u])%list, Some (errorString "disk full")).

End sample.

(** ** Vocabulary of the properties *)
Module props.
Section Props.
Context {U : url.Parser} {T : template.Engine}.

(** Chronological order of instants. *)
Definition earlier (t u : time.Time) : Prop :=
  time.sec t < time.sec u \/ (time.sec t = time.sec u /\ time.nsec t < time.nsec u).

(** The filter predicate in the words of the specification: the type
    constraint when one is set, a present issued date strictly inside
    the window, and the allow-list constraint when the list is not
    empty. *)
Definition passesFilter (filter : parser.filterConfig) (u : types.Update) : Prop :=
  (parser.updateType filter <> "" ->
   types.Update_Type u = parser.updateType filter)
  /\ (exists d,
        types.Issued_Date (types.Update_Issued u) = Some d
        /\ earlier (parser.afterDate filter) d
        /\ earlier d (parser.beforeDate filter))
  /\ (parser.pkgWhiteList filter = []
      \/ exists p,
           In p (types.Update_Packages u)
           /\ In (types.Package_Name p) (parser.pkgWhiteList filter)).

(** The same as a test. *)
Definition passesFilterb (filter : parser.filterConfig) (u : types.Update) : bool :=
  (String.eqb (parser.updateType filter) ""
   || String.eqb (types.Update_Type u) (parser.updateType filter))
  && match types.Issued_Date (types.Update_Issued u) with
     | None => false
     | Some d =>
         time.After d (parser.afterDate filter)
         && time.Before d (parser.beforeDate filter)
     end
  && (match parser.pkgWhiteList filter with [] => true | _ => false end
      || existsb
           (fun p => existsb (String.eqb (types.Package_Name p))
                       (parser.pkgWhiteList filter))
           (types.Update_Packages u)).

(** A handler that also keeps the list of the records it was called on. *)
Definition spy {S : Type} (handler : parser.UpdateHandlerFunc S)
  : parser.UpdateHandlerFunc (S * list types.Update) :=
  fun u '(st, calls) =>
    let '(st', err) := handler u st in ((st', (calls ++ [u])%list), err).

(** The records [Parse] calls the handler on, in order. *)
Definition handled {S : Type} (reader : xml.Reader) (filter : parser.filterConfig)
    (handler : parser.UpdateHandlerFunc S) (st : S) : list types.Update :=
  snd (fst (parser.Parse reader filter (spy handler) (st, []))).

Definition updateElement (content : xml.Element) : xml.Token + error :=
  inl (xml.StartElement parser.updateToken content).

(** The records of a token stream that pass the filter, up to the first
    token or decoding error. *)
Fixpoint survivors (reader : xml.Reader) (filter : parser.filterConfig)
  : list types.Update :=
  match reader with
  | [] => []
  | inr _ :: _ => []
  | inl xml.OtherToken :: rest => survivors rest filter
  | inl (xml.StartElement name content) :: rest =>
      if String.eqb name parser.updateToken then
        match types.DecodeElement content with
        | inr _ => []
        | inl u =>
            if passesFilterb filter u then u :: survivors rest filter
            else survivors rest filter
        end
      else survivors rest filter
  end.

(** One run of a named template section. *)
Definition sectionRun : Type := (string * option types.Update)%type.

Definition header : sectionRun := ("header", None).
Definition join : sectionRun := ("join", None).
Definition footer : sectionRun := ("footer", None).
Definition body (u : types.Update) : sectionRun := ("body", Some u).

(** Bodies in order with a join between any two consecutive ones. *)
Fixpoint joined (us : list types.Update) : list sectionRun :=
  match us with
  | [] => []
  | [u] => [body u]
  | u :: rest => body u :: join :: joined rest
  end.

(** The sections the specification asks for. *)
Definition layout (us : list types.Update) : list sectionRun :=
  (header :: joined us ++ [footer])%list.

Definition named (name : string) (r : sectionRun) : bool := String.eqb (fst r) name.

Definition count (name : string) (l : list sectionRun) : nat :=
  List.length (filter (named name) l).

(** Run the sections one after the other against a writer, stopping at
    the first error. *)
Fixpoint runSections (tmpl : template.Template) (l : list sectionRun)
    (w : template.Writer) : template.Writer * option error :=
  match l with
  | [] => (w, None)
  | (name, data) :: rest =>
      match template.ExecuteTemplate tmpl w name data with
      | (w', Some e) => (w', Some e)
      | (w', None) => runSections tmpl rest w'
      end
  end.

(** The handler called on the records of a list in turn, up to its
    first error. *)
Fixpoint feed {S : Type} (handler : parser.UpdateHandlerFunc S)
    (us : list types.Update) (st : S) : S * option error :=
  match us with
  | [] => (st, None)
  | u :: rest =>
      match handler u st with
      | (st', Some e) => (st', Some e)
      | (st', None) => feed handler rest st'
      end
  end.

End Props.

Fixpoint allChars (P : ascii -> Prop) (s : string) : Prop :=
  match s with
  | EmptyString => True
  | String c rest => P c /\ allChars P rest
  end.

(** Characters [strconv.Quote] copies unchanged. *)
Definition plain (c : ascii) : Prop := strconv.appendEscapedByte c = String c "".

(** The first pipe-delimited field of a line. *)
Fixpoint firstField (s : string) : string :=
  match s with
  | EmptyString => EmptyString
  | String c rest => if Ascii.eqb c "|" then EmptyString else String c (firstField rest)
  end.

(** The allow-list in the words of the specification: the first field of
    every line that is not empty once trimmed. *)
Fixpoint claimedAllowList (lines : list string) : list string :=
  match lines with
  | [] => []
  | line :: rest =>
      let trimmed := strings.TrimSpace line in
      if String.eqb trimmed "" then claimedAllowList rest
      else firstField trimmed :: claimedAllowList rest
  end.

End props.

(** ** parser.go: the output options and [NewOutputConfig] *)
Module outcfg.
Section OutputConfig.
Context {U : url.Parser} {T : template.Engine}.

(** What the output options do to the world besides returning: a file
    created (or truncated) by [os.Create], a text printed on [os.Stderr]. *)
Inductive effect : Type :=
| Created (path : string)
| Stderr (text : string).

(** The host the options run on: [os.Stdout] as a writer, [os.Stat]
    (its error only), [os.Create] (the file as a writer, with its [Close]),
    [template.ParseFiles(file)] and [template.New(name).Parse(text)]. *)
Class Host : Type := {
  Stdout : template.Writer;
  Stat : string -> option error;
  Create : string -> (template.Writer * (unit -> option error)) + error;
  ParseFiles : string -> template.Template + error;
  ParseText : string -> string -> template.Template + error
}.
Context {H : Host}.

Definition defaultTmpl : string :=
  let q := String strconv.dquote "" in
  String.concat (String "010" "")
    [ "{{define " ++ q ++ "join" ++ q ++ "}}"
      ++ "----------------------------------------"
      ++ "----------------------------------------";
      "{{end}}";
      "{{define " ++ q ++ "header" ++ q ++ "}}CHANGE LOG";
      "{{template " ++ q ++ "join" ++ q ++ "}}{{end}}";
      "{{define " ++ q ++ "body" ++ q ++ "}}{{.Title}}";
      "";
      "ID: {{.ID}}";
      "Type: {{.Type}}";
      "Severity: {{.Severity}}";
      "Date: {{.Issued.Date}}";
      "";
      "Description:";
      "{{.Description}}";
      "";
      "{{if .References}}Issues:{{range .References}}";
      "  * {{.Type}}: [{{.ID}}] {{.Title}}{{end}}";
      "";
      "{{end}}{{end}}";
      "{{define " ++ q ++ "footer" ++ q ++ "}}{{template " ++ q ++ "join" ++ q
      ++ "}}{{end}}" ].

(** [OutputOpt], a function from a pointer to [outputConfig] to an error:
    the configuration as the option left it, the error, and what the
    option did to the world. *)
Definition OutputOpt : Type :=
  parser.outputConfig -> (parser.outputConfig * option error) * list effect.

Definition WithJsonOutput : OutputOpt :=
  fun o =>
    (({| parser.output := parser.output o; parser.close := parser.close o;
         parser.template := parser.template o; parser.jsonOut := true |}, None), []).

Definition WithWriter (w : template.Writer) : OutputOpt :=
  fun o =>
    (({| parser.output := w; parser.close := parser.close o;
         parser.template := parser.template o; parser.jsonOut := parser.jsonOut o |},
      None), []).

Definition WithOutputFile (out : string) : OutputOpt :=
  fun o =>
    match Create out with
    | inr err => ((o, Some err), [])
    | inl (f, f_Close) =>
        (({| parser.output := f; parser.close := Some f_Close;
             parser.template := parser.template o;
             parser.jsonOut := parser.jsonOut o |}, None), [Created out])
    end.

(** [t] is a pointer and may be nil. *)
Definition WithTemplate (t : option template.Template) : OutputOpt :=
  fun o =>
    (({| parser.output := parser.output o; parser.close := parser.close o;
         parser.template := t; parser.jsonOut := parser.jsonOut o |}, None), []).

(** [o.template, err = template.ParseFiles(tmpl)]: the pointer is nil when
    the parse fails. *)
Definition WithTemplateFile (tmpl : string) : OutputOpt :=
  fun o =>
    match ParseFiles tmpl with
    | inr err =>
        (({| parser.output := parser.output o; parser.close := parser.close o;
             parser.template := None; parser.jsonOut := parser.jsonOut o |},
          Some err), [])
    | inl t =>
        (({| parser.output := parser.output o; parser.close := parser.close o;
             parser.template := Some t; parser.jsonOut := parser.jsonOut o |},
          None), [])
    end.

(** The [for _, o := range opts] loop of [NewOutputConfig]. *)
Fixpoint applyOpts (opts : list OutputOpt) (oCfg : parser.outputConfig)
  : (parser.outputConfig + error) * list effect :=
  match opts with
  | [] => (inl oCfg, [])
  | o :: rest =>
      match o oCfg with
      | ((_, Some err), effs) => (inr err, effs)
      | ((oCfg', None), effs) =>
          let '(r, effs') := applyOpts rest oCfg' in (r, (effs ++ effs')%list)
      end
  end.

Definition warning : string :=
  "Warning: json output defined, ignoring provided template" ++ String "010" "".

Definition NewOutputConfig (opts : list OutputOpt)
  : (parser.outputConfig + error) * list effect :=
  let oCfg :=
    {| parser.output := Stdout; parser.close := None; parser.template := None;
       parser.jsonOut := false |} in
  match applyOpts opts oCfg with
  | (inr err, effs) => (inr err, effs)
  | (inl oCfg, effs) =>
      match parser.template oCfg, parser.jsonOut oCfg with
      | Some _, true => (inl oCfg, (effs ++ [Stderr warning])%list)
      | None, false =>
          (inl {| parser.output := parser.output oCfg;
                  parser.close := parser.close oCfg;
                  parser.template :=
                    match ParseText "update" defaultTmpl with
                    | inl t => Some t
                    | inr _ => None
                    end;
                  parser.jsonOut := parser.jsonOut oCfg |}, effs)
      | _, _ => (inl oCfg, effs)
      end
  end.

End OutputConfig.
End outcfg.

(** ** The root command: [RunE] *)
Module rootcmd.
Section RootCmd.
Context {U : url.Parser} {C : time.Calendar} {FS : os.FileSystem}.
Context {T : template.Engine} {J : json.Encoder} {H : outcfg.Host}.

(** The [oOpts] of [RunE]. *)
Definition RunE_oOpts (flags : cmd.Flags) : list outcfg.OutputOpt :=
  let oOpts := [] in
  let oOpts :=
    if negb (String.eqb (cmd.output flags) "")
    then (oOpts ++ [outcfg.WithOutputFile (cmd.output flags)])%list else oOpts in
  let oOpts :=
    if negb (String.eqb (cmd.tmplF flags) "")
    then (oOpts ++ [outcfg.WithTemplateFile (cmd.tmplF flags)])%list else oOpts in
  let oOpts :=
    if cmd.json flags
    then (oOpts ++ [outcfg.WithJsonOutput])%list else oOpts in
  oOpts.

(** [RunE] on the one positional argument and the flags: what it did to
    the world, and its result, which is the error it returns together with
    the state of the writer it was to write to when it got as far as
    having one. *)
Definition RunE (updateInfo : string) (flags : cmd.Flags)
  : list outcfg.effect * outcome (option template.Writer * option error) :=
  match outcfg.Stat updateInfo with
  | Some _ =>
      ([], Returns (None, Some (errorString
                                  ("could not fild updateinfo file '" ++ updateInfo
                                   ++ "'"))))
  | None =>
      match parser.NewFilterConfig (cmd.RunE_fOpts flags) with
      | inr err => ([], Returns (None, Some err))
      | inl fCfg =>
          match outcfg.NewOutputConfig (RunE_oOpts flags) with
          | (inr err, effs) => (effs, Returns (None, Some err))
          | (inl oCfg, effs) =>
              (effs,
               match parser.ParseFileToOutput updateInfo fCfg oCfg with
               | Panics => Panics
               | Returns (w, err) => Returns (Some w, err)
               end)
          end
      end
  end.

End RootCmd.
End rootcmd.

(** ** Vocabulary of the further properties *)
Module facts.
Section Facts.
Context {U : url.Parser} {T : template.Engine}.

Definition isDigit (c : ascii) : bool :=
  let v := Z.of_N (N_of_ascii c) in (48 <=? v) && (v <=? 57).

Fixpoint allDigits (s : string) : bool :=
  match s with
  | EmptyString => true
  | String c rest => isDigit c && allDigits rest
  end.

(** An optional sign followed by at least one decimal digit. *)
Definition decimal (s : string) : bool :=
  match s with
  | EmptyString => false
  | String c rest =>
      if (Ascii.eqb c "+" || Ascii.eqb c "-")%bool
      then negb (String.eqb rest "") && allDigits rest
      else allDigits s
  end.

(** Timestamps whose seconds since year 1 fit an [int64]. *)
Definition safe (ts : Z) : Prop :=
  - 2 ^ 63 <= ts < 2 ^ 63 - time.unixToInternal.

(** The packages of an element's children, in document order. *)
Definition packageChildren (cs : list xml.Child) : list types.Package :=
  flat_map
    (fun c =>
       match c with
       | xml.Child_package attrs filename =>
           [types.withFilename (types.decodePackage types.zeroPackage attrs) filename]
       | _ => []
       end) cs.

(** The attribute lists of the [<reference>] children, in document order. *)
Definition referenceChildren (cs : list xml.Child) : list (list xml.Attr) :=
  flat_map
    (fun c => match c with xml.Child_reference attrs => [attrs] | _ => [] end) cs.

(** No [<issued>] child carries a [date] attribute. *)
Definition undated (cs : list xml.Child) : Prop :=
  forall attrs a,
    In (xml.Child_issued attrs) cs -> In a attrs -> xml.Name a <> "date".

Fixpoint noNewline (s : string) : bool :=
  match s with
  | EmptyString => true
  | String c rest => negb (Ascii.eqb c "010") && noNewline rest
  end.

(** Lines put together, each with its newline. *)
Fixpoint unlines (ls : list string) : string :=
  match ls with
  | [] => EmptyString
  | l :: rest => l ++ String "010" (unlines rest)
  end.

(** What [Issued.MarshalJSON] prints for a record with a date. *)
Definition jsonDate (u : types.Update) : string :=
  match types.Issued_Date (types.Update_Issued u) with
  | Some d => strconv.Quote (strconv.FormatInt (time.Time_Unix d))
  | None => EmptyString
  end.

(** The output configuration without its [close]. *)
Definition withoutClose (out : parser.outputConfig) : parser.outputConfig :=
  {| parser.output := parser.output out; parser.close := None;
     parser.template := parser.template out; parser.jsonOut := parser.jsonOut out |}.

(** The error of closing the sink, if it is to be closed. *)
Definition sinkClose (out : parser.outputConfig) : option error :=
  match parser.close out with
  | Some closeFn => closeFn tt
  | None => None
  end.

(** The number a string of decimal digits denotes, read after [n]. *)
Fixpoint digitsValue (s : string) (n : Z) : Z :=
  match s with
  | EmptyString => n
  | String c rest => digitsValue rest (n * 10 + (Z.of_N (N_of_ascii c) - 48))
  end.

(** The integer an optionally signed decimal numeral denotes. *)
Definition decimalValue (s : string) : Z :=
  match s with
  | EmptyString => 0
  | String c rest =>
      if Ascii.eqb c "-" then - digitsValue rest 0
      else if Ascii.eqb c "+" then digitsValue rest 0
      else digitsValue s 0
  end.

(** The value of the last attribute named [n], if there is one. *)
Fixpoint lastAttr (n : string) (attrs : list xml.Attr) : option string :=
  match attrs with
  | [] => None
  | a :: rest =>
      match lastAttr n rest with
      | Some v => Some v
      | None => if String.eqb (xml.Name a) n then Some (xml.Value a) else None
      end
  end.

Definition attrValue (n : string) (attrs : list xml.Attr) : string :=
  match lastAttr n attrs with Some v => v | None => EmptyString end.

(** The package a [<package>] element with these attributes and this
    [<filename>] text stands for. *)
Definition packageOf (attrs : list xml.Attr) (filename : option string)
  : types.Package :=
  {| types.Package_Name := attrValue "name" attrs;
     types.Package_Version := attrValue "version" attrs;
     types.Package_Release := attrValue "release" attrs;
     types.Package_Arch := attrValue "arch" attrs;
     types.Package_Filename :=
       match filename with Some f => f | None => EmptyString end |}.

Definition packagesOf (cs : list xml.Child) : list types.Package :=
  flat_map
    (fun c =>
       match c with
       | xml.Child_package attrs filename => [packageOf attrs filename]
       | _ => []
       end) cs.

(** [r] is the reference a [<reference>] element with these attributes
    stands for: its texts are the attribute values and its URL is the
    href as [url.Parse] reads it. *)
Definition referenceOf (attrs : list xml.Attr) (r : types.Reference) : Prop :=
  types.Reference_ID r = attrValue "id" attrs
  /\ types.Reference_Title r = attrValue "title" attrs
  /\ types.Reference_Type r = attrValue "type" attrs
  /\ match lastAttr "href" attrs with
     | Some h => url.Parse h = inl (types.Reference_URL r)
     | None => types.Reference_URL r = url.zero
     end.

(** The first error of the stream itself, as [Parse] words it: a token
    error that is not [io.EOF], or an [<update>] element that does not
    decode.  It does not depend on the filter or on the handler. *)
Fixpoint streamError (reader : xml.Reader) : option error :=
  match reader with
  | [] => None
  | inr tokenErr :: _ =>
      if error_eqb tokenErr io.EOF then None
      else Some (errorString ("decoding token: " ++ Error tokenErr))
  | inl xml.OtherToken :: rest => streamError rest
  | inl (xml.StartElement name content) :: rest =>
      if String.eqb name parser.updateToken then
        match types.DecodeElement content with
        | inr err =>
            Some (errorString
                    ("decoding element " ++ strconv.Quote name ++ ": " ++ Error err))
        | inl _ => streamError rest
        end
      else streamError rest
  end.

End Facts.
End facts.

(** ** A host for the sample world *)
Module samplehost.

(** A file system with one packages file whose second line is too long
    for the scanner. *)
Fixpoint replicate (n : nat) (c : ascii) : string :=
  match n with
  | O => EmptyString
  | S n' => String c (replicate n' c)
  end.

Definition longLine : string := replicate bufio.MaxScanTokenSize "a".

Definition longFile : os.File :=
  {| os.data := facts.unlines ["glibc|2.38"] ++ longLine ++ sample.newline ++ "vim|9";
     os.readErr := None; os.tokens := []; os.closeErr := None |}.

Definition feedFile : os.File :=
  {| os.data := ""; os.readErr := None; os.tokens := sample.feed;
     os.closeErr := None |}.

Definition files : os.FileSystem :=
  {| os.Open := fun path =>
       if String.eqb path "long.packages" then inl longFile
       else if String.eqb path "updateinfo.xml" then inl feedFile
       else inr (errorString ("open " ++ path ++ ": permission denied")) |}.

(** Every path exists except [missing.xml]; files can be created except
    under [/proc]; the only template file that parses is [ok.tmpl]. *)
Definition host : @outcfg.Host sample.urls sample.engine :=
  @outcfg.Build_Host sample.urls sample.engine
    []
    (fun path =>
       if String.eqb path "missing.xml"
       then Some (errorString "stat missing.xml: no such file or directory")
       else None)
    (fun path =>
       if String.eqb path "/proc/out"
       then inr (errorString "open /proc/out: permission denied")
       else inl ([], fun _ => None))
    (fun path =>
       if String.eqb path "ok.tmpl" then inl tt
       else inr (errorString ("open " ++ path ++ ": no such file or directory")))
    (fun _ _ => inl tt).

(** An input file whose [Close] fails, in a file system of its own. *)
Definition flakyFile : os.File :=
  {| os.data := ""; os.readErr := None; os.tokens := sample.feed;
     os.closeErr := Some (errorString "close flaky.xml: input/output error") |}.

(** The same with a stream that breaks off after the first record. *)
Definition brokenFeed : xml.Reader :=
  [ inl sample.root;
    inl (xml.StartElement "update"
           (sample.content "security" "SUSE-2023-1" "1700000000" "glibc"));
    inr (errorString "unexpected EOF");
    inl (xml.StartElement "update"
           (sample.content "bugfix" "SUSE-2023-2" "1700000100" "vim")) ].

Definition brokenFile : os.File :=
  {| os.data := ""; os.readErr := None; os.tokens := brokenFeed;
     os.closeErr := Some (errorString "close broken.xml: input/output error") |}.

Definition flakyFiles : os.FileSystem :=
  {| os.Open := fun path =>
       if String.eqb path "flaky.xml" then inl flakyFile
       else if String.eqb path "broken.xml" then inl brokenFile
       else inr (errorString ("open " ++ path ++ ": no such file or directory")) |}.

(** Template output to a sink whose [close] fails. *)
Definition fullDisk : @parser.outputConfig sample.urls sample.engine :=
  @parser.Build_outputConfig sample.urls sample.engine []
    (Some (fun _ => Some (errorString "close out.txt: no space left on device")))
    (Some tt) false.

(** An [<update>] element with two references and two packages. *)
Definition richContent : xml.Element :=
  {| xml.Attrs := [sample.attr "type" "security"];
     xml.Children :=
       [ xml.Child_package
           [sample.attr "name" "glibc"; sample.attr "version" "2.38";
            sample.attr "release" "1"; sample.attr "arch" "x86_64"]
           (Some "glibc-2.38-1.x86_64.rpm");
         xml.Child_reference
           [sample.attr "href" "https://bugzilla.suse.com/1"; sample.attr "id" "1";
            sample.attr "title" "first"; sample.attr "type" "bugzilla"];
         xml.Child_issued [sample.attr "date" "1700000000"];
         xml.Child_package [sample.attr "name" "vim"] None;
         xml.Child_reference
           [sample.attr "href" "https://www.suse.com/security/cve/CVE-2023-2";
            sample.attr "id" "CVE-2023-2"; sample.attr "type" "cve"] ] |}.

Definition flags (before after packages tmpl out : string) (sec json : bool)
  : cmd.Flags :=
  {| cmd.beforeStr := before; cmd.afterStr := after; cmd.packagesF := packages;
     cmd.tmplF := tmpl; cmd.output := out; cmd.sec := sec; cmd.json := json |}.

End samplehost.

(* ================================================================== *)
(** * Part II: properties                                              *)
(* ================================================================== *)

(** ** Facts about the library models *)

(** Adding a constant and taking it away again, both on [int64]. *)
Lemma wrap64_add_sub (z k : Z) :
  - 2 ^ 63 <= z < 2 ^ 63 -> wrap64 (wrap64 (z + k) - k) = z.
Proof.
  intros H. unfold wrap64.
  replace ((z + k + 2 ^ 63) mod 2 ^ 64 - 2 ^ 63 - k + 2 ^ 63)
    with ((z + k + 2 ^ 63) mod 2 ^ 64 - k) by lia.
  rewrite Zminus_mod_idemp_l.
  replace (z + k + 2 ^ 63 - k) with (z + 2 ^ 63) by lia.
  rewrite Z.mod_small by lia. lia.
Qed.

Lemma Unix_roundtrip (ts : Z) :
  - 2 ^ 63 <= ts < 2 ^ 63 -> time.Time_Unix (time.Unix ts 0) = ts.
Proof.
  intros H. unfold time.Time_Unix, time.Unix. cbn [time.sec].
  change (0 <? 0) with false. change (0 >=? 1000000000) with false.
  cbn [orb time.sec]. unfold time.internalToUnix.
  rewrite Z.add_opp_r. apply wrap64_add_sub. exact H.
Qed.

Lemma Before_earlier (t u : time.Time) :
  time.Before t u = true <-> props.earlier t u.
Proof.
  unfold time.Before, props.earlier.
  rewrite orb_true_iff, andb_true_iff, !Z.ltb_lt, Z.eqb_eq. tauto.
Qed.

Lemma After_earlier (t u : time.Time) :
  time.After t u = true <-> props.earlier u t.
Proof.
  unfold time.After, props.earlier.
  rewrite orb_true_iff, andb_true_iff, !Z.gtb_ltb, !Z.ltb_lt, Z.eqb_eq.
  intuition lia.
Qed.

Lemma earlier_irrefl (t : time.Time) : ~ props.earlier t t.
Proof. unfold props.earlier. lia. Qed.

(** *** Decimal digits *)

Lemma digitChar_value (d : Z) :
  0 <= d <= 9 -> Z.of_N (N_of_ascii (strconv.digitChar d)) = 48 + d.
Proof.
  intros H. unfold strconv.digitChar.
  rewrite N_ascii_embedding by lia. lia.
Qed.

(** One turn of the [ParseUint] loop on a digit that fits. *)
Lemma parseUintLoop_digit (s0 rest : string) (d n : Z) :
  0 <= d <= 9 -> 0 <= n -> n * 10 + d < 2 ^ 64 ->
  strconv.parseUintLoop s0 (String (strconv.digitChar d) rest) n
  = strconv.parseUintLoop s0 rest (n * 10 + d).
Proof.
  intros Hd Hn Hfit.
  cbn [strconv.parseUintLoop]. cbv zeta.
  rewrite (digitChar_value d Hd).
  replace (48 + d - 48) with d by lia.
  assert (Hcut : strconv.maxUint64 / 10 + 1 = 1844674407370955162) by reflexivity.
  rewrite Hcut.
  assert (H64 : 2 ^ 64 = 18446744073709551616) by reflexivity.
  rewrite H64 in *.
  rewrite (Z.mod_small (n * 10 + d)) by lia.
  replace ((48 <=? 48 + d) && (48 + d <=? 57)) with true
    by (symmetry; apply andb_true_iff; split; apply Z.leb_le; lia).
  replace (n >=? 1844674407370955162) with false
    by (symmetry; rewrite Z.geb_leb; apply Z.leb_gt; lia).
  replace ((n * 10 + d <? n * 10) || (n * 10 + d >? 18446744073709551616 - 1))
    with false
    by (symmetry; apply orb_false_iff; split;
        [apply Z.ltb_ge; lia | rewrite Z.gtb_ltb; apply Z.ltb_ge; lia]).
  reflexivity.
Qed.

(** Reading back what [formatBits] wrote leaves the value in the
    accumulator of the loop. *)
Lemma parseUintLoop_formatBits (s0 : string) (fuel : nat) :
  forall (u : Z) (acc : string),
    0 <= u < 2 ^ 64 -> u < 10 ^ Z.of_nat fuel ->
    strconv.parseUintLoop s0 (strconv.formatBits fuel u acc) 0
    = strconv.parseUintLoop s0 acc u.
Proof.
  induction fuel as [|fuel IH]; intros u acc Hu Hfuel.
  - cbn in Hfuel. assert (u = 0) by lia. subst u. reflexivity.
  - cbn [strconv.formatBits].
    destruct (u <? 10) eqn:Hsmall.
    + apply Z.ltb_lt in Hsmall.
      rewrite parseUintLoop_digit by lia. reflexivity.
    + apply Z.ltb_ge in Hsmall.
      assert (Hdiv : 0 <= u / 10 < 2 ^ 64).
      { split; [apply Z.div_pos; lia|].
        apply Z.div_lt_upper_bound; lia. }
      assert (Hlt : u / 10 < 10 ^ Z.of_nat fuel).
      { apply Z.div_lt_upper_bound; [lia|].
        rewrite Nat2Z.inj_succ, Z.pow_succ_r in Hfuel by lia. lia. }
      rewrite (IH (u / 10) _ Hdiv Hlt).
      pose proof (Z.mod_pos_bound u 10 ltac:(lia)) as Hmod.
      pose proof (Z.div_mod u 10 ltac:(lia)) as Hdm.
      rewrite parseUintLoop_digit by lia.
      f_equal. lia.
Qed.

(** [formatBits] with fuel left always starts with a digit. *)
Lemma formatBits_head (fuel : nat) :
  forall (u : Z) (acc : string),
    0 <= u ->
    exists d rest, 0 <= d <= 9
      /\ strconv.formatBits (S fuel) u acc = String (strconv.digitChar d) rest.
Proof.
  induction fuel as [|fuel IH]; intros u acc Hu.
  - cbn [strconv.formatBits]. destruct (u <? 10) eqn:Hsmall.
    + apply Z.ltb_lt in Hsmall. exists u, acc. split; [lia | reflexivity].
    + pose proof (Z.mod_pos_bound u 10 ltac:(lia)).
      exists (u mod 10), acc. split; [lia | reflexivity].
  - remember (S fuel) as f eqn:Hf.
    cbn [strconv.formatBits]. destruct (u <? 10) eqn:Hsmall.
    + apply Z.ltb_lt in Hsmall. exists u, acc. split; [lia | reflexivity].
    + subst f. apply IH. apply Z.div_pos; lia.
Qed.

Lemma digitChar_not_sign (d : Z) :
  0 <= d <= 9 ->
  Ascii.eqb (strconv.digitChar d) "+" = false
  /\ Ascii.eqb (strconv.digitChar d) "-" = false.
Proof.
  intros H.
  assert (Hc : d = 0 \/ d = 1 \/ d = 2 \/ d = 3 \/ d = 4 \/ d = 5 \/ d = 6
               \/ d = 7 \/ d = 8 \/ d = 9) by lia.
  repeat (destruct Hc as [Hc | Hc]; [subst d; split; reflexivity|]).
  subst d; split; reflexivity.
Qed.

Lemma ParseUint_formatBits (u : Z) :
  0 <= u < 2 ^ 64 ->
  strconv.ParseUint (strconv.formatBits 20 u "") = (u, None).
Proof.
  intros Hu.
  destruct (formatBits_head 19 u "" ltac:(lia)) as (d & rest & Hd & Heq).
  unfold strconv.ParseUint. rewrite Heq. rewrite <- Heq.
  rewrite parseUintLoop_formatBits.
  - reflexivity.
  - exact Hu.
  - assert (H64 : 2 ^ 64 = 18446744073709551616) by reflexivity.
    assert (H20 : 10 ^ Z.of_nat 20 = 100000000000000000000) by reflexivity.
    lia.
Qed.

(** [ParseInt] reads back what [FormatInt] prints. *)
Lemma ParseInt_FormatInt (ts : Z) :
  - 2 ^ 63 <= ts < 2 ^ 63 ->
  strconv.ParseInt (strconv.FormatInt ts) = (ts, None).
Proof.
  intros Hts.
  assert (H63 : 2 ^ 63 = 9223372036854775808) by reflexivity.
  assert (H64 : 2 ^ 64 = 18446744073709551616) by reflexivity.
  unfold strconv.FormatInt. destruct (ts <? 0) eqn:Hneg.
  - apply Z.ltb_lt in Hneg.
    unfold strconv.ParseInt.
    change (Ascii.eqb "-" "+") with false. change (Ascii.eqb "-" "-") with true.
    cbv iota. rewrite ParseUint_formatBits by lia.
    cbv zeta. cbn [negb andb].
    replace (- ts >? 2 ^ 63) with false
      by (symmetry; rewrite Z.gtb_ltb; apply Z.ltb_ge; lia).
    f_equal. lia.
  - apply Z.ltb_ge in Hneg.
    destruct (formatBits_head 19 ts "" ltac:(lia)) as (d & rest & Hd & Heq).
    destruct (digitChar_not_sign d Hd) as [Hplus Hminus].
    unfold strconv.ParseInt. rewrite Heq, Hplus, Hminus. rewrite <- Heq.
    rewrite ParseUint_formatBits by lia.
    cbv zeta. cbn [negb andb].
    replace (ts >=? 2 ^ 63) with false
      by (symmetry; rewrite Z.geb_leb; apply Z.leb_gt; lia).
    reflexivity.
Qed.

(** *** Quoting *)

Lemma escape_plain (s : string) : props.allChars props.plain s -> strconv.escape s = s.
Proof.
  induction s as [|c rest IH]; intros H.
  - reflexivity.
  - destruct H as [Hc Hrest]. cbn [strconv.escape].
    rewrite Hc, (IH Hrest). reflexivity.
Qed.

Lemma digitChar_plain (d : Z) : 0 <= d <= 9 -> props.plain (strconv.digitChar d).
Proof.
  intros H.
  assert (Hc : d = 0 \/ d = 1 \/ d = 2 \/ d = 3 \/ d = 4 \/ d = 5 \/ d = 6
               \/ d = 7 \/ d = 8 \/ d = 9) by lia.
  repeat (destruct Hc as [Hc | Hc]; [subst d; reflexivity|]).
  subst d; reflexivity.
Qed.

Lemma formatBits_plain (fuel : nat) :
  forall (u : Z) (acc : string),
    0 <= u -> props.allChars props.plain acc ->
    props.allChars props.plain (strconv.formatBits fuel u acc).
Proof.
  induction fuel as [|fuel IH]; intros u acc Hu Hacc.
  - exact Hacc.
  - cbn [strconv.formatBits]. destruct (u <? 10) eqn:Hsmall.
    + apply Z.ltb_lt in Hsmall. split; [apply digitChar_plain; lia | exact Hacc].
    + apply IH; [apply Z.div_pos; lia|].
      pose proof (Z.mod_pos_bound u 10 ltac:(lia)).
      split; [apply digitChar_plain; lia | exact Hacc].
Qed.

(** Quoting a printed integer only puts it between quote characters. *)
Lemma Quote_FormatInt (ts : Z) :
  strconv.Quote (strconv.FormatInt ts)
  = String strconv.dquote (strconv.FormatInt ts ++ String strconv.dquote "").
Proof.
  unfold strconv.Quote. rewrite escape_plain; [reflexivity|].
  unfold strconv.FormatInt. destruct (ts <? 0) eqn:Hneg.
  - apply Z.ltb_lt in Hneg. split; [reflexivity|].
    apply formatBits_plain; [lia | exact I].
  - apply Z.ltb_ge in Hneg. apply formatBits_plain; [lia | exact I].
Qed.

(** ** The issued date *)

(** C6. Round trip of the issued date: for every [int64] timestamp [ts],
    the date attribute unmarshaler applied to the attribute string of [ts]
    succeeds, and [Issued.MarshalJSON] on the result emits that same
    decimal string between quotes, the Unix-second integer [ts]; the same
    holds from any attribute string that [ParseInt] reads as [ts]. *)
Theorem issued_date_roundtrip (ts : Z) (d0 : types.date) :
  - 2 ^ 63 <= ts < 2 ^ 63 ->
  let quoted :=
    String strconv.dquote (strconv.FormatInt ts ++ String strconv.dquote "") in
  (exists d,
      types.date_UnmarshalXMLAttr d0
        {| xml.Name := "date"; xml.Value := strconv.FormatInt ts |} = (d, None)
      /\ time.Time_Unix d = ts
      /\ types.Issued_MarshalJSON {| types.Issued_Date := Some d |}
         = Returns (quoted, None))
  /\ (forall v d,
        strconv.ParseInt v = (ts, None) ->
        types.date_UnmarshalXMLAttr d0 {| xml.Name := "date"; xml.Value := v |}
        = (d, None) ->
        types.Issued_MarshalJSON {| types.Issued_Date := Some d |}
        = Returns (quoted, None)).
Proof.
  intros Hts quoted.
  assert (Hany : forall v d,
             strconv.ParseInt v = (ts, None) ->
             types.date_UnmarshalXMLAttr d0 {| xml.Name := "date"; xml.Value := v |}
             = (d, None) ->
             d = time.Unix ts 0).
  { intros v d Hv. unfold types.date_UnmarshalXMLAttr. cbn [xml.Value].
    rewrite Hv. intros [= <-]. reflexivity. }
  assert (Hjson : types.Issued_MarshalJSON
                    {| types.Issued_Date := Some (time.Unix ts 0) |}
                  = Returns (quoted, None)).
  { unfold types.Issued_MarshalJSON. cbn [types.Issued_Date].
    rewrite (Unix_roundtrip ts Hts), Quote_FormatInt. reflexivity. }
  split.
  - exists (time.Unix ts 0). split; [|split].
    + unfold types.date_UnmarshalXMLAttr. cbn [xml.Value].
      rewrite (ParseInt_FormatInt ts Hts). reflexivity.
    + apply Unix_roundtrip, Hts.
    + exact Hjson.
  - intros v d Hv Hd. rewrite (Hany v d Hv Hd). exact Hjson.
Qed.

(** ** The filter *)

Section FilterFacts.
Context {U : url.Parser}.

Lemma Contains_In (l : list string) (v : string) :
  slices.Contains l v = true <-> In v l.
Proof.
  unfold slices.Contains. rewrite existsb_exists. split.
  - intros (x & Hin & Heq). apply String.eqb_eq in Heq. subst x. exact Hin.
  - intros Hin. exists v. split; [exact Hin | apply String.eqb_refl].
Qed.

(** The loop with its [break] finds a package exactly when one is there. *)
Lemma pkgMatchLoop_spec (wl : list string) (pkgs : list types.Package) :
  parser.pkgMatchLoop wl pkgs = true
  <-> exists p, In p pkgs /\ In (types.Package_Name p) wl.
Proof.
  induction pkgs as [|pkg rest IH]; cbn [parser.pkgMatchLoop].
  - split; [discriminate | intros (p & [] & _)].
  - destruct (slices.Contains wl (types.Package_Name pkg)) eqn:Hc.
    + split; [intros _ | reflexivity].
      exists pkg. split; [left; reflexivity | apply Contains_In, Hc].
    + rewrite IH. split.
      * intros (p & Hin & Hwl). exists p. split; [right; exact Hin | exact Hwl].
      * intros (p & [Heq | Hin] & Hwl).
        -- subst p. apply Contains_In in Hwl. congruence.
        -- exists p. split; assumption.
Qed.

Lemma pkgMatchLoop_existsb (wl : list string) (pkgs : list types.Package) :
  parser.pkgMatchLoop wl pkgs
  = existsb (fun p => existsb (String.eqb (types.Package_Name p)) wl) pkgs.
Proof.
  induction pkgs as [|pkg rest IH]; cbn [parser.pkgMatchLoop existsb].
  - reflexivity.
  - rewrite IH. unfold slices.Contains.
    replace (existsb (fun x => String.eqb x (types.Package_Name pkg)) wl)
      with (existsb (String.eqb (types.Package_Name pkg)) wl).
    + destruct (existsb (String.eqb (types.Package_Name pkg)) wl); reflexivity.
    + clear. induction wl as [|x wl IH]; cbn [existsb]; [reflexivity|].
      rewrite IH, (String.eqb_sym x). reflexivity.
Qed.

(** The test and the predicate of the specification agree. *)
Lemma passesFilterb_spec (filter : parser.filterConfig) (u : types.Update) :
  props.passesFilterb filter u = true <-> props.passesFilter filter u.
Proof.
  unfold props.passesFilterb, props.passesFilter.
  rewrite !andb_true_iff, !orb_true_iff, !String.eqb_eq.
  rewrite <- pkgMatchLoop_existsb, pkgMatchLoop_spec.
  split.
  - intros [[Htype Hdate] Hpkg]. split; [|split].
    + intros Hset. destruct Htype as [Hempty | Heq]; [contradiction | exact Heq].
    + destruct (types.Issued_Date (types.Update_Issued u)) as [d|]; [|discriminate].
      apply andb_true_iff in Hdate. destruct Hdate as [Ha Hb].
      exists d. split; [reflexivity|].
      split; [apply After_earlier, Ha | apply Before_earlier, Hb].
    + destruct Hpkg as [Hnil | Hex]; [|right; exact Hex].
      left. destruct (parser.pkgWhiteList filter); [reflexivity | discriminate].
  - intros (Htype & (d & Hd & Ha & Hb) & Hpkg). split; [split|].
    + destruct (String.eqb_spec (parser.updateType filter) "") as [He | Hne].
      * left. exact He.
      * right. apply Htype, Hne.
    + rewrite Hd. apply andb_true_iff.
      split; [apply After_earlier, Ha | apply Before_earlier, Hb].
    + destruct Hpkg as [Hnil | Hex]; [|right; exact Hex].
      left. rewrite Hnil. reflexivity.
Qed.

Lemma passesFilter_dec (filter : parser.filterConfig) (u : types.Update) :
  props.passesFilterb filter u = false <-> ~ props.passesFilter filter u.
Proof.
  rewrite <- passesFilterb_spec.
  destruct (props.passesFilterb filter u); split; congruence.
Qed.

Variable S : Type.
Variable filter : parser.filterConfig.
Variable handler : parser.UpdateHandlerFunc S.

(** One turn of the loop of [Parse] on an [<update>] element that
    decodes: the handler runs exactly when the record passes. *)
Lemma Parse_update (content : xml.Element) (u : types.Update)
    (rest : xml.Reader) (st : S) :
  types.DecodeElement content = inl u ->
  parser.Parse (props.updateElement content :: rest) filter handler st
  = if props.passesFilterb filter u then
      match handler u st with
      | (st', Some err) => (st', Some err)
      | (st', None) => parser.Parse rest filter handler st'
      end
    else parser.Parse rest filter handler st.
Proof.
  intros Hdec. unfold props.updateElement. cbn [parser.Parse].
  rewrite String.eqb_refl, Hdec.
  unfold props.passesFilterb. rewrite <- pkgMatchLoop_existsb.
  destruct (String.eqb (parser.updateType filter) ""); cbn [negb andb orb].
  - destruct (types.Issued_Date (types.Update_Issued u)) as [d|]; [|reflexivity].
    rewrite (andb_comm (time.After _ _)).
    destruct (time.Before d (parser.beforeDate filter) && time.After d (parser.afterDate filter));
      [|reflexivity].
    cbn [andb]. destruct (parser.pkgWhiteList filter); reflexivity.
  - destruct (String.eqb (types.Update_Type u) (parser.updateType filter));
      cbn [negb andb]; [|reflexivity].
    destruct (types.Issued_Date (types.Update_Issued u)) as [d|]; [|reflexivity].
    rewrite (andb_comm (time.After _ _)).
    destruct (time.Before d (parser.beforeDate filter) && time.After d (parser.afterDate filter));
      [|reflexivity].
    cbn [andb]. destruct (parser.pkgWhiteList filter); reflexivity.
Qed.

Lemma Parse_update_fails (content : xml.Element) (err : error)
    (rest : xml.Reader) (st : S) :
  types.DecodeElement content = inr err ->
  parser.Parse (props.updateElement content :: rest) filter handler st
  = (st, Some (errorString
                 ("decoding element " ++ strconv.Quote parser.updateToken ++ ": "
                  ++ Error err))).
Proof.
  intros Hdec. unfold props.updateElement. cbn [parser.Parse].
  rewrite String.eqb_refl, Hdec. reflexivity.
Qed.

End FilterFacts.

(** ** Running [Parse] over a stream *)

Section ParseFacts.
Context {U : url.Parser}.
Variable filter : parser.filterConfig.

(** Every token of a stream falls in one of these cases. *)
Ltac token_cases t Hname :=
  let name := fresh "name" in
  let content := fresh "content" in
  destruct t as [name content|];
  [ destruct (String.eqb name parser.updateToken) eqn:Hname;
    [ apply String.eqb_eq in Hname; subst name;
      change (@inl xml.Token error (xml.StartElement parser.updateToken content))
        with (props.updateElement content) in *
    | ]
  | ].

Lemma Parse_other {S : Type} (handler : parser.UpdateHandlerFunc S)
    (name : string) (content : xml.Element) (rest : xml.Reader) (st : S) :
  String.eqb name parser.updateToken = false ->
  parser.Parse (inl (xml.StartElement name content) :: rest) filter handler st
  = parser.Parse rest filter handler st.
Proof. intros H. cbn [parser.Parse]. rewrite H. reflexivity. Qed.

(** Past a prefix of tokens that went through without error, [Parse]
    goes on with what follows; an error in the prefix is the result. *)
Lemma Parse_app {S : Type} (handler : parser.UpdateHandlerFunc S)
    (toks : list xml.Token) (post : xml.Reader) :
  forall st,
    parser.Parse (map inl toks ++ post)%list filter handler st
    = match parser.Parse (map inl toks) filter handler st with
      | (st1, None) => parser.Parse post filter handler st1
      | (st1, Some e) => (st1, Some e)
      end.
Proof.
  induction toks as [|t toks IH]; intros st.
  - reflexivity.
  - cbn [map app]. token_cases t Hname.
    + destruct (types.DecodeElement content) as [u | err] eqn:Hdec.
      * rewrite !(Parse_update _ _ _ _ u _ _ Hdec).
        destruct (props.passesFilterb filter u); [|apply IH].
        destruct (handler u st) as [st' [e|]]; [reflexivity | apply IH].
      * rewrite !(Parse_update_fails _ _ _ _ err _ _ Hdec). reflexivity.
    + rewrite !(Parse_other _ _ _ _ _ Hname). apply IH.
    + cbn [parser.Parse]. apply IH.
Qed.

(** [Parse] with a spying handler does what [Parse] does and adds the
    calls to the list it was given. *)
Lemma Parse_spy {S : Type} (handler : parser.UpdateHandlerFunc S)
    (reader : xml.Reader) :
  forall st calls,
    parser.Parse reader filter (props.spy handler) (st, calls)
    = ((fst (parser.Parse reader filter handler st),
        (calls ++ props.handled reader filter handler st)%list),
       snd (parser.Parse reader filter handler st)).
Proof.
  induction reader as [|r reader IH]; intros st calls.
  - cbn. rewrite app_nil_r. reflexivity.
  - destruct r as [t | tokenErr].
    + token_cases t Hname.
      * destruct (types.DecodeElement content) as [u | err] eqn:Hdec.
        -- unfold props.handled.
           rewrite !(Parse_update _ _ _ _ u _ _ Hdec).
           destruct (props.passesFilterb filter u).
           ++ unfold props.spy at 1 3. destruct (handler u st) as [st' [e|]].
              ** cbn. reflexivity.
              ** rewrite !IH. cbn [fst snd app].
                 rewrite <- app_assoc. reflexivity.
           ++ rewrite !IH. cbn [fst snd app]. reflexivity.
        -- unfold props.handled.
           rewrite !(Parse_update_fails _ _ _ _ err _ _ Hdec).
           cbn. rewrite app_nil_r. reflexivity.
      * unfold props.handled. rewrite !(Parse_other _ _ _ _ _ Hname).
        rewrite !IH. cbn [fst snd app]. reflexivity.
      * unfold props.handled. cbn [parser.Parse].
        rewrite !IH. cbn [fst snd app]. reflexivity.
    + unfold props.handled. cbn [parser.Parse].
      destruct (error_eqb tokenErr io.EOF); cbn; rewrite app_nil_r; reflexivity.
Qed.

(** What holds of the handler's state before [Parse] and is kept by
    every call on a record that passes the filter holds afterwards. *)
Lemma Parse_invariant {S : Type} (handler : parser.UpdateHandlerFunc S)
    (P : S -> Prop) :
  (forall u st, props.passesFilterb filter u = true -> P st ->
                P (fst (handler u st))) ->
  forall reader st, P st -> P (fst (parser.Parse reader filter handler st)).
Proof.
  intros Hstep reader.
  induction reader as [|r reader IH]; intros st Hst.
  - exact Hst.
  - destruct r as [t | tokenErr].
    + token_cases t Hname.
      * destruct (types.DecodeElement content) as [u | err] eqn:Hdec.
        -- rewrite (Parse_update _ _ _ _ u _ _ Hdec).
           destruct (props.passesFilterb filter u) eqn:Hpass; [|apply IH, Hst].
           pose proof (Hstep u st Hpass Hst) as Hnext.
           destruct (handler u st) as [st' [e|]]; [exact Hnext | apply IH, Hnext].
        -- rewrite (Parse_update_fails _ _ _ _ err _ _ Hdec). exact Hst.
      * rewrite (Parse_other _ _ _ _ _ Hname). apply IH, Hst.
      * cbn [parser.Parse]. apply IH, Hst.
    + cbn [parser.Parse]. destruct (error_eqb tokenErr io.EOF); exact Hst.
Qed.

(** The handler is only ever called on records that pass the filter. *)
Lemma handled_pass {S : Type} (handler : parser.UpdateHandlerFunc S)
    (reader : xml.Reader) (st : S) (u : types.Update) :
  In u (props.handled reader filter handler st) ->
  props.passesFilterb filter u = true.
Proof.
  unfold props.handled.
  pose proof (Parse_invariant (props.spy handler)
                (fun s => Forall (fun v => props.passesFilterb filter v = true) (snd s)))
    as Hinv.
  intros Hin. refine (proj1 (Forall_forall _ _) (Hinv _ reader (st, []) _) u Hin).
  - intros v [s calls] Hpass Hcalls. unfold props.spy.
    destruct (handler v s) as [s' e]. cbn [fst snd] in *.
    apply Forall_app. split; [exact Hcalls | constructor; [exact Hpass | constructor]].
  - constructor.
Qed.

Lemma handled_app {S : Type} (handler : parser.UpdateHandlerFunc S)
    (toks : list xml.Token) (post : xml.Reader) (st : S) :
  props.handled (map inl toks ++ post)%list filter handler st
  = (props.handled (map inl toks) filter handler st
     ++ match parser.Parse (map inl toks) filter handler st with
        | (st1, None) => props.handled post filter handler st1
        | (_, Some _) => []
        end)%list.
Proof.
  unfold props.handled at 1. rewrite Parse_app, Parse_spy.
  destruct (parser.Parse (map inl toks) filter handler st) as [st1 [e|]];
    cbn [fst snd app].
  - rewrite app_nil_r. reflexivity.
  - rewrite Parse_spy. reflexivity.
Qed.

Lemma handled_update {S : Type} (handler : parser.UpdateHandlerFunc S)
    (content : xml.Element) (u : types.Update) (rest : xml.Reader) (st : S) :
  types.DecodeElement content = inl u ->
  props.handled (props.updateElement content :: rest) filter handler st
  = if props.passesFilterb filter u then
      u :: match handler u st with
           | (st', None) => props.handled rest filter handler st'
           | (_, Some _) => []
           end
    else props.handled rest filter handler st.
Proof.
  intros Hdec. unfold props.handled at 1.
  rewrite (Parse_update _ _ _ _ u _ _ Hdec).
  destruct (props.passesFilterb filter u); [|reflexivity].
  unfold props.spy at 1. destruct (handler u st) as [st' [e|]].
  - reflexivity.
  - rewrite Parse_spy. reflexivity.
Qed.

Lemma handled_update_fails {S : Type} (handler : parser.UpdateHandlerFunc S)
    (content : xml.Element) (err : error) (rest : xml.Reader) (st : S) :
  types.DecodeElement content = inr err ->
  props.handled (props.updateElement content :: rest) filter handler st = [].
Proof.
  intros Hdec. unfold props.handled.
  rewrite (Parse_update_fails _ _ _ _ err _ _ Hdec). reflexivity.
Qed.

(** A run of [Parse] that ends without error called the handler on the
    records that pass the filter, all of them, in order. *)
Lemma Parse_feed {S : Type} (handler : parser.UpdateHandlerFunc S)
    (reader : xml.Reader) :
  forall st st',
    parser.Parse reader filter handler st = (st', None) ->
    props.feed handler (props.survivors reader filter) st = (st', None).
Proof.
  induction reader as [|r reader IH]; intros st st' Hrun.
  - exact Hrun.
  - destruct r as [t | tokenErr].
    + token_cases t Hname.
      * unfold props.updateElement in *. cbn [props.survivors].
        rewrite String.eqb_refl.
        change (@inl xml.Token error (xml.StartElement parser.updateToken content))
          with (props.updateElement content) in *.
        destruct (types.DecodeElement content) as [u | err] eqn:Hdec.
        -- rewrite (Parse_update _ _ _ _ u _ _ Hdec) in Hrun.
           destruct (props.passesFilterb filter u); [|apply IH, Hrun].
           cbn [props.feed].
           destruct (handler u st) as [st1 [e|]]; [discriminate | apply IH, Hrun].
        -- rewrite (Parse_update_fails _ _ _ _ err _ _ Hdec) in Hrun. discriminate.
      * rewrite (Parse_other _ _ _ _ _ Hname) in Hrun.
        cbn [props.survivors]. rewrite Hname. apply IH, Hrun.
      * cbn [parser.Parse] in Hrun. cbn [props.survivors]. apply IH, Hrun.
    + cbn [parser.Parse] in Hrun. cbn [props.survivors].
      destruct (error_eqb tokenErr io.EOF); [exact Hrun | discriminate].
Qed.

End ParseFacts.

(** ** What [Parse] hands to its handler *)

Section ParseTheorems.
Context {U : url.Parser}.

(** C1. For an [<update>] element that [Parse] reaches and decodes, the
    handler is called on the record if and only if the record passes the
    filter predicate: the type equals the configured one when one is set,
    the issued date is present and strictly inside the window, and the
    allow-list is empty or names one of the record's packages.  The calls
    made once the element is behind are those made before it, followed by
    the record exactly in that case. *)
Theorem Parse_calls_handler_iff_filter {S : Type}
    (filter : parser.filterConfig) (handler : parser.UpdateHandlerFunc S)
    (toks : list xml.Token) (content : xml.Element) (u : types.Update) (st : S) :
  snd (parser.Parse (map inl toks) filter handler st) = None ->
  types.DecodeElement content = inl u ->
  let before := props.handled (map inl toks) filter handler st in
  let after :=
    props.handled (map inl toks ++ [props.updateElement content])%list
      filter handler st in
  (after = (before ++ [u])%list <-> props.passesFilter filter u)
  /\ (after = before <-> ~ props.passesFilter filter u).
Proof.
  intros Hpre Hdec before after.
  assert (Hafter : after = (before ++ if props.passesFilterb filter u
                                      then [u] else [])%list).
  { subst before after. rewrite handled_app.
    destruct (parser.Parse (map inl toks) filter handler st) as [st1 [e|]];
      [discriminate|].
    rewrite (handled_update _ _ _ u _ _ Hdec).
    destruct (props.passesFilterb filter u); [|reflexivity].
    destruct (handler u st1) as [st' [e|]]; reflexivity. }
  rewrite Hafter. destruct (props.passesFilterb filter u) eqn:Hpass.
  - apply passesFilterb_spec in Hpass. split; split; intros H.
    + exact Hpass.
    + reflexivity.
    + apply (f_equal (@List.length _)) in H. rewrite length_app in H.
      cbn in H. lia.
    + contradiction.
  - apply passesFilter_dec in Hpass. split; split; intros H.
    + apply (f_equal (@List.length _)) in H. rewrite !length_app in H.
      cbn in H. lia.
    + contradiction.
    + exact Hpass.
    + apply app_nil_r.
Qed.

(** C2. Whatever the filter configuration, the stream and the handler, a
    record whose issued date is absent is never among the records the
    handler is called on. *)
Theorem Parse_never_handles_undated {S : Type}
    (reader : xml.Reader) (filter : parser.filterConfig)
    (handler : parser.UpdateHandlerFunc S) (st : S) (u : types.Update) :
  types.Issued_Date (types.Update_Issued u) = None ->
  ~ In u (props.handled reader filter handler st).
Proof.
  intros Hnone Hin.
  apply handled_pass, passesFilterb_spec in Hin.
  destruct Hin as (_ & (d & Hd & _) & _). congruence.
Qed.

(** C3. The window is exclusive at both ends: on an element whose record
    is issued exactly at [afterDate] or exactly at [beforeDate], the
    handler is not called, whatever else the configuration says. *)
Theorem Parse_excludes_window_bounds {S : Type}
    (filter : parser.filterConfig) (handler : parser.UpdateHandlerFunc S)
    (toks : list xml.Token) (content : xml.Element) (u : types.Update)
    (d : types.date) (st : S) :
  types.DecodeElement content = inl u ->
  types.Issued_Date (types.Update_Issued u) = Some d ->
  d = parser.afterDate filter \/ d = parser.beforeDate filter ->
  props.passesFilterb filter u = false
  /\ props.handled (map inl toks ++ [props.updateElement content])%list
       filter handler st
     = props.handled (map inl toks) filter handler st.
Proof.
  intros Hdec Hd Hbound.
  assert (Hpass : props.passesFilterb filter u = false).
  { apply passesFilter_dec. intros (_ & (d' & Hd' & Ha & Hb) & _).
    rewrite Hd in Hd'. injection Hd' as <-.
    destruct Hbound as [-> | ->]; eapply earlier_irrefl; eassumption. }
  split; [exact Hpass|].
  rewrite handled_app.
  destruct (parser.Parse (map inl toks) filter handler st) as [st1 [e|]].
  - apply app_nil_r.
  - rewrite (handled_update _ _ _ u _ _ Hdec), Hpass. apply app_nil_r.
Qed.

(** *** Errors *)

(** An [<issued>] element with a [date] attribute that [ParseInt] rejects
    does not decode. *)
Lemma decodeIssued_bad_date (attrs : list xml.Attr) (a : xml.Attr) :
  In a attrs -> xml.Name a = "date" ->
  snd (strconv.ParseInt (xml.Value a)) <> None ->
  forall i, exists e, types.decodeIssued i attrs = inr e.
Proof.
  intros Hin Hname Hbad.
  induction attrs as [|a0 rest IH]; intros i; [destruct Hin|].
  cbn [types.decodeIssued].
  destruct (String.eqb (xml.Name a0) "date") eqn:Hn0.
  - unfold types.date_UnmarshalXMLAttr.
    destruct (strconv.ParseInt (xml.Value a0)) as [ts [e|]] eqn:Hparse.
    + exists e. reflexivity.
    + destruct Hin as [-> | Hin].
      * rewrite Hparse in Hbad. contradiction.
      * apply (IH Hin).
  - destruct Hin as [-> | Hin].
    + rewrite Hname in Hn0. discriminate.
    + apply (IH Hin).
Qed.

Lemma decodeChildren_bad_date (cs : list xml.Child) (attrs : list xml.Attr)
    (a : xml.Attr) :
  In (xml.Child_issued attrs) cs -> In a attrs -> xml.Name a = "date" ->
  snd (strconv.ParseInt (xml.Value a)) <> None ->
  forall u, exists e, types.decodeChildren u cs = inr e.
Proof.
  intros Hin Ha Hname Hbad.
  induction cs as [|c rest IH]; intros u; [destruct Hin|].
  destruct Hin as [-> | Hin].
  - cbn [types.decodeChildren].
    destruct (decodeIssued_bad_date attrs a Ha Hname Hbad (types.Update_Issued u))
      as [e He].
    rewrite He. exists e. reflexivity.
  - destruct c as [name text | attrs0 | attrs0 | attrs0 filename | e0];
      cbn [types.decodeChildren].
    + apply (IH Hin).
    + destruct (types.decodeIssued (types.Update_Issued u) attrs0) as [i | e];
        [apply (IH Hin) | exists e; reflexivity].
    + destruct (types.decodeReference types.zeroReference attrs0) as [r | e];
        [apply (IH Hin) | exists e; reflexivity].
    + apply (IH Hin).
    + exists e0. reflexivity.
Qed.

(** With a handler that never fails, a stream of tokens whose [<update>]
    elements all decode goes through without error. *)
Lemma Parse_no_error {S : Type} (filter : parser.filterConfig)
    (handler : parser.UpdateHandlerFunc S) (toks : list xml.Token) :
  (forall content, In (xml.StartElement parser.updateToken content) toks ->
                   exists u, types.DecodeElement content = inl u) ->
  (forall u st, snd (handler u st) = None) ->
  forall st, snd (parser.Parse (map inl toks) filter handler st) = None.
Proof.
  intros Hdec Hh.
  induction toks as [|t toks IH]; intros st; [reflexivity|].
  assert (IH' := IH (fun c Hc => Hdec c (or_intror Hc))).
  cbn [map]. destruct t as [name content|].
  - destruct (String.eqb name parser.updateToken) eqn:Hname.
    + apply String.eqb_eq in Hname. subst name.
      destruct (Hdec content (or_introl eq_refl)) as [u Hu].
      change (@inl xml.Token error (xml.StartElement parser.updateToken content))
        with (props.updateElement content).
      rewrite (Parse_update _ _ _ _ u _ _ Hu).
      destruct (props.passesFilterb filter u); [|apply IH'].
      pose proof (Hh u st) as Hnone.
      destruct (handler u st) as [st' [e|]]; [discriminate | apply IH'].
    + cbn [parser.Parse]. rewrite Hname. apply IH'.
  - cbn [parser.Parse]. apply IH'.
Qed.

(** C4. [Parse] returns the first error it meets, and the end of the input
    is not one.  After a prefix of tokens that went through without
    error: (1) if the stream ends there, or with [io.EOF], the result is
    no error; (2) if the handler returns an error on the next record, that
    very error is the result, whatever follows in the stream, and no later
    record is handled; (3) if [DecodeElement] fails on the next [<update>]
    element, for whatever reason (malformed XML, a reference whose href
    does not parse, a bad date), the result is that error wrapped as a
    decoding error, whatever follows, and the handler is not called for
    the element; (4) in particular an [<issued>] child whose [date]
    attribute [ParseInt] rejects makes [DecodeElement] fail so; (5) a
    token error other than the value [io.EOF] is returned wrapped as a
    decoding error, also when its text is that of [io.EOF]; and (6) with a
    handler that never fails and elements that all decode there is no
    error at all. *)
Theorem Parse_returns_first_error {S : Type}
    (filter : parser.filterConfig) (handler : parser.UpdateHandlerFunc S)
    (toks : list xml.Token) (st st1 : S) (post : xml.Reader) :
  parser.Parse (map inl toks) filter handler st = (st1, None) ->
  parser.Parse (map inl toks ++ [inr io.EOF] ++ post)%list filter handler st
  = (st1, None)
  /\ (forall content u st2 e,
        types.DecodeElement content = inl u ->
        props.passesFilter filter u ->
        handler u st1 = (st2, Some e) ->
        parser.Parse (map inl toks ++ props.updateElement content :: post)%list
          filter handler st = (st2, Some e)
        /\ props.handled (map inl toks ++ props.updateElement content :: post)%list
             filter handler st
           = (props.handled (map inl toks) filter handler st ++ [u])%list)
  /\ (forall content e,
        types.DecodeElement content = inr e ->
        parser.Parse (map inl toks ++ props.updateElement content :: post)%list
          filter handler st
        = (st1, Some (errorString
                        ("decoding element " ++ strconv.Quote parser.updateToken
                         ++ ": " ++ Error e)))
        /\ props.handled (map inl toks ++ props.updateElement content :: post)%list
             filter handler st
           = props.handled (map inl toks) filter handler st)
  /\ (forall content attrs a,
        In (xml.Child_issued attrs) (xml.Children content) ->
        In a attrs -> xml.Name a = "date" ->
        snd (strconv.ParseInt (xml.Value a)) <> None ->
        exists e,
          types.DecodeElement content = inr e
          /\ parser.Parse (map inl toks ++ props.updateElement content :: post)%list
               filter handler st
             = (st1, Some (errorString
                             ("decoding element " ++ strconv.Quote parser.updateToken
                              ++ ": " ++ Error e)))
          /\ props.handled (map inl toks ++ props.updateElement content :: post)%list
               filter handler st
             = props.handled (map inl toks) filter handler st)
  /\ (forall tokenErr,
        tokenErr <> io.EOF ->
        parser.Parse (map inl toks ++ inr tokenErr :: post)%list filter handler st
        = (st1, Some (errorString ("decoding token: " ++ Error tokenErr))))
  /\ parser.Parse (map inl toks ++ inr (errorString (Error io.EOF)) :: post)%list
       filter handler st
     = (st1, Some (errorString ("decoding token: " ++ Error io.EOF)))
  /\ (forall toks',
        (forall content, In (xml.StartElement parser.updateToken content) toks' ->
                         exists u, types.DecodeElement content = inl u) ->
        (forall u s, snd (handler u s) = None) ->
        snd (parser.Parse (map inl toks') filter handler st) = None).
Proof.
  intros Hpre. split; [|split; [|split; [|split; [|split; [|split]]]]].
  - rewrite Parse_app, Hpre. reflexivity.
  - intros content u st2 e Hdec Hpass Hfail.
    apply passesFilterb_spec in Hpass. split.
    + rewrite Parse_app, Hpre, (Parse_update _ _ _ _ u _ _ Hdec), Hpass, Hfail.
      reflexivity.
    + rewrite handled_app, Hpre, (handled_update _ _ _ u _ _ Hdec), Hpass, Hfail.
      reflexivity.
  - intros content e He. split.
    + rewrite Parse_app, Hpre. apply Parse_update_fails. exact He.
    + rewrite handled_app, Hpre, (handled_update_fails _ _ _ e _ _ He).
      apply app_nil_r.
  - intros content attrs a Hchild Ha Hname Hbad.
    destruct (decodeChildren_bad_date _ _ _ Hchild Ha Hname Hbad
                (types.decodeUpdateAttrs types.zeroUpdate (xml.Attrs content)))
      as [e He].
    exists e. split; [exact He | split].
    + rewrite Parse_app, Hpre. apply Parse_update_fails. exact He.
    + rewrite handled_app, Hpre, (handled_update_fails _ _ _ e _ _ He).
      apply app_nil_r.
  - intros tokenErr Hne. rewrite Parse_app, Hpre. cbn [parser.Parse].
    destruct tokenErr as [msg | fn num err |]; [reflexivity | reflexivity|].
    destruct (Hne eq_refl).
  - rewrite Parse_app, Hpre. reflexivity.
  - intros toks' Hdec Hh. apply Parse_no_error; assumption.
Qed.

(** Appending a dated record keeps the calls to [Issued.MarshalJSON]
    returning. *)
Lemma marshalDates_snoc (updates : list types.Update) (u : types.Update)
    (d : types.date) :
  types.Issued_Date (types.Update_Issued u) = Some d ->
  (exists dates, json.marshalDates updates = Returns dates) ->
  exists dates, json.marshalDates (updates ++ [u])%list = Returns dates.
Proof.
  intros Hd. induction updates as [|v updates IH]; intros [dates Hdates].
  - cbn. unfold types.Issued_MarshalJSON. rewrite Hd. eexists. reflexivity.
  - cbn [app json.marshalDates] in *.
    destruct (types.Issued_MarshalJSON (types.Update_Issued v)) as [[b err]|];
      [|discriminate].
    destruct (json.marshalDates updates) as [bs|]; [|discriminate].
    destruct (IH (ex_intro _ bs eq_refl)) as [ds Hds].
    rewrite Hds. eexists. reflexivity.
Qed.

(** C10. Every record [Parse] calls its handler on has an issued date, so
    [Issued.MarshalJSON] returns on it (the quoted Unix seconds) and the
    JSON strategy of [ParseToOutput] never panics; on an [Issued] without
    date, [MarshalJSON] dereferences nil and panics. *)
Theorem handled_records_marshal_safely {S : Type} {T : template.Engine}
    {J : json.Encoder}
    (reader : xml.Reader) (filter : parser.filterConfig)
    (handler : parser.UpdateHandlerFunc S) (st : S) (out : parser.outputConfig) :
  (forall u, In u (props.handled reader filter handler st) ->
     exists d,
       types.Issued_Date (types.Update_Issued u) = Some d
       /\ types.Issued_MarshalJSON (types.Update_Issued u)
          = Returns (strconv.Quote (strconv.FormatInt (time.Time_Unix d)), None))
  /\ (parser.jsonOut out = true -> parser.ParseToOutput reader filter out <> Panics)
  /\ types.Issued_MarshalJSON {| types.Issued_Date := None |} = Panics.
Proof.
  split; [|split].
  - intros u Hin. apply handled_pass, passesFilterb_spec in Hin.
    destruct Hin as (_ & (d & Hd & _) & _).
    exists d. split; [exact Hd|].
    unfold types.Issued_MarshalJSON. rewrite Hd. reflexivity.
  - intros Hjson. unfold parser.ParseToOutput. rewrite Hjson. cbn [negb].
    assert (Hinv : exists dates,
               json.marshalDates
                 (fst (parser.Parse reader filter parser.jsonHandler []))
               = Returns dates).
    { apply (Parse_invariant filter parser.jsonHandler
               (fun updates => exists dates, json.marshalDates updates = Returns dates)).
      - intros u updates Hpass Hdates. unfold parser.jsonHandler. cbn [fst].
        apply passesFilterb_spec in Hpass. destruct Hpass as (_ & (d & Hd & _) & _).
        apply (marshalDates_snoc updates u d Hd Hdates).
      - exists []. reflexivity. }
    destruct (parser.Parse reader filter parser.jsonHandler []) as [updates [e|]];
      [discriminate|].
    cbn [fst] in Hinv. destruct Hinv as [dates Hdates].
    unfold json.MarshalIndent. rewrite Hdates.
    destruct (json.encode updates dates) as [data [e|]]; discriminate.
  - reflexivity.
Qed.

End ParseTheorems.

(** ** The template strategy *)

Section TemplateFacts.
Context {U : url.Parser} {T : template.Engine} {J : json.Encoder}.

(** A join and a body for every record: what follows the first body. *)
Lemma joined_cons (u : types.Update) (rest : list types.Update) :
  props.joined (u :: rest)
  = props.body u :: flat_map (fun v => [props.join; props.body v]) rest.
Proof.
  revert u. induction rest as [|v rest IH]; intros u; [reflexivity|].
  change (props.joined (u :: v :: rest))
    with (props.body u :: props.join :: props.joined (v :: rest)).
  rewrite IH. reflexivity.
Qed.

Lemma runSections_app (tmpl : template.Template) (l1 l2 : list props.sectionRun)
    (w w1 : template.Writer) :
  props.runSections tmpl l1 w = (w1, None) ->
  props.runSections tmpl (l1 ++ l2)%list w = props.runSections tmpl l2 w1.
Proof.
  revert w. induction l1 as [|[name data] l1 IH]; intros w Hrun.
  - injection Hrun as <-. reflexivity.
  - cbn [app props.runSections] in *.
    destruct (template.ExecuteTemplate tmpl w name data) as [w' [e|]];
      [discriminate | apply IH, Hrun].
Qed.

(** Once the first record is out, each further one costs a join and a
    body. *)
Lemma feed_templateHandler_rest (tmpl : template.Template)
    (us : list types.Update) :
  forall w w' first',
    props.feed (parser.templateHandler tmpl) us (w, false) = ((w', first'), None) ->
    props.runSections tmpl (flat_map (fun v => [props.join; props.body v]) us) w
    = (w', None).
Proof.
  induction us as [|u rest IH]; intros w w' first' Hfeed.
  - injection Hfeed as <- _. reflexivity.
  - cbn [props.feed] in Hfeed. unfold parser.templateHandler at 1 in Hfeed.
    cbn [negb flat_map app props.runSections] in *.
    unfold props.join, props.body.
    destruct (template.ExecuteTemplate tmpl w "join" None) as [w1 [e|]];
      [discriminate|].
    destruct (template.ExecuteTemplate tmpl w1 "body" (Some u)) as [w2 [e|]];
      [discriminate|].
    apply (IH _ _ _ Hfeed).
Qed.

Lemma feed_templateHandler (tmpl : template.Template) (us : list types.Update)
    (w w' : template.Writer) (first' : bool) :
  props.feed (parser.templateHandler tmpl) us (w, true) = ((w', first'), None) ->
  props.runSections tmpl (props.joined us) w = (w', None).
Proof.
  destruct us as [|u rest]; intros Hfeed.
  - injection Hfeed as <- _. reflexivity.
  - rewrite joined_cons. cbn [props.feed] in Hfeed.
    unfold parser.templateHandler at 1 in Hfeed.
    cbn [negb props.runSections] in *. unfold props.body at 1.
    destruct (template.ExecuteTemplate tmpl w "body" (Some u)) as [w2 [e|]];
      [discriminate|].
    apply (feed_templateHandler_rest _ _ _ _ _ Hfeed).
Qed.

(** The deferred close only ever turns a success into an error. *)
Lemma deferClose_success (out : parser.outputConfig)
    (ret : template.Writer * option error) (w : template.Writer) :
  parser.deferClose out ret = (w, None) -> ret = (w, None).
Proof.
  unfold parser.deferClose. destruct ret as [w0 [e|]]; cbn [fst snd].
  - destruct (parser.close out) as [closeFn|]; [destruct (closeFn tt)|]; auto.
  - destruct (parser.close out) as [closeFn|];
      [destruct (closeFn tt); [discriminate|]|]; auto.
Qed.

Lemma count_rest (name : string) (us : list types.Update) :
  props.count name (flat_map (fun v => [props.join; props.body v]) us)
  = ((if String.eqb "join" name then 1 else 0) * List.length us
     + (if String.eqb "body" name then 1 else 0) * List.length us)%nat.
Proof.
  unfold props.count. induction us as [|u rest IH]; [cbn; lia|].
  cbn [flat_map app filter].
  change (props.named name props.join) with (String.eqb "join" name).
  change (props.named name (props.body u)) with (String.eqb "body" name).
  destruct (String.eqb "join" name), (String.eqb "body" name);
    cbn [List.length]; rewrite IH; lia.
Qed.

Lemma count_layout (us : list types.Update) :
  props.count "header" (props.layout us) = 1%nat
  /\ props.count "body" (props.layout us) = List.length us
  /\ props.count "join" (props.layout us) = (List.length us - 1)%nat
  /\ props.count "footer" (props.layout us) = 1%nat.
Proof.
  assert (Happ : forall name l1 l2,
             props.count name (l1 ++ l2)%list
             = (props.count name l1 + props.count name l2)%nat).
  { intros. unfold props.count. rewrite filter_app, length_app. reflexivity. }
  unfold props.layout.
  change (props.header :: props.joined us ++ [props.footer])%list
    with ([props.header] ++ props.joined us ++ [props.footer])%list.
  destruct us as [|u rest].
  - repeat split; reflexivity.
  - rewrite joined_cons.
    change (props.body u :: flat_map (fun v => [props.join; props.body v]) rest)
      with ([props.body u] ++ flat_map (fun v => [props.join; props.body v]) rest)%list.
    rewrite !Happ, !count_rest. cbn. repeat split; lia.
Qed.

(** In the layout every join stands right after a body and right before
    another. *)
Lemma join_between_bodies (us : list types.Update) :
  forall l1 l2,
    (props.joined us ++ [props.footer])%list = (l1 ++ props.join :: l2)%list ->
    exists l1' u v l2', l1 = (l1' ++ [props.body u])%list /\ l2 = props.body v :: l2'.
Proof.
  induction us as [|u rest IH]; intros l1 l2 Heq.
  - destruct l1 as [|x [|y l1]]; cbn in Heq; discriminate.
  - destruct rest as [|v rest].
    + destruct l1 as [|x [|y [|z l1]]]; cbn in Heq; discriminate.
    + change (props.joined (u :: v :: rest))
        with (props.body u :: props.join :: props.joined (v :: rest)) in Heq.
      destruct l1 as [|x l1]; [cbn in Heq; discriminate|].
      cbn [app] in Heq. injection Heq as <- Heq.
      destruct l1 as [|y l1].
      * cbn [app] in Heq. injection Heq as <-.
        exists [], u, v. destruct rest; eexists; split; reflexivity.
      * cbn [app] in Heq. injection Heq as <- Heq.
        destruct (IH _ _ Heq) as (l1' & a & b & l2' & -> & ->).
        exists (props.body u :: props.join :: l1'), a, b, l2'.
        split; reflexivity.
Qed.

(** C5. Under the template strategy, a run that succeeds with the records
    [us] surviving the filter has run, in this order and each without
    error, the header, the bodies of [us] in order with a join between any
    two consecutive ones, and the footer: one header, one body per record,
    one join fewer than records (none for no record), one footer, and
    every join stands between two bodies. *)
Theorem template_strategy_layout
    (reader : xml.Reader) (filter : parser.filterConfig)
    (out : parser.outputConfig) (tmpl : template.Template) (w' : template.Writer) :
  parser.jsonOut out = false ->
  parser.template out = Some tmpl ->
  parser.ParseToOutput reader filter out = Returns (w', None) ->
  let us := props.survivors reader filter in
  props.runSections tmpl (props.layout us) (parser.output out) = (w', None)
  /\ props.layout us = (props.header :: props.joined us ++ [props.footer])%list
  /\ props.count "header" (props.layout us) = 1%nat
  /\ props.count "body" (props.layout us) = List.length us
  /\ props.count "join" (props.layout us) = (List.length us - 1)%nat
  /\ props.count "footer" (props.layout us) = 1%nat
  /\ (forall l1 l2,
        props.layout us = (l1 ++ props.join :: l2)%list ->
        exists l1' u v l2',
          l1 = (l1' ++ [props.body u])%list /\ l2 = props.body v :: l2').
Proof.
  intros Hjson Htmpl Hrun us.
  split; [|split; [reflexivity|]].
  - unfold parser.ParseToOutput in Hrun. rewrite Hjson, Htmpl in Hrun.
    cbn [negb] in Hrun. unfold props.layout, props.header.
    cbn [props.runSections].
    destruct (template.ExecuteTemplate tmpl (parser.output out) "header" None)
      as [w0 [e|]].
    + injection Hrun as Hrun. apply deferClose_success in Hrun. discriminate.
    + destruct (parser.Parse reader filter (parser.templateHandler tmpl) (w0, true))
        as [[w1 first'] [e|]] eqn:Hparse.
      * injection Hrun as Hrun. apply deferClose_success in Hrun. discriminate.
      * injection Hrun as Hrun. apply deferClose_success in Hrun.
        apply Parse_feed, feed_templateHandler in Hparse.
        rewrite (runSections_app _ _ _ _ _ Hparse).
        cbn [props.runSections props.footer]. rewrite Hrun. reflexivity.
  - pose proof (count_layout us) as (Hh & Hb & Hj & Hf).
    repeat split; try assumption.
    intros l1 l2 Heq. unfold props.layout in Heq.
    destruct l1 as [|x l1]; [discriminate|].
    cbn [app] in Heq. injection Heq as <- Heq.
    destruct (join_between_bodies us l1 l2 Heq) as (l1' & a & b & l2' & -> & ->).
    exists (props.header :: l1'), a, b, l2'. split; reflexivity.
Qed.

End TemplateFacts.

(** ** The package allow-list *)

Lemma string_app_nil_r (s : string) : s ++ "" = s.
Proof. induction s as [|c s IH]; [reflexivity | cbn; rewrite IH; reflexivity]. Qed.

Lemma string_app_assoc (a b c : string) : (a ++ b) ++ c = a ++ (b ++ c).
Proof. induction a as [|x a IH]; [reflexivity | cbn; rewrite IH; reflexivity]. Qed.

(** The first element [strings.Split] returns is the text before the first
    separator. *)
Lemma splitFrom_hd (s cur : string) :
  hd "" (strings.splitFrom s "|" cur) = cur ++ props.firstField s.
Proof.
  revert cur. induction s as [|c rest IH]; intros cur.
  - cbn. symmetry. apply string_app_nil_r.
  - cbn [strings.splitFrom props.firstField].
    destruct (Ascii.eqb c "|").
    + cbn. symmetry. apply string_app_nil_r.
    + rewrite IH, string_app_assoc. reflexivity.
Qed.

Lemma Split_hd (s : string) : hd "" (strings.Split s "|") = props.firstField s.
Proof. unfold strings.Split. apply splitFrom_hd. Qed.

(** The scanning loop appends one name per line. *)
Lemma fold_appendPackageName (lines : list string) (packages : list string) :
  fold_left parser.appendPackageName lines packages
  = (packages
     ++ map (fun line => props.firstField (strings.TrimSpace line)) lines)%list.
Proof.
  revert packages. induction lines as [|line rest IH]; intros packages.
  - cbn. symmetry. apply app_nil_r.
  - cbn [fold_left map]. rewrite IH. unfold parser.appendPackageName.
    rewrite Split_hd, <- app_assoc. reflexivity.
Qed.

Section Files.
Context {U : url.Parser} {C : time.Calendar} {FS : os.FileSystem}.
Context {T : template.Engine} {J : json.Encoder}.

(** C7, as the code has it.  For a file that opens and that the scanner
    reads to the end, the loader returns one entry per line, blank lines
    included: the first pipe-delimited field of the line once trimmed,
    which is the empty string for a blank line.  For the empty path it
    returns the empty list and no error. *)
Theorem readPackagesFile_first_field_per_line
    (pkgFile : string) (file : os.File) (lines : list string) :
  pkgFile <> "" ->
  os.Open pkgFile = inl file ->
  bufio.scanLines (os.data file) "" (os.readErr file) = (lines, None) ->
  parser.readPackagesFile pkgFile
  = (map (fun line => props.firstField (strings.TrimSpace line)) lines, None)
  /\ (forall line, strings.TrimSpace line = "" ->
                   props.firstField (strings.TrimSpace line) = "")
  /\ parser.readPackagesFile "" = ([], None).
Proof.
  intros Hpath Hopen Hscan. split; [|split].
  - unfold parser.readPackagesFile.
    destruct (String.eqb_spec pkgFile "") as [He | _]; [contradiction|].
    rewrite Hopen, Hscan, fold_appendPackageName. reflexivity.
  - intros line ->. reflexivity.
  - reflexivity.
Qed.

(** C8, as the code has it.  With only the after-date flag given, as a
    Unix timestamp, it is [beforeDate] that receives the time read from the
    flag and [afterDate] stays at the epoch: the configuration is the one
    the before-date flag alone gives for the same string. *)
Theorem RunE_date_flags_both_set_beforeDate
    (s : string) (ts : Z) (tmplF output : string) (json : bool) :
  s <> "" ->
  strconv.ParseInt s = (ts, None) ->
  let fCfg :=
    {| parser.beforeDate := time.Unix ts 0;
       parser.afterDate := time.Unix 0 0;
       parser.dateFormat := "";
       parser.pkgWhiteList := [];
       parser.updateType := "" |} in
  cmd.RunE_fCfg
    {| cmd.beforeStr := ""; cmd.afterStr := s; cmd.packagesF := "";
       cmd.tmplF := tmplF; cmd.output := output; cmd.sec := false;
       cmd.json := json |}
  = inl fCfg
  /\ cmd.RunE_fCfg
       {| cmd.beforeStr := s; cmd.afterStr := ""; cmd.packagesF := "";
          cmd.tmplF := tmplF; cmd.output := output; cmd.sec := false;
          cmd.json := json |}
     = inl fCfg.
Proof.
  intros Hs Hparse fCfg.
  unfold cmd.RunE_fCfg, cmd.RunE_fOpts.
  cbn [cmd.beforeStr cmd.afterStr cmd.packagesF cmd.sec].
  destruct (String.eqb_spec s "") as [He | _]; [contradiction|].
  cbn [String.eqb negb app].
  unfold parser.NewFilterConfig. cbn [parser.applyOpts].
  unfold parser.WithBeforeTime, parser.parseTime.
  cbn [parser.dateFormat String.eqb]. rewrite Hparse. split; reflexivity.
Qed.

(** C9, as the code has it.  When the file cannot be opened,
    [ParseFileToOutput] returns no error, and leaves the output alone. *)
Theorem ParseFileToOutput_open_failure_returns_nil
    (updateXML : string) (filter : parser.filterConfig)
    (out : parser.outputConfig) (err : error) :
  os.Open updateXML = inr err ->
  parser.ParseFileToOutput updateXML filter out = Returns (parser.output out, None).
Proof.
  intros Hopen. unfold parser.ParseFileToOutput. rewrite Hopen. reflexivity.
Qed.

End Files.

(** ** The properties at work in the sample world *)

Section Witnesses.
#[local] Existing Instance sample.urls.
#[local] Existing Instance sample.calendar.
#[local] Existing Instance sample.files.
#[local] Existing Instance sample.engine.
#[local] Existing Instance sample.encoder.

(** *** Runs on concrete inputs *)

Example ParseInt_examples :
  strconv.ParseInt "1700000000" = (1700000000, None)
  /\ strconv.ParseInt "-9223372036854775808" = (- 9223372036854775808, None)
  /\ strconv.ParseInt "9223372036854775808"
     = (9223372036854775807,
        Some (NumError "ParseInt" "9223372036854775808" strconv.ErrRange))
  /\ strconv.ParseInt "not-a-number"
     = (0, Some (NumError "ParseInt" "not-a-number" strconv.ErrSyntax))
  /\ strconv.ParseInt "" = (0, Some (NumError "ParseInt" "" strconv.ErrSyntax)).
Proof. repeat split; reflexivity. Qed.

Example FormatInt_examples :
  strconv.FormatInt 0 = "0"
  /\ strconv.FormatInt 1700000000 = "1700000000"
  /\ strconv.FormatInt (- 9223372036854775808) = "-9223372036854775808".
Proof. repeat split; reflexivity. Qed.

Example scanLines_example :
  bufio.scanLines (os.data sample.packagesFile) "" None
  = ([ "kernel-default|6.4.0|150600.1|x86_64"; ""; "  glibc|2.38|1|x86_64" ], None).
Proof. reflexivity. Qed.

(** Two records, one of type security issued at 1700000000 and one of type
    bugfix issued at 1700000100, security only, no date bounds: the first
    record alone comes out. *)
Example security_only_example :
  props.handled
    [ inl (xml.StartElement "update"
             (sample.content "security" "SUSE-2023-1" "1700000000" "glibc"));
      inl (xml.StartElement "update"
             (sample.content "bugfix" "SUSE-2023-2" "1700000100" "vim")) ]
    {| parser.beforeDate := parser.beforeDate sample.allTime;
       parser.afterDate := parser.afterDate sample.allTime;
       parser.dateFormat := ""; parser.pkgWhiteList := [];
       parser.updateType := "security" |}
    parser.jsonHandler []
  = [ sample.record "security" "SUSE-2023-1" (Some (time.Unix 1700000000 0)) "glibc" ].
Proof. reflexivity. Qed.

(** A record without packages against a non-empty allow-list is left out. *)
Example no_packages_example :
  props.handled
    [ inl (xml.StartElement "update"
             {| xml.Attrs := [sample.attr "type" "security"];
                xml.Children := [xml.Child_issued [sample.attr "date" "1700000000"]] |}) ]
    {| parser.beforeDate := parser.beforeDate sample.allTime;
       parser.afterDate := parser.afterDate sample.allTime;
       parser.dateFormat := ""; parser.pkgWhiteList := ["glibc"];
       parser.updateType := "" |}
    parser.jsonHandler []
  = [].
Proof. reflexivity. Qed.

(** The sample feed through both strategies. *)
Example template_run_example :
  parser.ParseToOutput sample.feed sample.allTime sample.templateOut
  = Returns
      ([ sample.section "header" None;
         sample.section "body"
           (Some (sample.record "security" "SUSE-2023-1"
                    (Some (time.Unix 1700000000 0)) "glibc"));
         sample.section "join" None;
         sample.section "body"
           (Some (sample.record "bugfix" "SUSE-2023-2"
                    (Some (time.Unix 1700000100 0)) "vim"));
         sample.section "footer" None ], None).
Proof. reflexivity. Qed.

Example json_run_example :
  parser.ParseToOutput sample.feed sample.allTime sample.jsonOut
  = Returns
      ([ sample.written
           ("[" ++ strconv.Quote "1700000000" ++ "," ++ strconv.Quote "1700000100"
            ++ "]") ], None).
Proof. reflexivity. Qed.

(** *** The theorems at concrete inputs *)

Lemma issued_date_roundtrip_witness :
  - 2 ^ 63 <= 1700000000 < 2 ^ 63
  /\ types.Issued_MarshalJSON
       {| types.Issued_Date := Some (time.Unix 1700000000 0) |}
     = Returns (String strconv.dquote ("1700000000" ++ String strconv.dquote ""), None).
Proof.
  assert (Hts : - 2 ^ 63 <= 1700000000 < 2 ^ 63) by lia.
  split; [exact Hts|].
  destruct (issued_date_roundtrip 1700000000 types.zeroTime Hts) as [_ Hany].
  apply (Hany "1700000000" (time.Unix 1700000000 0)); reflexivity.
Defined.

Lemma Parse_calls_handler_iff_filter_witness :
  props.handled
    (map inl [sample.root]
     ++ [props.updateElement
           (sample.content "security" "SUSE-2023-1" "1700000000" "glibc")])%list
    sample.allTime parser.jsonHandler []
  = (props.handled (map inl [sample.root]) sample.allTime parser.jsonHandler []
     ++ [sample.record "security" "SUSE-2023-1" (Some (time.Unix 1700000000 0)) "glibc"])%list
  <-> props.passesFilter sample.allTime
        (sample.record "security" "SUSE-2023-1" (Some (time.Unix 1700000000 0)) "glibc").
Proof.
  apply (Parse_calls_handler_iff_filter sample.allTime parser.jsonHandler
           [sample.root]
           (sample.content "security" "SUSE-2023-1" "1700000000" "glibc")
           (sample.record "security" "SUSE-2023-1" (Some (time.Unix 1700000000 0)) "glibc")
           []);
    reflexivity.
Defined.

Lemma Parse_never_handles_undated_witness :
  ~ In (sample.record "security" "SUSE-2023-3" None "glibc")
       (props.handled sample.feed sample.allTime parser.jsonHandler []).
Proof.
  apply (Parse_never_handles_undated sample.feed sample.allTime parser.jsonHandler []).
  reflexivity.
Defined.

Lemma Parse_excludes_window_bounds_witness :
  props.handled
    (map inl [sample.root]
     ++ [props.updateElement (sample.content "security" "SUSE-1970-1" "0" "glibc")])%list
    sample.allTime parser.jsonHandler []
  = props.handled (map inl [sample.root]) sample.allTime parser.jsonHandler [].
Proof.
  apply (Parse_excludes_window_bounds sample.allTime parser.jsonHandler
           [sample.root] (sample.content "security" "SUSE-1970-1" "0" "glibc")
           (sample.record "security" "SUSE-1970-1" (Some (time.Unix 0 0)) "glibc")
           (time.Unix 0 0) []).
  - reflexivity.
  - reflexivity.
  - left. reflexivity.
Defined.

Lemma Parse_returns_first_error_witness :
  parser.Parse
    (map inl [sample.root]
     ++ props.updateElement (sample.content "security" "SUSE-2023-1" "1700000000" "glibc")
        :: sample.feed)%list
    sample.allTime sample.refusing []
  = ([sample.record "security" "SUSE-2023-1" (Some (time.Unix 1700000000 0)) "glibc"],
     Some (errorString "disk full"))
  /\ (exists e,
       parser.Parse
         (map inl [sample.root]
          ++ props.updateElement (sample.content "security" "SUSE-2023-1" "not-a-number" "glibc")
             :: sample.feed)%list
         sample.allTime sample.refusing []
       = ([], Some (errorString
                      ("decoding element " ++ strconv.Quote parser.updateToken ++ ": "
                       ++ Error e))))
  /\ parser.Parse
       (map inl [sample.root]
        ++ props.updateElement
             {| xml.Attrs := [];
                xml.Children := [xml.Child_malformed (errorString "unexpected EOF")] |}
           :: sample.feed)%list
       sample.allTime sample.refusing []
     = ([], Some (errorString
                    ("decoding element " ++ strconv.Quote parser.updateToken
                     ++ ": unexpected EOF")))
  /\ parser.Parse
       (map inl [sample.root] ++ inr (errorString "EOF") :: sample.feed)%list
       sample.allTime sample.refusing []
     = ([], Some (errorString "decoding token: EOF")).
Proof.
  pose proof (Parse_returns_first_error sample.allTime sample.refusing
                [sample.root] [] [] sample.feed eq_refl)
    as (_ & Hhandler & Hdecode & Hdate & _ & Hforeign & _).
  split; [|split; [|split]].
  - apply (Hhandler _ (sample.record "security" "SUSE-2023-1"
                         (Some (time.Unix 1700000000 0)) "glibc")).
    + reflexivity.
    + apply passesFilterb_spec. reflexivity.
    + reflexivity.
  - destruct (Hdate (sample.content "security" "SUSE-2023-1" "not-a-number" "glibc")
                [sample.attr "date" "not-a-number"]
                (sample.attr "date" "not-a-number"))
      as (e & _ & Hparse & _).
    + right. left. reflexivity.
    + left. reflexivity.
    + reflexivity.
    + discriminate.
    + exists e. exact Hparse.
  - apply (Hdecode _ (errorString "unexpected EOF")). reflexivity.
  - exact Hforeign.
Defined.

Lemma template_strategy_layout_witness :
  List.length (props.survivors sample.feed sample.allTime) = 2%nat
  /\ props.count "join" (props.layout (props.survivors sample.feed sample.allTime))
     = 1%nat
  /\ props.runSections tt (props.layout (props.survivors sample.feed sample.allTime)) []
     = (map (fun r => sample.section (fst r) (snd r))
          (props.layout (props.survivors sample.feed sample.allTime)), None).
Proof.
  destruct (template_strategy_layout sample.feed sample.allTime sample.templateOut tt
              (map (fun r => sample.section (fst r) (snd r))
                 (props.layout (props.survivors sample.feed sample.allTime)))
              eq_refl eq_refl eq_refl)
    as (Hrun & _ & _ & _ & Hjoin & _).
  split; [reflexivity | split; [exact Hjoin | exact Hrun]].
Defined.

Lemma handled_records_marshal_safely_witness :
  parser.ParseToOutput sample.feed sample.allTime sample.jsonOut <> Panics.
Proof.
  destruct (handled_records_marshal_safely sample.feed sample.allTime
              parser.jsonHandler [] sample.jsonOut) as (_ & Hjson & _).
  apply Hjson. reflexivity.
Defined.

Lemma readPackagesFile_first_field_per_line_witness :
  parser.readPackagesFile "sl-micro.packages" = (["kernel-default"; ""; "glibc"], None).
Proof.
  destruct (readPackagesFile_first_field_per_line "sl-micro.packages"
              sample.packagesFile
              [ "kernel-default|6.4.0|150600.1|x86_64"; ""; "  glibc|2.38|1|x86_64" ])
    as (Hread & _).
  - discriminate.
  - reflexivity.
  - reflexivity.
  - exact Hread.
Defined.

(** C7, as the specification has it, fails on a file that holds one blank
    line: the loader returns one empty name where the specification asks
    for no name at all. *)
Lemma readPackagesFile_keeps_blank_lines :
  parser.readPackagesFile "blank.packages" = ([""], None)
  /\ bufio.scanLines (os.data sample.blankFile) "" (os.readErr sample.blankFile)
     = ([""], None)
  /\ props.claimedAllowList [""] = []
  /\ ~ (forall (FS : os.FileSystem) pkgFile file lines,
          @os.Open FS pkgFile = inl file ->
          bufio.scanLines (os.data file) "" (os.readErr file) = (lines, None) ->
          @parser.readPackagesFile FS pkgFile = (props.claimedAllowList lines, None)).
Proof.
  split; [reflexivity | split; [reflexivity | split; [reflexivity|]]].
  intros H.
  specialize (H sample.files "blank.packages" sample.blankFile [""] eq_refl eq_refl).
  discriminate H.
Qed.

Lemma RunE_date_flags_both_set_beforeDate_witness :
  cmd.RunE_fCfg
    {| cmd.beforeStr := ""; cmd.afterStr := "1700000000"; cmd.packagesF := "";
       cmd.tmplF := ""; cmd.output := ""; cmd.sec := false; cmd.json := false |}
  = inl {| parser.beforeDate := time.Unix 1700000000 0;
           parser.afterDate := time.Unix 0 0;
           parser.dateFormat := "";
           parser.pkgWhiteList := [];
           parser.updateType := "" |}.
Proof.
  apply (RunE_date_flags_both_set_beforeDate "1700000000" 1700000000 "" "" false).
  - discriminate.
  - reflexivity.
Defined.

Lemma ParseFileToOutput_open_failure_returns_nil_witness :
  parser.ParseFileToOutput "missing.xml" sample.allTime sample.templateOut
  = Returns ([], None).
Proof.
  apply (ParseFileToOutput_open_failure_returns_nil "missing.xml" sample.allTime
           sample.templateOut
           (errorString "open missing.xml: no such file or directory")).
  reflexivity.
Defined.

End Witnesses.

(* ================================================================== *)
(** * Part III: further properties of the code                         *)
(* ================================================================== *)

(** ** [Parse] and the two strategies over a whole stream *)

Section StreamFacts.
Context {U : url.Parser} {T : template.Engine} {J : json.Encoder}.

(** X1. Over any stream, [Parse] calls the handler on the records that
    pass the filter in document order, without skipping one and without
    calling twice: the calls are a prefix of the surviving records, and
    all of them when [Parse] returns no error. *)
Theorem Parse_handles_survivors_in_order {S : Type}
    (reader : xml.Reader) (filter : parser.filterConfig)
    (handler : parser.UpdateHandlerFunc S) :
  forall st,
  exists rest,
    props.survivors reader filter
    = (props.handled reader filter handler st ++ rest)%list
    /\ (snd (parser.Parse reader filter handler st) = None -> rest = []).
Proof.
  induction reader as [|r reader IH]; intros st.
  - exists []. split; reflexivity.
  - destruct r as [[name content|] | tokenErr].
    + destruct (String.eqb name parser.updateToken) eqn:Hname.
      * apply String.eqb_eq in Hname. subst name.
        cbn [props.survivors]. rewrite String.eqb_refl.
        change (@inl xml.Token error (xml.StartElement parser.updateToken content))
          with (props.updateElement content).
        destruct (types.DecodeElement content) as [u | err] eqn:Hdec.
        -- rewrite (handled_update _ _ _ u _ _ Hdec),
             (Parse_update _ _ _ _ u _ _ Hdec).
           destruct (props.passesFilterb filter u); [|apply IH].
           destruct (handler u st) as [st' [e|]].
           ++ exists (props.survivors reader filter).
              split; [reflexivity | discriminate].
           ++ destruct (IH st') as (rest & Heq & Hnone).
              exists rest. rewrite Heq. split; [reflexivity | exact Hnone].
        -- rewrite (handled_update_fails _ _ _ err _ _ Hdec),
             (Parse_update_fails _ _ _ _ err _ _ Hdec).
           exists []. split; [reflexivity | discriminate].
      * cbn [props.survivors]. rewrite Hname.
        unfold props.handled. rewrite !(Parse_other _ _ _ _ _ _ Hname).
        apply IH.
      + cbn [props.survivors]. unfold props.handled. cbn [parser.Parse]. apply IH.
    + exists []. unfold props.handled. cbn [props.survivors parser.Parse].
      destruct (error_eqb tokenErr io.EOF); split; reflexivity || discriminate.
Qed.

Lemma feed_jsonHandler (us acc : list types.Update) :
  props.feed parser.jsonHandler us acc = ((acc ++ us)%list, None).
Proof.
  revert acc. induction us as [|u us IH]; intros acc; cbn [props.feed].
  - rewrite app_nil_r. reflexivity.
  - unfold parser.jsonHandler at 1. rewrite IH, <- app_assoc. reflexivity.
Qed.

Lemma marshalDates_jsonDate (us : list types.Update) (dates : list string) :
  json.marshalDates us = Returns dates -> dates = map facts.jsonDate us.
Proof.
  revert dates. induction us as [|u us IH]; intros dates; cbn [json.marshalDates map].
  - intros [= <-]. reflexivity.
  - unfold types.Issued_MarshalJSON, facts.jsonDate.
    destruct (types.Issued_Date (types.Update_Issued u)) as [d|]; [|discriminate].
    destruct (json.marshalDates us) as [bs|]; [|discriminate].
    intros [= <-]. rewrite (IH bs eq_refl). reflexivity.
Qed.

Lemma deferClose_fst (out : parser.outputConfig)
    (ret : template.Writer * option error) :
  fst (parser.deferClose out ret) = fst ret.
Proof.
  unfold parser.deferClose. destruct (parser.close out) as [closeFn|]; [|reflexivity].
  destruct ret as [w [e|]]; cbn [fst snd]; [reflexivity|].
  destruct (closeFn tt); reflexivity.
Qed.

(** The records the JSON handler collects all have a date to marshal. *)
Lemma jsonHandler_marshals (reader : xml.Reader) (filter : parser.filterConfig) :
  exists dates,
    json.marshalDates (fst (parser.Parse reader filter parser.jsonHandler []))
    = Returns dates.
Proof.
  apply (Parse_invariant filter parser.jsonHandler
           (fun updates => exists dates, json.marshalDates updates = Returns dates)).
  - intros u updates Hpass Hdates. unfold parser.jsonHandler. cbn [fst].
    apply passesFilterb_spec in Hpass. destruct Hpass as (_ & (d & Hd & _) & _).
    apply (marshalDates_snoc updates u d Hd Hdates).
  - exists []. reflexivity.
Qed.

(** With a handler that never fails, the error of [Parse] is the first
    error of the stream. *)
Lemma Parse_streamError {S : Type} (filter : parser.filterConfig)
    (handler : parser.UpdateHandlerFunc S) (reader : xml.Reader) :
  (forall u st, snd (handler u st) = None) ->
  forall st, snd (parser.Parse reader filter handler st) = facts.streamError reader.
Proof.
  intros Hh. induction reader as [|r reader IH]; intros st; [reflexivity|].
  destruct r as [[name content|] | tokenErr].
  - cbn [facts.streamError].
    destruct (String.eqb name parser.updateToken) eqn:Hname.
    + apply String.eqb_eq in Hname. subst name.
      change (@inl xml.Token error (xml.StartElement parser.updateToken content))
        with (props.updateElement content).
      destruct (types.DecodeElement content) as [u | err] eqn:Hdec.
      * rewrite (Parse_update _ _ _ _ u _ _ Hdec).
        destruct (props.passesFilterb filter u); [|apply IH].
        pose proof (Hh u st) as Hnone.
        destruct (handler u st) as [st' [e|]]; [discriminate | apply IH].
      * rewrite (Parse_update_fails _ _ _ _ err _ _ Hdec). reflexivity.
    + rewrite (Parse_other _ _ _ _ _ _ Hname). apply IH.
  - cbn [facts.streamError parser.Parse]. apply IH.
  - cbn [facts.streamError parser.Parse].
    destruct (error_eqb tokenErr io.EOF); reflexivity.
Qed.

(** X2. The JSON strategy writes all or nothing, and says why.  If the
    stream has an error (a token error, an element that does not decode),
    [ParseToOutput] returns that error and the writer is as it was, the
    records read before the error are not written; if the encoder fails,
    likewise with its error; otherwise there is one [Write], of the array
    the encoder builds from all the surviving records in order with their
    dates as quoted Unix seconds, followed by the close of the sink. *)
Theorem json_strategy_writes_all_or_nothing
    (reader : xml.Reader) (filter : parser.filterConfig)
    (out : parser.outputConfig) :
  parser.jsonOut out = true ->
  parser.ParseToOutput reader filter out
  = Returns
      match facts.streamError reader with
      | Some e => (parser.output out, Some e)
      | None =>
          let us := props.survivors reader filter in
          match json.encode us (map facts.jsonDate us) with
          | (_, Some e) => (parser.output out, Some e)
          | (data, None) =>
              parser.deferClose out (template.Write (parser.output out) data)
          end
      end.
Proof.
  intros Hjson. unfold parser.ParseToOutput. rewrite Hjson. cbn [negb].
  pose proof (Parse_streamError filter parser.jsonHandler reader
                (fun _ _ => eq_refl) []) as Herr.
  destruct (jsonHandler_marshals reader filter) as [dates Hdates].
  destruct (parser.Parse reader filter parser.jsonHandler []) as [updates err]
    eqn:Hparse.
  cbn [snd] in Herr. cbn [fst] in Hdates. subst err.
  destruct (facts.streamError reader) as [e|].
  - unfold parser.deferClose.
    destruct (parser.close out) as [closeFn|]; [|reflexivity].
    cbn [fst snd]. destruct (closeFn tt); reflexivity.
  - apply Parse_feed in Hparse. rewrite feed_jsonHandler in Hparse.
    injection Hparse as <-. cbn [app] in *. cbv zeta.
    unfold json.MarshalIndent. rewrite Hdates.
    apply marshalDates_jsonDate in Hdates. subst dates.
    destruct (json.encode _ _) as [data [e|]]; [|reflexivity].
    unfold parser.deferClose.
    destruct (parser.close out) as [closeFn|]; [|reflexivity].
    cbn [fst snd]. destruct (closeFn tt); reflexivity.
Qed.

Lemma deferClose_withoutClose (out : parser.outputConfig)
    (ret : template.Writer * option error) :
  parser.deferClose (facts.withoutClose out) ret = ret.
Proof. reflexivity. Qed.

(** The deferred close is the last thing [ParseToOutput] does, on every
    way out. *)
Lemma ParseToOutput_withoutClose (reader : xml.Reader)
    (filter : parser.filterConfig) (out : parser.outputConfig) :
  parser.ParseToOutput reader filter out
  = match parser.ParseToOutput reader filter (facts.withoutClose out) with
    | Panics => Panics
    | Returns ret => Returns (parser.deferClose out ret)
    end.
Proof.
  unfold parser.ParseToOutput.
  cbn [facts.withoutClose parser.jsonOut parser.template parser.output].
  destruct (parser.jsonOut out); cbn [negb].
  - destruct (parser.Parse reader filter parser.jsonHandler []) as [updates [e|]];
      [reflexivity|].
    destruct (json.MarshalIndent updates) as [[data [e|]]|]; reflexivity.
  - destruct (parser.template out) as [tmpl|]; [|reflexivity].
    destruct (template.ExecuteTemplate tmpl (parser.output out) "header" None)
      as [w0 [e|]]; [reflexivity|].
    destruct (parser.Parse reader filter (parser.templateHandler tmpl) (w0, true))
      as [[w1 first'] [e|]]; reflexivity.
Qed.

(** X3. Which error [ParseFileToOutput] returns for a file that opens:
    the error of the rendering if there is one; otherwise the error of
    closing the output sink, if it has a [close] and that fails; otherwise
    the error of closing the input file; and the writer is where the
    rendering left it.  An error of closing thus never replaces an error
    of the rendering, and the sink's comes before the file's. *)
Theorem ParseFileToOutput_error_precedence {FS : os.FileSystem}
    (updateXML : string) (f : os.File) (filter : parser.filterConfig)
    (out : parser.outputConfig) :
  os.Open updateXML = inl f ->
  parser.ParseFileToOutput updateXML filter out
  = match parser.ParseToOutput (os.tokens f) filter (facts.withoutClose out) with
    | Panics => Panics
    | Returns (w, Some e) => Returns (w, Some e)
    | Returns (w, None) =>
        Returns (w, match facts.sinkClose out with
                    | Some e => Some e
                    | None => os.closeErr f
                    end)
    end.
Proof.
  intros Hopen. unfold parser.ParseFileToOutput. rewrite Hopen.
  rewrite ParseToOutput_withoutClose.
  destruct (parser.ParseToOutput (os.tokens f) filter (facts.withoutClose out))
    as [[w [e|]]|]; [| |reflexivity].
  - unfold parser.deferClose. cbn [fst snd].
    destruct (parser.close out) as [closeFn|]; [destruct (closeFn tt)|]; reflexivity.
  - unfold parser.deferClose, facts.sinkClose. cbn [fst snd].
    destruct (parser.close out) as [closeFn|]; [destruct (closeFn tt)|];
      destruct (os.closeErr f); reflexivity.
Qed.

End StreamFacts.

(** ** Decoding an [<update>] element *)

Section DecodeFacts.
Context {U : url.Parser}.

Lemma decodeUpdateAttrs_keeps (u : types.Update) (attrs : list xml.Attr) :
  types.Update_Issued (types.decodeUpdateAttrs u attrs) = types.Update_Issued u
  /\ types.Update_Packages (types.decodeUpdateAttrs u attrs) = types.Update_Packages u
  /\ types.Update_References (types.decodeUpdateAttrs u attrs)
     = types.Update_References u.
Proof.
  revert u. induction attrs as [|a rest IH]; intros u; cbn [types.decodeUpdateAttrs].
  - repeat split.
  - cbv zeta.
    destruct (String.eqb (xml.Name a) "type");
      [|destruct (String.eqb (xml.Name a) "status")]; try apply IH.
    all: match goal with
         | |- context [types.decodeUpdateAttrs ?v _] =>
             destruct (IH v) as (Hi & Hp & Hr); rewrite Hi, Hp, Hr;
             repeat split; reflexivity
         end.
Qed.

Lemma decodeIssued_no_date (i : types.Issued) (attrs : list xml.Attr) :
  (forall a, In a attrs -> xml.Name a <> "date") ->
  types.decodeIssued i attrs = inl i.
Proof.
  induction attrs as [|a rest IH]; intros Hno; [reflexivity|].
  cbn [types.decodeIssued].
  destruct (String.eqb_spec (xml.Name a) "date") as [Heq | _].
  - destruct (Hno a (or_introl eq_refl) Heq).
  - apply IH. intros b Hb. apply Hno. right. exact Hb.
Qed.

(** What the children add to a record being decoded. *)
Lemma decodeChildren_adds (cs : list xml.Child) :
  forall u0 u,
    types.decodeChildren u0 cs = inl u ->
    types.Update_Packages u
    = (types.Update_Packages u0 ++ facts.packageChildren cs)%list
    /\ (exists rs,
          types.Update_References u = (types.Update_References u0 ++ rs)%list
          /\ Forall2 (fun attrs r => types.decodeReference types.zeroReference attrs = inl r)
               (facts.referenceChildren cs) rs)
    /\ (facts.undated cs -> types.Update_Issued u = types.Update_Issued u0).
Proof.
  induction cs as [|c rest IH]; intros u0 u Hdec.
  - injection Hdec as <-. split; [|split].
    + symmetry. apply app_nil_r.
    + exists []. split; [symmetry; apply app_nil_r | constructor].
    + reflexivity.
  - assert (Hundated : facts.undated (c :: rest) -> facts.undated rest).
    { intros Hu attrs a Hin. apply Hu. right. exact Hin. }
    destruct c as [name text | attrs | attrs | attrs filename | e];
      cbn [types.decodeChildren] in Hdec.
    + destruct (IH _ _ Hdec) as (Hp & (rs & Hr & Hrs) & Hi).
      split; [exact Hp | split; [exists rs; split; assumption|]].
      intros Hu. apply (Hi (Hundated Hu)).
    + destruct (types.decodeIssued (types.Update_Issued u0) attrs) as [i | e] eqn:Hi0;
        [|discriminate].
      destruct (IH _ _ Hdec) as (Hp & (rs & Hr & Hrs) & Hi).
      split; [exact Hp | split; [exists rs; split; assumption|]].
      intros Hu. rewrite (Hi (Hundated Hu)). cbn [types.withIssued types.Update_Issued].
      rewrite decodeIssued_no_date in Hi0.
      * injection Hi0 as <-. reflexivity.
      * intros a Ha. apply (Hu attrs a); [left; reflexivity | exact Ha].
    + destruct (types.decodeReference types.zeroReference attrs) as [r | e] eqn:Hr0;
        [|discriminate].
      destruct (IH _ _ Hdec) as (Hp & (rs & Hr & Hrs) & Hi).
      split; [exact Hp | split].
      * exists (r :: rs). split.
        -- rewrite Hr. cbn [types.appendReference types.Update_References].
           rewrite <- app_assoc. reflexivity.
        -- constructor; assumption.
      * intros Hu. apply (Hi (Hundated Hu)).
    + destruct (IH _ _ Hdec) as (Hp & (rs & Hr & Hrs) & Hi).
      split; [|split; [exists rs; split; assumption|]].
      * rewrite Hp. cbn [types.appendPackage types.Update_Packages].
        rewrite <- app_assoc. reflexivity.
      * intros Hu. apply (Hi (Hundated Hu)).
    + discriminate.
Qed.

(** A package is made of the last value of each of its attributes. *)
Lemma decodePackage_lastAttr (attrs : list xml.Attr) :
  forall p,
    types.decodePackage p attrs
    = {| types.Package_Name :=
           match facts.lastAttr "name" attrs with
           | Some v => v | None => types.Package_Name p end;
         types.Package_Version :=
           match facts.lastAttr "version" attrs with
           | Some v => v | None => types.Package_Version p end;
         types.Package_Release :=
           match facts.lastAttr "release" attrs with
           | Some v => v | None => types.Package_Release p end;
         types.Package_Arch :=
           match facts.lastAttr "arch" attrs with
           | Some v => v | None => types.Package_Arch p end;
         types.Package_Filename := types.Package_Filename p |}.
Proof.
  induction attrs as [|a rest IH]; intros p;
    cbn [types.decodePackage facts.lastAttr].
  - destruct p; reflexivity.
  - cbv zeta.
    destruct (String.eqb_spec (xml.Name a) "name") as [E | E1];
      [|destruct (String.eqb_spec (xml.Name a) "version") as [E | E2];
        [|destruct (String.eqb_spec (xml.Name a) "release") as [E | E3];
          [|destruct (String.eqb_spec (xml.Name a) "arch") as [E | E4]]]];
      rewrite IH; try rewrite E; cbn;
      destruct (facts.lastAttr "name" rest), (facts.lastAttr "version" rest),
        (facts.lastAttr "release" rest), (facts.lastAttr "arch" rest);
      reflexivity.
Qed.

Lemma packageChildren_packagesOf (cs : list xml.Child) :
  facts.packageChildren cs = facts.packagesOf cs.
Proof.
  unfold facts.packageChildren, facts.packagesOf.
  induction cs as [|c rest IH]; [reflexivity|].
  cbn [flat_map]. rewrite IH.
  destruct c as [name text | attrs | attrs | attrs filename | e]; try reflexivity.
  rewrite decodePackage_lastAttr. unfold facts.packageOf, facts.attrValue.
  destruct filename; reflexivity.
Qed.

(** A reference is made of the last value of each of its attributes, the
    href as [url.Parse] reads it. *)
Lemma decodeReference_lastAttr (attrs : list xml.Attr) :
  forall r0 r,
    types.decodeReference r0 attrs = inl r ->
    types.Reference_ID r
    = match facts.lastAttr "id" attrs with
      | Some v => v | None => types.Reference_ID r0 end
    /\ types.Reference_Title r
       = match facts.lastAttr "title" attrs with
         | Some v => v | None => types.Reference_Title r0 end
    /\ types.Reference_Type r
       = match facts.lastAttr "type" attrs with
         | Some v => v | None => types.Reference_Type r0 end
    /\ match facts.lastAttr "href" attrs with
       | Some h => url.Parse h = inl (types.Reference_URL r)
       | None => types.Reference_URL r = types.Reference_URL r0
       end.
Proof.
  induction attrs as [|a rest IH]; intros r0 r;
    cbn [types.decodeReference facts.lastAttr].
  - intros [= <-]. repeat split.
  - cbv zeta. unfold types.href_UnmarshalXMLAttr.
    destruct (String.eqb_spec (xml.Name a) "href") as [E | E1];
      [|destruct (String.eqb_spec (xml.Name a) "id") as [E | E2];
        [|destruct (String.eqb_spec (xml.Name a) "title") as [E | E3];
          [|destruct (String.eqb_spec (xml.Name a) "type") as [E | E4]]]].
    1: destruct (url.Parse (xml.Value a)) as [h | e] eqn:Hparse; [|discriminate].
    all: intros Hdec; apply IH in Hdec; clear IH;
      cbn [types.Reference_URL types.Reference_ID types.Reference_Title
           types.Reference_Type] in Hdec;
      destruct Hdec as (Hid & Htitle & Htype & Hhref);
      try rewrite E; cbn;
      destruct (facts.lastAttr "id" rest), (facts.lastAttr "title" rest),
        (facts.lastAttr "type" rest), (facts.lastAttr "href" rest);
      repeat split; first [congruence | rewrite Hhref; exact Hparse].
Qed.

(** X4. Decoding an [<update>] element keeps the document order and drops
    nothing.  The packages of the record are the [<package>] children,
    one for one and in their order, each with the values of its [name],
    [version], [release] and [arch] attributes and the text of its
    [<filename>]; the references are the [<reference>] children, one for
    one and in their order, each with the values of its [id], [title] and
    [type] attributes and, as URL, its [href] as [url.Parse] reads it. *)
Theorem DecodeElement_keeps_document_order
    (content : xml.Element) (u : types.Update) :
  types.DecodeElement content = inl u ->
  types.Update_Packages u = facts.packagesOf (xml.Children content)
  /\ Forall2 facts.referenceOf
       (facts.referenceChildren (xml.Children content))
       (types.Update_References u).
Proof.
  unfold types.DecodeElement. intros Hdec.
  destruct (decodeChildren_adds _ _ _ Hdec) as (Hp & (rs & Hr & Hrs) & _).
  destruct (decodeUpdateAttrs_keeps types.zeroUpdate (xml.Attrs content))
    as (_ & Hp0 & Hr0).
  rewrite Hp0 in Hp. rewrite Hr0 in Hr. split.
  - rewrite Hp. apply packageChildren_packagesOf.
  - rewrite Hr. cbn [types.Update_References types.zeroUpdate app].
    clear Hr. induction Hrs as [|attrs r attrss rs Hone _ IH]; constructor.
    + apply decodeReference_lastAttr in Hone.
      destruct Hone as (Hid & Htitle & Htype & Hhref).
      unfold facts.referenceOf, facts.attrValue.
      cbn [types.zeroReference types.Reference_ID types.Reference_Title
           types.Reference_Type types.Reference_URL] in *.
      repeat split; assumption.
    + exact IH.
Qed.

(** X5. An [<update>] element none of whose [<issued>] children carries
    a [date] attribute (or that has no such child) decodes to a record
    without issued date, and [Parse] does not call the handler for it. *)
Theorem undated_element_is_skipped {S : Type}
    (filter : parser.filterConfig) (handler : parser.UpdateHandlerFunc S)
    (toks : list xml.Token) (content : xml.Element) (u : types.Update) (st : S) :
  types.DecodeElement content = inl u ->
  facts.undated (xml.Children content) ->
  types.Issued_Date (types.Update_Issued u) = None
  /\ props.handled (map inl toks ++ [props.updateElement content])%list
       filter handler st
     = props.handled (map inl toks) filter handler st.
Proof.
  intros Hdec Hundated.
  assert (Hnone : types.Issued_Date (types.Update_Issued u) = None).
  { unfold types.DecodeElement in Hdec.
    destruct (decodeChildren_adds _ _ _ Hdec) as (_ & _ & Hi).
    rewrite (Hi Hundated).
    destruct (decodeUpdateAttrs_keeps types.zeroUpdate (xml.Attrs content))
      as (Hi0 & _).
    rewrite Hi0. reflexivity. }
  split; [exact Hnone|].
  assert (Hpass : props.passesFilterb filter u = false).
  { apply passesFilter_dec. intros (_ & (d & Hd & _) & _). congruence. }
  rewrite handled_app.
  destruct (parser.Parse (map inl toks) filter handler st) as [st1 [e|]].
  - apply app_nil_r.
  - rewrite (handled_update _ _ _ u _ _ Hdec), Hpass. apply app_nil_r.
Qed.

End DecodeFacts.

(** ** Dates *)

Lemma parseUintLoop_shape (s0 s : string) :
  forall n r oe,
    strconv.parseUintLoop s0 s n = (r, oe) ->
    match oe with
    | None => facts.allDigits s = true
    | Some e =>
        (e = strconv.syntaxError "ParseUint" s0 /\ r = 0)
        \/ (e = strconv.rangeError "ParseUint" s0 /\ r = 2 ^ 64 - 1)
    end.
Proof.
  induction s as [|c rest IH]; intros n r oe Hrun.
  - injection Hrun as <- <-. reflexivity.
  - cbn [strconv.parseUintLoop facts.allDigits] in *. cbv zeta in Hrun.
    unfold facts.isDigit.
    destruct ((48 <=? Z.of_N (N_of_ascii c)) && (Z.of_N (N_of_ascii c) <=? 57)).
    + destruct (n >=? strconv.maxUint64 / 10 + 1).
      { injection Hrun as <- <-. right. split; reflexivity. }
      match type of Hrun with
      | (if ?b then _ else _) = _ => destruct b
      end.
      * injection Hrun as <- <-. right. split; reflexivity.
      * apply IH in Hrun. destruct oe; exact Hrun.
    + injection Hrun as <- <-. left. split; reflexivity.
Qed.

Lemma parseUintLoop_nonneg (s0 s : string) :
  forall n, 0 <= n -> 0 <= fst (strconv.parseUintLoop s0 s n).
Proof.
  induction s as [|c rest IH]; intros n Hn.
  - exact Hn.
  - cbn [strconv.parseUintLoop]. cbv zeta.
    destruct ((48 <=? Z.of_N (N_of_ascii c)) && (Z.of_N (N_of_ascii c) <=? 57)).
    + destruct (n >=? strconv.maxUint64 / 10 + 1); [cbn; lia|].
      match goal with |- context [if ?b then _ else _] => destruct b end.
      * cbn; lia.
      * apply IH. apply Z.mod_pos_bound. lia.
    + cbn. lia.
Qed.

(** [ParseUint] succeeds on digits only, and fails with zero or with the
    largest [uint64] as value. *)
Lemma ParseUint_shape (s : string) (r : Z) (oe : option error) :
  strconv.ParseUint s = (r, oe) ->
  match oe with
  | None => s <> "" /\ facts.allDigits s = true /\ 0 <= r
  | Some e =>
      (e = strconv.syntaxError "ParseUint" s /\ r = 0)
      \/ (e = strconv.rangeError "ParseUint" s /\ r = 2 ^ 64 - 1)
  end.
Proof.
  unfold strconv.ParseUint. destruct s as [|c rest].
  - intros [= <- <-]. left. split; reflexivity.
  - intros Hrun. pose proof (parseUintLoop_shape _ _ _ _ _ Hrun) as Hshape.
    destruct oe; [exact Hshape|].
    split; [discriminate | split; [exact Hshape|]].
    pose proof (parseUintLoop_nonneg (String c rest) (String c rest) 0 ltac:(lia)) as Hnn.
    rewrite Hrun in Hnn. exact Hnn.
Qed.

(** What [ParseInt] accepts is a decimal numeral of an [int64]. *)
Lemma ParseInt_success (v : string) (ts : Z) :
  strconv.ParseInt v = (ts, None) ->
  facts.decimal v = true /\ - 2 ^ 63 <= ts < 2 ^ 63.
Proof.
  assert (H63 : 2 ^ 63 = 9223372036854775808) by reflexivity.
  assert (H64 : 2 ^ 64 = 18446744073709551616) by reflexivity.
  unfold strconv.ParseInt, facts.decimal. destruct v as [|c0 rest]; [discriminate|].
  assert (Hchecked : forall neg un,
    0 <= un ->
    (if negb neg && (un >=? 2 ^ 63)
     then (2 ^ 63 - 1, Some (strconv.rangeError "ParseInt" (String c0 rest)))
     else if neg && (un >? 2 ^ 63)
          then (- 2 ^ 63, Some (strconv.rangeError "ParseInt" (String c0 rest)))
          else (if neg then - un else un, None)) = (ts, None)
    -> - 2 ^ 63 <= ts < 2 ^ 63).
  { intros neg un Hun. destruct neg; cbn [negb andb].
    - destruct (un >? 2 ^ 63) eqn:Hgt; [discriminate|].
      rewrite Z.gtb_ltb in Hgt. apply Z.ltb_ge in Hgt.
      intros [= <-]. lia.
    - destruct (un >=? 2 ^ 63) eqn:Hge; [discriminate|].
      rewrite Z.geb_leb in Hge. apply Z.leb_gt in Hge.
      intros [= <-]. lia. }
  assert (Hmain : forall neg s,
    (let '(un, err) := strconv.ParseUint s in
     let checked :=
       let cutoff := 2 ^ 63 in
       if negb neg && (un >=? cutoff)
       then (cutoff - 1, Some (strconv.rangeError "ParseInt" (String c0 rest)))
       else if neg && (un >? cutoff)
            then (- cutoff, Some (strconv.rangeError "ParseInt" (String c0 rest)))
            else (if neg then - un else un, None) in
     match err with
     | Some (NumError _ _ e) =>
         if negb (error_eqb e strconv.ErrRange)
         then (0, Some (NumError "ParseInt" (String c0 rest) e))
         else checked
     | _ => checked
     end) = (ts, None) ->
    (s <> "" /\ facts.allDigits s = true) /\ - 2 ^ 63 <= ts < 2 ^ 63).
  { intros neg s. destruct (strconv.ParseUint s) as [un err] eqn:Hu.
    apply ParseUint_shape in Hu. cbv zeta. destruct err as [e|].
    - destruct Hu as [[-> ->] | [-> ->]].
      + cbn [strconv.syntaxError]. change (error_eqb strconv.ErrSyntax strconv.ErrRange)
          with false. cbn [negb]. discriminate.
      + cbn [strconv.rangeError]. change (error_eqb strconv.ErrRange strconv.ErrRange)
          with true. cbn [negb]. rewrite H63, H64.
        destruct neg; cbn [negb andb].
        * change (18446744073709551616 - 1 >? 9223372036854775808) with true.
          discriminate.
        * change (18446744073709551616 - 1 >=? 9223372036854775808) with true.
          discriminate.
    - destruct Hu as (Hne & Hd & Hnn). intros Hc.
      split; [split; assumption | apply (Hchecked neg un Hnn Hc)]. }
  destruct (Ascii.eqb c0 "+") eqn:Hplus; cbn [orb].
  - intros Hrun. destruct (Hmain false rest Hrun) as [[Hne Hd] Hr].
    split; [|exact Hr]. apply andb_true_iff. split; [|exact Hd].
    destruct (String.eqb_spec rest ""); [contradiction | reflexivity].
  - destruct (Ascii.eqb c0 "-") eqn:Hminus.
    + intros Hrun. destruct (Hmain true rest Hrun) as [[Hne Hd] Hr].
      split; [|exact Hr]. apply andb_true_iff. split; [|exact Hd].
      destruct (String.eqb_spec rest ""); [contradiction | reflexivity].
    + intros Hrun. destruct (Hmain false (String c0 rest) Hrun) as [[Hne Hd] Hr].
      split; assumption.
Qed.

(** Reading more digits does not make the number smaller. *)
Lemma digitsValue_ge (s : string) :
  forall n, facts.allDigits s = true -> 0 <= n -> n <= facts.digitsValue s n.
Proof.
  induction s as [|c rest IH]; intros n Hd Hn; cbn [facts.digitsValue]; [lia|].
  cbn [facts.allDigits] in Hd. apply andb_true_iff in Hd. destruct Hd as [Hc Hrest].
  unfold facts.isDigit in Hc. cbv zeta in Hc.
  apply andb_true_iff in Hc. destruct Hc as [Hlo Hhi].
  apply Z.leb_le in Hlo. apply Z.leb_le in Hhi.
  specialize (IH (n * 10 + (Z.of_N (N_of_ascii c) - 48)) Hrest). lia.
Qed.

(** On digits, the loop of [ParseUint] computes the number they denote,
    and fails exactly when that number is no [uint64]. *)
Lemma parseUintLoop_value (s0 s : string) :
  forall n,
    facts.allDigits s = true -> 0 <= n < 2 ^ 64 ->
    strconv.parseUintLoop s0 s n
    = if facts.digitsValue s n <? 2 ^ 64
      then (facts.digitsValue s n, None)
      else (2 ^ 64 - 1, Some (strconv.rangeError "ParseUint" s0)).
Proof.
  assert (H64 : 2 ^ 64 = 18446744073709551616) by reflexivity.
  induction s as [|c rest IH]; intros n Hd Hn;
    cbn [strconv.parseUintLoop facts.digitsValue].
  - destruct (Z.ltb_spec n (2 ^ 64)); [reflexivity | lia].
  - cbn [facts.allDigits] in Hd. apply andb_true_iff in Hd. destruct Hd as [Hc Hrest].
    unfold facts.isDigit in Hc. cbv zeta in Hc. cbv zeta. rewrite Hc.
    apply andb_true_iff in Hc. destruct Hc as [Hlo Hhi].
    apply Z.leb_le in Hlo. apply Z.leb_le in Hhi.
    set (v := Z.of_N (N_of_ascii c)) in *.
    change (strconv.maxUint64 / 10 + 1) with 1844674407370955162.
    pose proof (digitsValue_ge rest (n * 10 + (v - 48)) Hrest ltac:(lia)) as Hge.
    rewrite Z.geb_leb.
    destruct (Z.leb_spec 1844674407370955162 n) as [Hbig | Hsmall].
    + destruct (Z.ltb_spec (facts.digitsValue rest (n * 10 + (v - 48))) (2 ^ 64));
        [lia | reflexivity].
    + destruct (Z.lt_ge_cases (n * 10 + (v - 48)) (2 ^ 64)) as [Hfit | Hover].
      * rewrite (Z.mod_small (n * 10 + (v - 48)) (2 ^ 64)) by lia.
        rewrite (proj2 (Z.ltb_ge (n * 10 + (v - 48)) (n * 10))) by lia.
        rewrite Z.gtb_ltb.
        rewrite (proj2 (Z.ltb_ge (2 ^ 64 - 1) (n * 10 + (v - 48)))) by lia.
        cbn [orb]. apply IH; [exact Hrest | lia].
      * replace ((n * 10 + (v - 48)) mod 2 ^ 64) with (n * 10 + (v - 48) - 2 ^ 64)
          by (apply Z.mod_unique with (q := 1); lia).
        rewrite (proj2 (Z.ltb_lt (n * 10 + (v - 48) - 2 ^ 64) (n * 10))) by lia.
        cbn [orb].
        destruct (Z.ltb_spec (facts.digitsValue rest (n * 10 + (v - 48))) (2 ^ 64));
          [lia | reflexivity].
Qed.

(** On an optionally signed decimal numeral, [ParseInt] returns the
    integer it denotes when that is an [int64], and otherwise the nearest
    [int64] with a range error. *)
Lemma ParseInt_value (v : string) :
  facts.decimal v = true ->
  strconv.ParseInt v
  = if (- 2 ^ 63 <=? facts.decimalValue v) && (facts.decimalValue v <? 2 ^ 63)
    then (facts.decimalValue v, None)
    else (if facts.decimalValue v <? 0 then - 2 ^ 63 else 2 ^ 63 - 1,
          Some (strconv.rangeError "ParseInt" v)).
Proof.
  assert (H63 : 2 ^ 63 = 9223372036854775808) by reflexivity.
  assert (H64 : 2 ^ 64 = 18446744073709551616) by reflexivity.
  destruct v as [|c0 rest]; [discriminate|].
  assert (Hmain : forall neg s,
    s <> "" -> facts.allDigits s = true ->
    (let '(un, err) := strconv.ParseUint s in
     let checked :=
       let cutoff := 2 ^ 63 in
       if negb neg && (un >=? cutoff)
       then (cutoff - 1, Some (strconv.rangeError "ParseInt" (String c0 rest)))
       else if neg && (un >? cutoff)
            then (- cutoff, Some (strconv.rangeError "ParseInt" (String c0 rest)))
            else (if neg then - un else un, None) in
     match err with
     | Some (NumError _ _ e) =>
         if negb (error_eqb e strconv.ErrRange)
         then (0, Some (NumError "ParseInt" (String c0 rest) e))
         else checked
     | _ => checked
     end)
    = let dv := if neg then - facts.digitsValue s 0 else facts.digitsValue s 0 in
      if (- 2 ^ 63 <=? dv) && (dv <? 2 ^ 63)
      then (dv, None)
      else (if dv <? 0 then - 2 ^ 63 else 2 ^ 63 - 1,
            Some (strconv.rangeError "ParseInt" (String c0 rest)))).
  { intros neg s Hne Hd.
    pose proof (digitsValue_ge s 0 Hd ltac:(lia)) as Hnn.
    assert (Hu : strconv.ParseUint s
                 = if facts.digitsValue s 0 <? 2 ^ 64
                   then (facts.digitsValue s 0, None)
                   else (2 ^ 64 - 1, Some (strconv.rangeError "ParseUint" s))).
    { unfold strconv.ParseUint. destruct s as [|c s']; [contradiction|].
      apply parseUintLoop_value; [exact Hd | lia]. }
    rewrite Hu. clear Hu. cbv zeta.
    set (dv := facts.digitsValue s 0) in *.
    destruct (Z.ltb_spec dv (2 ^ 64)) as [Hfit | Hover].
    - rewrite Z.geb_leb, Z.gtb_ltb.
      destruct neg; cbn [negb andb].
      + destruct (Z.ltb_spec (2 ^ 63) dv);
          destruct (Z.leb_spec (- 2 ^ 63) (- dv));
          destruct (Z.ltb_spec (- dv) (2 ^ 63)); cbn [andb]; try lia; try reflexivity.
        destruct (Z.ltb_spec (- dv) 0); [reflexivity | lia].
      + destruct (Z.leb_spec (2 ^ 63) dv);
          destruct (Z.leb_spec (- 2 ^ 63) dv);
          destruct (Z.ltb_spec dv (2 ^ 63)); cbn [andb]; try lia; try reflexivity.
        destruct (Z.ltb_spec dv 0); [lia | reflexivity].
    - cbn [strconv.rangeError].
      change (error_eqb strconv.ErrRange strconv.ErrRange) with true. cbn [negb].
      rewrite Z.geb_leb, Z.gtb_ltb.
      destruct neg; cbn [negb andb].
      + destruct (Z.ltb_spec (2 ^ 63) (2 ^ 64 - 1)); [|lia].
        destruct (Z.leb_spec (- 2 ^ 63) (- dv)); [lia|]. cbn [andb].
        destruct (Z.ltb_spec (- dv) 0); [reflexivity | lia].
      + destruct (Z.leb_spec (2 ^ 63) (2 ^ 64 - 1)); [|lia].
        destruct (Z.ltb_spec dv (2 ^ 63)); [lia|].
        rewrite andb_false_r.
        destruct (Z.ltb_spec dv 0); [lia | reflexivity]. }
  unfold facts.decimal, strconv.ParseInt, facts.decimalValue.
  destruct (Ascii.eqb_spec c0 "+") as [-> | Hplus].
  - change (Ascii.eqb "+" "-") with false. cbn [orb].
    intros Hd. apply andb_true_iff in Hd. destruct Hd as [Hne Hd].
    apply (Hmain false rest); [|exact Hd].
    intros ->. discriminate Hne.
  - destruct (Ascii.eqb_spec c0 "-") as [-> | Hminus]; cbn [orb].
    + intros Hd. apply andb_true_iff in Hd. destruct Hd as [Hne Hd].
      apply (Hmain true rest); [|exact Hd].
      intros ->. discriminate Hne.
    + intros Hd. apply (Hmain false (String c0 rest)); [discriminate | exact Hd].
Qed.

(** X6. The date attribute is read as a decimal numeral and as nothing
    else.  On an optionally signed string of decimal digits (no blank, no
    fraction, no exponent) that denotes an [int64], the unmarshaler
    succeeds and the date is that very number of seconds after the epoch;
    on such a string denoting a number outside [int64] it fails with a
    range error; on any other string it fails; and whenever it fails the
    date is left as it was. *)
Theorem date_attribute_must_be_decimal (d : types.date) (attr : xml.Attr) :
  let v := xml.Value attr in
  (facts.decimal v = true ->
   - 2 ^ 63 <= facts.decimalValue v < 2 ^ 63 ->
   types.date_UnmarshalXMLAttr d attr = (time.Unix (facts.decimalValue v) 0, None)
   /\ time.Time_Unix (time.Unix (facts.decimalValue v) 0) = facts.decimalValue v)
  /\ (facts.decimal v = true ->
      ~ (- 2 ^ 63 <= facts.decimalValue v < 2 ^ 63) ->
      types.date_UnmarshalXMLAttr d attr
      = (d, Some (strconv.rangeError "ParseInt" v)))
  /\ (facts.decimal v = false ->
      exists e, types.date_UnmarshalXMLAttr d attr = (d, Some e))
  /\ (forall d',
        types.date_UnmarshalXMLAttr d attr = (d', None) ->
        facts.decimal v = true
        /\ - 2 ^ 63 <= facts.decimalValue v < 2 ^ 63
        /\ d' = time.Unix (facts.decimalValue v) 0).
Proof.
  intros v. unfold types.date_UnmarshalXMLAttr. fold v.
  assert (Hgood : facts.decimal v = true ->
                  - 2 ^ 63 <= facts.decimalValue v < 2 ^ 63 ->
                  strconv.ParseInt v = (facts.decimalValue v, None)).
  { intros Hdec Hrange. rewrite (ParseInt_value v Hdec).
    destruct (Z.leb_spec (- 2 ^ 63) (facts.decimalValue v)); [|lia].
    destruct (Z.ltb_spec (facts.decimalValue v) (2 ^ 63)); [reflexivity | lia]. }
  assert (Hbad : facts.decimal v = true ->
                 ~ (- 2 ^ 63 <= facts.decimalValue v < 2 ^ 63) ->
                 exists clamp,
                   strconv.ParseInt v
                   = (clamp, Some (strconv.rangeError "ParseInt" v))).
  { intros Hdec Hrange. rewrite (ParseInt_value v Hdec).
    destruct (Z.leb_spec (- 2 ^ 63) (facts.decimalValue v));
      destruct (Z.ltb_spec (facts.decimalValue v) (2 ^ 63)); cbn [andb];
      try lia; eexists; reflexivity. }
  split; [|split; [|split]].
  - intros Hdec Hrange. rewrite (Hgood Hdec Hrange).
    split; [reflexivity | apply Unix_roundtrip, Hrange].
  - intros Hdec Hrange. destruct (Hbad Hdec Hrange) as [clamp ->]. reflexivity.
  - intros Hdec.
    destruct (strconv.ParseInt v) as [ts [e|]] eqn:Hparse.
    + exists e. reflexivity.
    + destruct (ParseInt_success _ _ Hparse) as [Hd _]. congruence.
  - intros d' Hrun.
    destruct (facts.decimal v) eqn:Hdec.
    + assert (Hrange : - 2 ^ 63 <= facts.decimalValue v < 2 ^ 63).
      { destruct (Z.le_gt_cases (- 2 ^ 63) (facts.decimalValue v));
          destruct (Z.lt_ge_cases (facts.decimalValue v) (2 ^ 63)); try lia;
          destruct (Hbad eq_refl ltac:(lia)) as [clamp Hc];
          rewrite Hc in Hrun; discriminate. }
      rewrite (Hgood eq_refl Hrange) in Hrun. injection Hrun as <-.
      split; [reflexivity | split; [exact Hrange | reflexivity]].
    + destruct (strconv.ParseInt v) as [ts [e|]] eqn:Hparse; [discriminate|].
      destruct (ParseInt_success _ _ Hparse) as [Hd _]. congruence.
Qed.

Lemma wrap64_small (z : Z) : - 2 ^ 63 <= z < 2 ^ 63 -> wrap64 z = z.
Proof.
  intros H. unfold wrap64. rewrite Z.mod_small by lia. lia.
Qed.

Lemma Unix_safe (x : Z) :
  facts.safe x ->
  time.Unix x 0 = {| time.sec := x + time.unixToInternal; time.nsec := 0 |}.
Proof.
  unfold facts.safe. intros Hx.
  assert (Hk : time.unixToInternal = 62135596800) by reflexivity.
  assert (H63 : 2 ^ 63 = 9223372036854775808) by reflexivity.
  unfold time.Unix. change (0 <? 0) with false. change (0 >=? 1000000000) with false.
  cbn [orb]. rewrite wrap64_small by lia. reflexivity.
Qed.

Lemma earlier_Unix (a b : Z) :
  facts.safe a -> facts.safe b ->
  props.earlier (time.Unix a 0) (time.Unix b 0) <-> a < b.
Proof.
  intros Ha Hb. rewrite (Unix_safe a Ha), (Unix_safe b Hb).
  unfold props.earlier. cbn [time.sec time.nsec]. lia.
Qed.

Section OptionFacts.
Context {U : url.Parser} {C : time.Calendar} {FS : os.FileSystem}.

(** X7. Between bounds given as Unix timestamps, the date window of the
    filter is a comparison of integers: with [WithAfterTime] of [a] and
    [WithBeforeTime] of [b] and nothing else, a record issued at [ts]
    passes if and only if [a < ts < b], for timestamps whose count of
    seconds since year 1 fits an [int64]. *)
Theorem date_window_compares_unix_seconds (a b ts : Z) (u : types.Update) :
  facts.safe a -> facts.safe b -> facts.safe ts ->
  types.Issued_Date (types.Update_Issued u) = Some (time.Unix ts 0) ->
  exists f,
    parser.NewFilterConfig
      [ parser.WithAfterTime (strconv.FormatInt a);
        parser.WithBeforeTime (strconv.FormatInt b) ] = inl f
    /\ (props.passesFilter f u <-> a < ts < b).
Proof.
  intros Ha Hb Hts Hd.
  assert (Hk : time.unixToInternal = 62135596800) by reflexivity.
  assert (H63 : 2 ^ 63 = 9223372036854775808) by reflexivity.
  assert (Hpa : strconv.ParseInt (strconv.FormatInt a) = (a, None))
    by (apply ParseInt_FormatInt; unfold facts.safe in Ha; lia).
  assert (Hpb : strconv.ParseInt (strconv.FormatInt b) = (b, None))
    by (apply ParseInt_FormatInt; unfold facts.safe in Hb; lia).
  eexists. split.
  - unfold parser.NewFilterConfig. cbn [parser.applyOpts].
    unfold parser.WithAfterTime at 1, parser.parseTime.
    cbn [parser.dateFormat String.eqb]. rewrite Hpa.
    unfold parser.WithBeforeTime at 1, parser.parseTime.
    cbn [parser.dateFormat String.eqb]. rewrite Hpb. reflexivity.
  - unfold props.passesFilter.
    cbn [parser.updateType parser.pkgWhiteList parser.afterDate parser.beforeDate].
    rewrite Hd. split.
    + intros (_ & (d & [= <-] & Hafter & Hbefore) & _).
      apply earlier_Unix in Hafter; [|assumption..].
      apply earlier_Unix in Hbefore; [|assumption..]. lia.
    + intros [Hlo Hhi]. split; [intros Hne; destruct Hne; reflexivity|].
      split; [|left; reflexivity].
      exists (time.Unix ts 0). split; [reflexivity|].
      split; apply earlier_Unix; assumption.
Qed.

(** X8. [WithDateFormat] only counts for the options that come after it:
    given first, [WithBeforeTime] reads its string with [time.Parse] in
    that format; given last, the string has already been read as a Unix
    timestamp and only the recorded format changes. *)
Theorem WithDateFormat_must_come_first (format s : string) :
  format <> "" ->
  parser.NewFilterConfig [parser.WithDateFormat format; parser.WithBeforeTime s]
  = match time.Parse format s with
    | (t, None) =>
        inl {| parser.beforeDate := t; parser.afterDate := time.Unix 0 0;
               parser.dateFormat := format; parser.pkgWhiteList := [];
               parser.updateType := "" |}
    | (_, Some e) => inr e
    end
  /\ parser.NewFilterConfig [parser.WithBeforeTime s; parser.WithDateFormat format]
     = match strconv.ParseInt s with
       | (i, None) =>
           inl {| parser.beforeDate := time.Unix i 0; parser.afterDate := time.Unix 0 0;
                  parser.dateFormat := format; parser.pkgWhiteList := [];
                  parser.updateType := "" |}
       | (_, Some e) =>
           inr (errorString ("failed parsing date '" ++ s ++ "': " ++ Error e))
       end.
Proof.
  intros Hfmt. unfold parser.NewFilterConfig. cbn [parser.applyOpts]. split.
  - unfold parser.WithDateFormat at 1.
    unfold parser.WithBeforeTime at 1, parser.parseTime. cbn [parser.dateFormat].
    destruct (String.eqb_spec format "") as [He | _]; [contradiction|].
    destruct (time.Parse format s) as [t [e|]]; reflexivity.
  - unfold parser.WithBeforeTime at 1, parser.parseTime.
    cbn [parser.dateFormat String.eqb].
    destruct (strconv.ParseInt s) as [i [e|]]; reflexivity.
Qed.

(** X9. Whatever the flags, the filter configuration [RunE] builds has
    [afterDate] at the epoch and no date format (the flags are read as
    Unix timestamps); its type constraint is "security" or none, after
    the security flag; its allow-list is what the packages file gives;
    and [beforeDate] is read from the after-date flag when that is given,
    else from the before-date flag, else left a hundred years ahead. *)
Theorem RunE_filter_configuration (flags : cmd.Flags) (fCfg : parser.filterConfig) :
  cmd.RunE_fCfg flags = inl fCfg ->
  parser.afterDate fCfg = time.Unix 0 0
  /\ parser.dateFormat fCfg = ""
  /\ parser.updateType fCfg = (if cmd.sec flags then "security" else "")
  /\ parser.pkgWhiteList fCfg = fst (parser.readPackagesFile (cmd.packagesF flags))
  /\ parser.beforeDate fCfg
     = if negb (String.eqb (cmd.afterStr flags) "")
       then time.Unix (fst (strconv.ParseInt (cmd.afterStr flags))) 0
       else if negb (String.eqb (cmd.beforeStr flags) "")
            then time.Unix (fst (strconv.ParseInt (cmd.beforeStr flags))) 0
            else time.AddDate time.Now 100 0 0.
Proof.
  destruct flags as [beforeStr afterStr packagesF tmplF output sec json].
  unfold cmd.RunE_fCfg, cmd.RunE_fOpts, parser.NewFilterConfig.
  cbn [cmd.beforeStr cmd.afterStr cmd.packagesF cmd.sec].
  assert (Hempty : parser.readPackagesFile "" = ([], None)) by reflexivity.
  destruct (String.eqb_spec beforeStr "") as [-> | Hb];
    destruct (String.eqb_spec afterStr "") as [-> | Ha];
    destruct (String.eqb_spec packagesF "") as [-> | Hp];
    destruct sec; cbn [negb app parser.applyOpts];
    unfold parser.WithBeforeTime, parser.WithPackagesFile, parser.WithUpdateType,
      parser.parseTime;
    cbn [parser.dateFormat String.eqb];
    rewrite ?Hempty; cbn [fst];
    repeat match goal with
           | |- context [strconv.ParseInt ?v] =>
               destruct (strconv.ParseInt v) as [? [?|]]; cbn [parser.dateFormat fst]
           | |- context [parser.readPackagesFile ?v] =>
               destruct (parser.readPackagesFile v) as [? [?|]] eqn:?;
               cbn [parser.dateFormat fst]
           end;
    try discriminate;
    intros [= <-]; repeat split; try reflexivity.
Qed.

End OptionFacts.

(** ** The packages file *)

Lemma string_length_snoc (s : string) (c : ascii) :
  String.length (s ++ String c "") = S (String.length s).
Proof. induction s as [|x s IH]; cbn; [reflexivity | rewrite IH; reflexivity]. Qed.

(** Once the line being read has filled the buffer, the scan ends with
    [ErrTooLong]. *)
Lemma scanLines_line_too_long (data : string) (readErr : option error) :
  forall line,
    (bufio.MaxScanTokenSize <= String.length line)%nat ->
    snd (bufio.scanLines data line readErr) = Some bufio.ErrTooLong.
Proof.
  induction data as [|c rest IH]; intros line Hlen; cbn [bufio.scanLines].
  - apply Nat.leb_le in Hlen. rewrite Hlen. reflexivity.
  - destruct (Ascii.eqb c "010").
    + apply Nat.leb_le in Hlen. rewrite Hlen. reflexivity.
    + apply IH. rewrite string_length_snoc. lia.
Qed.

Lemma scanLines_long (long rest : string) (readErr : option error) :
  forall line,
    facts.noNewline long = true ->
    (bufio.MaxScanTokenSize <= String.length line + String.length long)%nat ->
    snd (bufio.scanLines (long ++ rest) line readErr) = Some bufio.ErrTooLong.
Proof.
  induction long as [|c long IH]; intros line Hnl Hlen.
  - apply scanLines_line_too_long. cbn [String.length] in Hlen. lia.
  - cbn [facts.noNewline] in Hnl. apply andb_true_iff in Hnl.
    destruct Hnl as [Hc Hnl]. apply negb_true_iff in Hc.
    cbn [append bufio.scanLines]. rewrite Hc.
    apply IH; [exact Hnl|]. rewrite string_length_snoc.
    cbn [String.length] in Hlen. lia.
Qed.

(** An error in what follows a newline is the error of the whole scan. *)
Lemma scanLines_past_newline (s tail : string) (readErr : option error) :
  snd (bufio.scanLines tail "" readErr) = Some bufio.ErrTooLong ->
  forall line,
    snd (bufio.scanLines (s ++ String "010" tail) line readErr)
    = Some bufio.ErrTooLong.
Proof.
  intros Htail. induction s as [|c s IH]; intros line; cbn [append bufio.scanLines].
  - change (Ascii.eqb "010" "010") with true. cbv iota.
    destruct (bufio.MaxScanTokenSize <=? String.length line)%nat; [reflexivity|].
    destruct (bufio.scanLines tail "" readErr) as [toks err]. exact Htail.
  - destruct (Ascii.eqb c "010").
    + destruct (bufio.MaxScanTokenSize <=? String.length line)%nat; [reflexivity|].
      specialize (IH "").
      destruct (bufio.scanLines (s ++ String "010" tail) "" readErr) as [toks err].
      exact IH.
    + apply IH.
Qed.

Lemma scanLines_past_lines (ls : list string) (tail : string)
    (readErr : option error) :
  snd (bufio.scanLines tail "" readErr) = Some bufio.ErrTooLong ->
  snd (bufio.scanLines (facts.unlines ls ++ tail) "" readErr)
  = Some bufio.ErrTooLong.
Proof.
  intros Htail. induction ls as [|l ls IH]; [exact Htail|].
  cbn [facts.unlines]. rewrite string_app_assoc. cbn [append].
  apply scanLines_past_newline. exact IH.
Qed.

(** X10. A packages file with a line of 64 KiB or more, wherever it
    stands, is refused whole: the loader returns no name at all and the
    error of the scanner ("token too long"), whatever the other lines
    hold. *)
Theorem readPackagesFile_refuses_long_lines {FS : os.FileSystem}
    (pkgFile : string) (file : os.File) (before : list string) (long rest : string) :
  pkgFile <> "" ->
  os.Open pkgFile = inl file ->
  os.data file = facts.unlines before ++ long ++ rest ->
  facts.noNewline long = true ->
  (bufio.MaxScanTokenSize <= String.length long)%nat ->
  parser.readPackagesFile pkgFile
  = ([], Some (errorString
                 ("failed scanning lines on file '" ++ pkgFile ++ "': "
                  ++ Error bufio.ErrTooLong))).
Proof.
  intros Hpath Hopen Hdata Hnl Hlen.
  unfold parser.readPackagesFile.
  destruct (String.eqb_spec pkgFile "") as [He | _]; [contradiction|].
  rewrite Hopen, Hdata.
  pose proof (scanLines_past_lines before (long ++ rest) (os.readErr file)
                (scanLines_long long rest (os.readErr file) "" Hnl Hlen)) as Hscan.
  destruct (bufio.scanLines (facts.unlines before ++ long ++ rest) ""
              (os.readErr file)) as [lines err].
  cbn [snd] in Hscan. rewrite Hscan. reflexivity.
Qed.

(** ** The output configuration and the root command *)

Section OutputFacts.
Context {U : url.Parser} {C : time.Calendar} {FS : os.FileSystem}.
Context {T : template.Engine} {J : json.Encoder} {H : outcfg.Host}.

(** A panic of [ParseToOutput] can only come from a missing template. *)
Lemma ParseToOutput_Panics (reader : xml.Reader) (filter : parser.filterConfig)
    (out : parser.outputConfig) :
  parser.ParseToOutput reader filter out = Panics ->
  parser.jsonOut out = false /\ parser.template out = None.
Proof.
  unfold parser.ParseToOutput.
  destruct (parser.jsonOut out) eqn:Hjson; cbn [negb].
  - destruct (jsonHandler_marshals reader filter) as [dates Hdates].
    destruct (parser.Parse reader filter parser.jsonHandler []) as [updates [e|]];
      [discriminate|].
    cbn [fst] in Hdates. unfold json.MarshalIndent. rewrite Hdates.
    destruct (json.encode updates dates) as [data [e|]]; discriminate.
  - destruct (parser.template out) as [tmpl|]; [|split; reflexivity].
    destruct (template.ExecuteTemplate tmpl (parser.output out) "header" None)
      as [w0 [e|]]; [discriminate|].
    destruct (parser.Parse reader filter (parser.templateHandler tmpl) (w0, true))
      as [[w1 first'] [e|]]; discriminate.
Qed.

(** X11. Template output asked of a configuration without template makes
    [ParseToOutput] panic, on every stream and every filter, before a
    token is read.  For a configuration whose writer is there and works
    (the only ones [outputConfig] has here, a nil writer is left out) it
    is the one case: with JSON output, or with a template, the call
    returns. *)
Theorem ParseToOutput_panics_iff_no_template
    (reader : xml.Reader) (filter : parser.filterConfig) (out : parser.outputConfig) :
  parser.ParseToOutput reader filter out = Panics
  <-> parser.jsonOut out = false /\ parser.template out = None.
Proof.
  split; [apply ParseToOutput_Panics|].
  intros [Hjson Hnone]. unfold parser.ParseToOutput. rewrite Hjson, Hnone.
  reflexivity.
Qed.

(** The last step of [NewOutputConfig] fills in the built-in template. *)
Lemma NewOutputConfig_template
    (opts : list outcfg.OutputOpt) (oCfg : parser.outputConfig)
    (effs : list outcfg.effect) (builtin : template.Template) :
  outcfg.ParseText "update" outcfg.defaultTmpl = inl builtin ->
  outcfg.NewOutputConfig opts = (inl oCfg, effs) ->
  parser.jsonOut oCfg = false -> exists tmpl, parser.template oCfg = Some tmpl.
Proof.
  intros Hbuiltin. unfold outcfg.NewOutputConfig.
  destruct (outcfg.applyOpts opts _) as [[o | e] effs0]; [|discriminate].
  destruct (parser.template o) as [t|] eqn:Ht; destruct (parser.jsonOut o) eqn:Hj;
    intros [= <- <-]; cbn [parser.jsonOut parser.template]; intros Hjson;
    try congruence.
  - exists t. exact Ht.
  - rewrite Hbuiltin. exists builtin. reflexivity.
Qed.

(** X12. What [NewOutputConfig] returns has the template it needs:
    provided the built-in template parses, a configuration it returns has
    a template whenever it is not for JSON, whatever the options were (a
    nil [WithTemplate] included, which the built-in template then
    replaces); and when it is for JSON and yet carries a template, the
    warning has gone to standard error. *)
Theorem NewOutputConfig_is_renderable
    (opts : list outcfg.OutputOpt) (oCfg : parser.outputConfig)
    (effs : list outcfg.effect) (builtin : template.Template) :
  outcfg.ParseText "update" outcfg.defaultTmpl = inl builtin ->
  outcfg.NewOutputConfig opts = (inl oCfg, effs) ->
  (parser.jsonOut oCfg = false -> exists tmpl, parser.template oCfg = Some tmpl)
  /\ (parser.jsonOut oCfg = true -> parser.template oCfg <> None ->
      In (outcfg.Stderr outcfg.warning) effs).
Proof.
  intros Hbuiltin Hnew.
  pose proof (NewOutputConfig_template _ _ _ _ Hbuiltin Hnew) as Htmpl.
  split; [exact Htmpl|].
  revert Hnew. unfold outcfg.NewOutputConfig.
  destruct (outcfg.applyOpts opts _) as [[o | e] effs0]; [|discriminate].
  destruct (parser.template o) as [t|] eqn:Ht; destruct (parser.jsonOut o) eqn:Hj;
    intros [= <- <-]; cbn [parser.jsonOut parser.template]; intros Hjson Hsome;
    try congruence.
  apply in_or_app. right. left. reflexivity.
Qed.

(** X13. [RunE] never panics, whatever the argument and the flags,
    provided the built-in template parses. *)
Theorem RunE_never_panics (updateInfo : string) (flags : cmd.Flags)
    (builtin : template.Template) :
  outcfg.ParseText "update" outcfg.defaultTmpl = inl builtin ->
  snd (rootcmd.RunE updateInfo flags) <> Panics.
Proof.
  intros Hbuiltin. unfold rootcmd.RunE.
  destruct (outcfg.Stat updateInfo); [discriminate|].
  destruct (parser.NewFilterConfig (cmd.RunE_fOpts flags)) as [fCfg | e];
    [|discriminate].
  destruct (outcfg.NewOutputConfig (rootcmd.RunE_oOpts flags)) as [[oCfg | e] effs]
    eqn:Hnew; [|discriminate].
  pose proof (NewOutputConfig_template _ _ _ _ Hbuiltin Hnew) as Htmpl.
  cbn [snd]. unfold parser.ParseFileToOutput.
  destruct (os.Open updateInfo) as [f | e]; [|discriminate].
  destruct (parser.ParseToOutput (os.tokens f) fCfg oCfg) as [[w [e|]]|] eqn:Hrun.
  - discriminate.
  - destruct (os.closeErr f); discriminate.
  - apply ParseToOutput_Panics in Hrun. destruct Hrun as [Hjson Hnone].
    destruct (Htmpl Hjson) as [tmpl Hsome]. congruence.
Qed.

(** A template run that succeeds ran the whole layout. *)
Lemma template_success_runs_layout (reader : xml.Reader)
    (filter : parser.filterConfig) (out : parser.outputConfig)
    (tmpl : template.Template) (w : template.Writer) :
  parser.jsonOut out = false ->
  parser.template out = Some tmpl ->
  parser.ParseToOutput reader filter out = Returns (w, None) ->
  props.runSections tmpl (props.layout (props.survivors reader filter))
    (parser.output out) = (w, None).
Proof.
  intros Hjson Htmpl Hrun.
  unfold parser.ParseToOutput in Hrun. rewrite Hjson, Htmpl in Hrun.
  cbn [negb] in Hrun. unfold props.layout, props.header.
  cbn [props.runSections].
  destruct (template.ExecuteTemplate tmpl (parser.output out) "header" None)
    as [w0 [e|]].
  - injection Hrun as Hrun. apply deferClose_success in Hrun. discriminate.
  - destruct (parser.Parse reader filter (parser.templateHandler tmpl) (w0, true))
      as [[w1 first'] [e|]] eqn:Hparse.
    + injection Hrun as Hrun. apply deferClose_success in Hrun. discriminate.
    + injection Hrun as Hrun. apply deferClose_success in Hrun.
      apply Parse_feed, feed_templateHandler in Hparse.
      rewrite (runSections_app _ _ _ _ _ Hparse).
      cbn [props.runSections props.footer]. rewrite Hrun. reflexivity.
Qed.

(** X14. [RunE] fails before it touches anything.  When [os.Stat] fails
    on the input file, it returns an error of its own, which names the
    file and not what [os.Stat] said; when the file is there and a filter
    flag is wrong (a date that is no timestamp, a packages file that
    cannot be read), it returns the error [NewFilterConfig] gave, as it
    is.  In both cases no output file is created, nothing is printed and
    no writer is involved. *)
Theorem RunE_fails_before_any_output (updateInfo : string) (flags : cmd.Flags) :
  (forall statErr,
     outcfg.Stat updateInfo = Some statErr ->
     rootcmd.RunE updateInfo flags
     = ([], Returns (None,
                     Some (errorString
                             ("could not fild updateinfo file '" ++ updateInfo
                              ++ "'")))))
  /\ (forall e,
        outcfg.Stat updateInfo = None ->
        parser.NewFilterConfig (cmd.RunE_fOpts flags) = inr e ->
        rootcmd.RunE updateInfo flags = ([], Returns (None, Some e))).
Proof.
  unfold rootcmd.RunE. split.
  - intros statErr ->. reflexivity.
  - intros e -> ->. reflexivity.
Qed.

(** X15. The output file comes before the template file: with an output
    path that can be created and a template file that does not parse,
    [RunE] returns the error of the template, and by then the output file
    has been created (and so emptied); nothing is written to it. *)
Theorem RunE_creates_output_before_reading_template
    (updateInfo : string) (flags : cmd.Flags) (fCfg : parser.filterConfig)
    (file : template.Writer) (file_Close : unit -> option error) (e : error) :
  outcfg.Stat updateInfo = None ->
  cmd.RunE_fCfg flags = inl fCfg ->
  cmd.output flags <> "" ->
  outcfg.Create (cmd.output flags) = inl (file, file_Close) ->
  cmd.tmplF flags <> "" ->
  outcfg.ParseFiles (cmd.tmplF flags) = inr e ->
  rootcmd.RunE updateInfo flags
  = ([outcfg.Created (cmd.output flags)], Returns (None, Some e)).
Proof.
  intros Hstat Hf Hout Hcreate Htmpl Hparse.
  unfold rootcmd.RunE, rootcmd.RunE_oOpts. rewrite Hstat.
  unfold cmd.RunE_fCfg in Hf. rewrite Hf.
  destruct (String.eqb_spec (cmd.output flags) "") as [He | _]; [contradiction|].
  destruct (String.eqb_spec (cmd.tmplF flags) "") as [He | _]; [contradiction|].
  cbn [negb app]. unfold outcfg.NewOutputConfig.
  destruct (cmd.json flags); cbn [app outcfg.applyOpts];
    unfold outcfg.WithOutputFile at 1; rewrite Hcreate;
    unfold outcfg.WithTemplateFile at 1; rewrite Hparse; reflexivity.
Qed.

(** X16. A file that is there but cannot be opened goes unnoticed:
    [RunE] returns no error, and the writer of the configuration is as
    [NewOutputConfig] left it, without even the header. *)
Theorem RunE_reports_success_when_open_fails
    (updateInfo : string) (flags : cmd.Flags) (fCfg : parser.filterConfig)
    (oCfg : parser.outputConfig) (effs : list outcfg.effect) (e : error) :
  outcfg.Stat updateInfo = None ->
  os.Open updateInfo = inr e ->
  cmd.RunE_fCfg flags = inl fCfg ->
  outcfg.NewOutputConfig (rootcmd.RunE_oOpts flags) = (inl oCfg, effs) ->
  rootcmd.RunE updateInfo flags = (effs, Returns (Some (parser.output oCfg), None)).
Proof.
  intros Hstat Hopen Hf Hnew. unfold rootcmd.RunE. rewrite Hstat.
  unfold cmd.RunE_fCfg in Hf. rewrite Hf, Hnew.
  unfold parser.ParseFileToOutput. rewrite Hopen. reflexivity.
Qed.

(** X17. From the command line to the output.  Without the JSON flag, on
    a file that opens, a run of [RunE] that returns no error has run
    against its writer the header, the bodies of the records that pass the
    filter built from the flags, in order and with joins between them, and
    the footer, all without error; the writer is standard output unless
    an output path is given, and the template is the built-in one unless a
    template file is given. *)
Theorem RunE_renders_the_survivors
    (updateInfo : string) (flags : cmd.Flags) (file : os.File)
    (effs : list outcfg.effect) (w : template.Writer) :
  cmd.json flags = false ->
  os.Open updateInfo = inl file ->
  rootcmd.RunE updateInfo flags = (effs, Returns (Some w, None)) ->
  exists fCfg oCfg tmpl,
    cmd.RunE_fCfg flags = inl fCfg
    /\ outcfg.NewOutputConfig (rootcmd.RunE_oOpts flags) = (inl oCfg, effs)
    /\ parser.template oCfg = Some tmpl
    /\ props.runSections tmpl (props.layout (props.survivors (os.tokens file) fCfg))
         (parser.output oCfg) = (w, None)
    /\ (cmd.output flags = "" -> parser.output oCfg = outcfg.Stdout)
    /\ (cmd.tmplF flags = "" ->
        outcfg.ParseText "update" outcfg.defaultTmpl = inl tmpl)
    /\ (cmd.tmplF flags <> "" -> outcfg.ParseFiles (cmd.tmplF flags) = inl tmpl).
Proof.
  intros Hjson Hopen Hrun. unfold rootcmd.RunE in Hrun.
  destruct (outcfg.Stat updateInfo); [discriminate|].
  unfold cmd.RunE_fCfg.
  destruct (parser.NewFilterConfig (cmd.RunE_fOpts flags)) as [fCfg | e];
    [|discriminate].
  destruct (outcfg.NewOutputConfig (rootcmd.RunE_oOpts flags)) as [[oCfg | e] effs0]
    eqn:Hnew; [|discriminate].
  injection Hrun as <- Hrun.
  unfold parser.ParseFileToOutput in Hrun. rewrite Hopen in Hrun.
  destruct (parser.ParseToOutput (os.tokens file) fCfg oCfg) as [[w1 [e|]]|] eqn:Hout;
    [discriminate | | discriminate].
  assert (Hw : w1 = w) by (destruct (os.closeErr file); congruence).
  subst w1.
  (* the configuration the flags give *)
  assert (Hcfg : parser.jsonOut oCfg = false
                 /\ (cmd.output flags = "" -> parser.output oCfg = outcfg.Stdout)
                 /\ (cmd.tmplF flags = "" ->
                     parser.template oCfg
                     = match outcfg.ParseText "update" outcfg.defaultTmpl with
                       | inl t => Some t
                       | inr _ => None
                       end)
                 /\ (cmd.tmplF flags <> "" ->
                     exists t, outcfg.ParseFiles (cmd.tmplF flags) = inl t
                               /\ parser.template oCfg = Some t)).
  { revert Hnew. unfold rootcmd.RunE_oOpts, outcfg.NewOutputConfig. rewrite Hjson.
    destruct (String.eqb_spec (cmd.output flags) "") as [Ho | Ho];
      destruct (String.eqb_spec (cmd.tmplF flags) "") as [Ht | Ht];
      cbn [negb app outcfg.applyOpts].
    - intros [= <- <-]. repeat split; try reflexivity. intros Hne. contradiction.
    - unfold outcfg.WithTemplateFile at 1.
      destruct (outcfg.ParseFiles (cmd.tmplF flags)) as [t | e]; [|discriminate].
      cbn [parser.template parser.jsonOut app].
      intros [= <- <-]. repeat split; try reflexivity.
      + intros He. contradiction.
      + intros _. exists t. split; reflexivity.
    - unfold outcfg.WithOutputFile at 1.
      destruct (outcfg.Create (cmd.output flags)) as [[f cl] | e]; [|discriminate].
      cbn [parser.template parser.jsonOut app].
      intros [= <- <-]. repeat split; try reflexivity.
      + intros He. contradiction.
      + intros Hne. contradiction.
    - unfold outcfg.WithOutputFile at 1.
      destruct (outcfg.Create (cmd.output flags)) as [[f cl] | e]; [|discriminate].
      unfold outcfg.WithTemplateFile at 1.
      destruct (outcfg.ParseFiles (cmd.tmplF flags)) as [t | e]; [|discriminate].
      cbn [parser.template parser.jsonOut app].
      intros [= <- <-]. repeat split; try reflexivity.
      + intros He. contradiction.
      + intros He. contradiction.
      + intros _. exists t. split; reflexivity. }
  destruct Hcfg as (Hj & Hstdout & Hdefault & Hfile).
  destruct (parser.template oCfg) as [tmpl|] eqn:Htmpl.
  - exists fCfg, oCfg, tmpl. split; [reflexivity | split; [reflexivity|]].
    split; [exact Htmpl | split; [|split; [exact Hstdout | split]]].
    + apply (template_success_runs_layout _ _ _ _ _ Hj Htmpl Hout).
    + intros Ht. specialize (Hdefault Ht).
      destruct (outcfg.ParseText "update" outcfg.defaultTmpl); congruence.
    + intros Ht. destruct (Hfile Ht) as (t & Hparse & Hsome). congruence.
  - exfalso. unfold parser.ParseToOutput in Hout. rewrite Hj, Htmpl in Hout.
    discriminate.
Qed.

End OutputFacts.

(** ** The further properties at work in the sample world *)

Section MoreWitnesses.
#[local] Existing Instance sample.urls.
#[local] Existing Instance sample.calendar.
#[local] Existing Instance samplehost.files.
#[local] Existing Instance sample.engine.
#[local] Existing Instance sample.encoder.
#[local] Existing Instance samplehost.host.

Lemma Parse_handles_survivors_in_order_witness :
  exists rest,
    props.survivors sample.feed sample.allTime
    = (props.handled sample.feed sample.allTime parser.jsonHandler [] ++ rest)%list
    /\ (snd (parser.Parse sample.feed sample.allTime parser.jsonHandler []) = None ->
        rest = []).
Proof.
  exact (Parse_handles_survivors_in_order sample.feed sample.allTime
           parser.jsonHandler []).
Defined.

Lemma json_strategy_writes_all_or_nothing_witness :
  parser.ParseToOutput sample.feed sample.allTime sample.jsonOut
  = Returns
      ([sample.written
          ("[" ++ strconv.Quote "1700000000" ++ "," ++ strconv.Quote "1700000100"
           ++ "]")], None)
  /\ parser.ParseToOutput samplehost.brokenFeed sample.allTime sample.jsonOut
     = Returns ([], Some (errorString "decoding token: unexpected EOF")).
Proof.
  assert (Hjson : parser.jsonOut sample.jsonOut = true) by reflexivity.
  split.
  - exact (json_strategy_writes_all_or_nothing sample.feed sample.allTime
             sample.jsonOut Hjson).
  - exact (json_strategy_writes_all_or_nothing samplehost.brokenFeed sample.allTime
             sample.jsonOut Hjson).
Defined.

Lemma ParseFileToOutput_error_precedence_witness :
  parser.ParseFileToOutput (FS := samplehost.flakyFiles) "flaky.xml"
    sample.allTime samplehost.fullDisk
  = Returns
      ([ sample.section "header" None;
         sample.section "body"
           (Some (sample.record "security" "SUSE-2023-1"
                    (Some (time.Unix 1700000000 0)) "glibc"));
         sample.section "join" None;
         sample.section "body"
           (Some (sample.record "bugfix" "SUSE-2023-2"
                    (Some (time.Unix 1700000100 0)) "vim"));
         sample.section "footer" None ],
       Some (errorString "close out.txt: no space left on device"))
  /\ parser.ParseFileToOutput (FS := samplehost.flakyFiles) "flaky.xml"
       sample.allTime sample.templateOut
     = Returns
         ([ sample.section "header" None;
            sample.section "body"
              (Some (sample.record "security" "SUSE-2023-1"
                       (Some (time.Unix 1700000000 0)) "glibc"));
            sample.section "join" None;
            sample.section "body"
              (Some (sample.record "bugfix" "SUSE-2023-2"
                       (Some (time.Unix 1700000100 0)) "vim"));
            sample.section "footer" None ],
          Some (errorString "close flaky.xml: input/output error"))
  /\ parser.ParseFileToOutput (FS := samplehost.flakyFiles) "broken.xml"
       sample.allTime samplehost.fullDisk
     = Returns
         ([ sample.section "header" None;
            sample.section "body"
              (Some (sample.record "security" "SUSE-2023-1"
                       (Some (time.Unix 1700000000 0)) "glibc")) ],
          Some (errorString "decoding token: unexpected EOF")).
Proof.
  assert (Hflaky : os.Open (FileSystem := samplehost.flakyFiles) "flaky.xml"
                   = inl samplehost.flakyFile) by reflexivity.
  assert (Hbroken : os.Open (FileSystem := samplehost.flakyFiles) "broken.xml"
                    = inl samplehost.brokenFile) by reflexivity.
  split; [|split].
  - exact (ParseFileToOutput_error_precedence (FS := samplehost.flakyFiles)
             "flaky.xml" samplehost.flakyFile sample.allTime samplehost.fullDisk
             Hflaky).
  - exact (ParseFileToOutput_error_precedence (FS := samplehost.flakyFiles)
             "flaky.xml" samplehost.flakyFile sample.allTime sample.templateOut
             Hflaky).
  - exact (ParseFileToOutput_error_precedence (FS := samplehost.flakyFiles)
             "broken.xml" samplehost.brokenFile sample.allTime samplehost.fullDisk
             Hbroken).
Defined.

Lemma DecodeElement_keeps_document_order_witness :
  exists u,
    types.DecodeElement samplehost.richContent = inl u
    /\ types.Update_Packages u
       = [ {| types.Package_Name := "glibc"; types.Package_Version := "2.38";
              types.Package_Release := "1"; types.Package_Arch := "x86_64";
              types.Package_Filename := "glibc-2.38-1.x86_64.rpm" |};
           {| types.Package_Name := "vim"; types.Package_Version := "";
              types.Package_Release := ""; types.Package_Arch := "";
              types.Package_Filename := "" |} ]
    /\ Forall2 facts.referenceOf
         [ [sample.attr "href" "https://bugzilla.suse.com/1"; sample.attr "id" "1";
            sample.attr "title" "first"; sample.attr "type" "bugzilla"];
           [sample.attr "href" "https://www.suse.com/security/cve/CVE-2023-2";
            sample.attr "id" "CVE-2023-2"; sample.attr "type" "cve"] ]
         (types.Update_References u)
    /\ map types.Reference_URL (types.Update_References u)
       = [ "https://bugzilla.suse.com/1";
           "https://www.suse.com/security/cve/CVE-2023-2" ].
Proof.
  set (u := match types.DecodeElement samplehost.richContent with
            | inl u => u
            | inr _ => types.zeroUpdate
            end).
  assert (Hdec : types.DecodeElement samplehost.richContent = inl u) by reflexivity.
  exists u.
  destruct (DecodeElement_keeps_document_order samplehost.richContent u Hdec)
    as [Hp Hr].
  split; [exact Hdec | split; [exact Hp | split; [exact Hr | reflexivity]]].
Defined.

Lemma undated_element_is_skipped_witness :
  props.handled
    (map inl [sample.root]
     ++ [props.updateElement (sample.undatedContent "security" "SUSE-2023-3" "glibc")])%list
    sample.allTime parser.jsonHandler []
  = props.handled (map inl [sample.root]) sample.allTime parser.jsonHandler [].
Proof.
  apply (undated_element_is_skipped sample.allTime parser.jsonHandler [sample.root]
           (sample.undatedContent "security" "SUSE-2023-3" "glibc")
           (sample.record "security" "SUSE-2023-3" None "glibc") []).
  - reflexivity.
  - intros attrs a [Hc | [Hc | []]]; discriminate Hc.
Defined.

Lemma date_attribute_must_be_decimal_witness :
  types.date_UnmarshalXMLAttr types.zeroTime (sample.attr "date" "1700000000")
  = (time.Unix 1700000000 0, None)
  /\ types.date_UnmarshalXMLAttr types.zeroTime
       (sample.attr "date" "9223372036854775808")
     = (types.zeroTime,
        Some (strconv.rangeError "ParseInt" "9223372036854775808"))
  /\ exists e,
       types.date_UnmarshalXMLAttr types.zeroTime (sample.attr "date" "2023-11-14")
       = (types.zeroTime, Some e).
Proof.
  split; [|split].
  - apply (date_attribute_must_be_decimal types.zeroTime
             (sample.attr "date" "1700000000")).
    + reflexivity.
    + cbv. split; [discriminate | reflexivity].
  - apply (date_attribute_must_be_decimal types.zeroTime
             (sample.attr "date" "9223372036854775808")).
    + reflexivity.
    + cbv. intros [_ Hlt]. discriminate Hlt.
  - apply (date_attribute_must_be_decimal types.zeroTime
             (sample.attr "date" "2023-11-14")).
    reflexivity.
Defined.

Lemma date_window_compares_unix_seconds_witness :
  exists f,
    parser.NewFilterConfig
      [ parser.WithAfterTime (strconv.FormatInt 0);
        parser.WithBeforeTime (strconv.FormatInt 2000000000) ] = inl f
    /\ (props.passesFilter f
          (sample.record "security" "SUSE-2023-1" (Some (time.Unix 1700000000 0)) "glibc")
        <-> 0 < 1700000000 < 2000000000).
Proof.
  apply (date_window_compares_unix_seconds 0 2000000000 1700000000).
  - unfold facts.safe. change time.unixToInternal with 62135596800. lia.
  - unfold facts.safe. change time.unixToInternal with 62135596800. lia.
  - unfold facts.safe. change time.unixToInternal with 62135596800. lia.
  - reflexivity.
Defined.

Lemma WithDateFormat_must_come_first_witness :
  parser.NewFilterConfig
    [parser.WithBeforeTime "1700000000"; parser.WithDateFormat "2006-01-02"]
  = inl {| parser.beforeDate := time.Unix 1700000000 0;
           parser.afterDate := time.Unix 0 0;
           parser.dateFormat := "2006-01-02"; parser.pkgWhiteList := [];
           parser.updateType := "" |}.
Proof.
  destruct (WithDateFormat_must_come_first "2006-01-02" "1700000000") as [_ Hlast].
  - discriminate.
  - exact Hlast.
Defined.

Lemma RunE_filter_configuration_witness :
  parser.afterDate
    {| parser.beforeDate := time.Unix 1700000000 0;
       parser.afterDate := time.Unix 0 0;
       parser.dateFormat := ""; parser.pkgWhiteList := [];
       parser.updateType := "security" |}
  = time.Unix 0 0.
Proof.
  apply (RunE_filter_configuration
           (samplehost.flags "1600000000" "1700000000" "" "" "" true false)).
  reflexivity.
Defined.

Lemma readPackagesFile_refuses_long_lines_witness :
  parser.readPackagesFile "long.packages"
  = ([], Some (errorString
                 ("failed scanning lines on file '" ++ "long.packages" ++ "': "
                  ++ Error bufio.ErrTooLong))).
Proof.
  apply (readPackagesFile_refuses_long_lines "long.packages" samplehost.longFile
           ["glibc|2.38"] samplehost.longLine (sample.newline ++ "vim|9")).
  - discriminate.
  - reflexivity.
  - reflexivity.
  - vm_compute. reflexivity.
  - apply Nat.leb_le. vm_compute. reflexivity.
Defined.

Lemma ParseToOutput_panics_iff_no_template_witness :
  parser.ParseToOutput sample.feed sample.allTime
    (@parser.Build_outputConfig sample.urls sample.engine [] None None false)
  = Panics.
Proof.
  apply ParseToOutput_panics_iff_no_template. split; reflexivity.
Defined.

Lemma NewOutputConfig_is_renderable_witness :
  In (outcfg.Stderr outcfg.warning) [outcfg.Stderr outcfg.warning]
  /\ exists tmpl,
       parser.template
         (@parser.Build_outputConfig sample.urls sample.engine [] None (Some tt) false)
       = Some tmpl.
Proof.
  assert (Hbuiltin : outcfg.ParseText "update" outcfg.defaultTmpl = inl tt)
    by reflexivity.
  assert (Hnew : outcfg.NewOutputConfig
                   [outcfg.WithTemplateFile "ok.tmpl"; outcfg.WithJsonOutput]
                 = (inl (@parser.Build_outputConfig sample.urls sample.engine
                           [] None (Some tt) true),
                    [outcfg.Stderr outcfg.warning]))
    by reflexivity.
  assert (Hnil : outcfg.NewOutputConfig [outcfg.WithTemplate None]
                 = (inl (@parser.Build_outputConfig sample.urls sample.engine
                           [] None (Some tt) false), []))
    by reflexivity.
  split.
  - destruct (NewOutputConfig_is_renderable _ _ _ _ Hbuiltin Hnew) as (_ & Hwarn).
    apply Hwarn; [reflexivity | discriminate].
  - destruct (NewOutputConfig_is_renderable _ _ _ _ Hbuiltin Hnil) as (Htmpl & _).
    apply Htmpl. reflexivity.
Defined.

Lemma RunE_never_panics_witness :
  snd (rootcmd.RunE "updateinfo.xml" (samplehost.flags "" "" "" "" "" false true))
  <> Panics.
Proof.
  assert (Hbuiltin : outcfg.ParseText "update" outcfg.defaultTmpl = inl tt)
    by reflexivity.
  exact (RunE_never_panics "updateinfo.xml"
           (samplehost.flags "" "" "" "" "" false true) _ Hbuiltin).
Defined.

Lemma RunE_fails_before_any_output_witness :
  rootcmd.RunE "missing.xml"
    (samplehost.flags "" "" "" "" "out.txt" false false)
  = ([], Returns (None,
                  Some (errorString "could not fild updateinfo file 'missing.xml'")))
  /\ rootcmd.RunE "updateinfo.xml"
       (samplehost.flags "yesterday" "" "" "" "out.txt" false false)
     = ([], Returns
              (None,
               Some (errorString
                       ("failed parsing date 'yesterday': "
                        ++ Error (strconv.syntaxError "ParseInt" "yesterday"))))).
Proof.
  assert (Hmissing : outcfg.Stat "missing.xml"
                     = Some (errorString "stat missing.xml: no such file or directory"))
    by reflexivity.
  assert (Hthere : outcfg.Stat "updateinfo.xml" = None) by reflexivity.
  assert (Hf : parser.NewFilterConfig
                 (cmd.RunE_fOpts
                    (samplehost.flags "yesterday" "" "" "" "out.txt" false false))
               = inr (errorString
                        ("failed parsing date 'yesterday': "
                         ++ Error (strconv.syntaxError "ParseInt" "yesterday"))))
    by reflexivity.
  split.
  - destruct (RunE_fails_before_any_output "missing.xml"
                (samplehost.flags "" "" "" "" "out.txt" false false)) as [Hstat _].
    exact (Hstat _ Hmissing).
  - destruct (RunE_fails_before_any_output "updateinfo.xml"
                (samplehost.flags "yesterday" "" "" "" "out.txt" false false))
      as [_ Hfilter].
    exact (Hfilter _ Hthere Hf).
Defined.

Lemma RunE_creates_output_before_reading_template_witness :
  rootcmd.RunE "updateinfo.xml"
    (samplehost.flags "" "" "" "bad.tmpl" "out.txt" false false)
  = ([outcfg.Created "out.txt"],
     Returns (None, Some (errorString "open bad.tmpl: no such file or directory"))).
Proof.
  assert (Hcreate : outcfg.Create "out.txt"
                    = inl (([] : list sample.emitted), fun _ : unit => @None error))
    by reflexivity.
  assert (Hf : cmd.RunE_fCfg
                 (samplehost.flags "" "" "" "bad.tmpl" "out.txt" false false)
               = inl {| parser.beforeDate := time.AddDate time.Now 100 0 0;
                        parser.afterDate := time.Unix 0 0;
                        parser.dateFormat := ""; parser.pkgWhiteList := [];
                        parser.updateType := "" |})
    by reflexivity.
  assert (Hstat : outcfg.Stat "updateinfo.xml" = None) by reflexivity.
  assert (Hparse : outcfg.ParseFiles "bad.tmpl"
                   = inr (errorString "open bad.tmpl: no such file or directory"))
    by reflexivity.
  refine (RunE_creates_output_before_reading_template "updateinfo.xml"
            (samplehost.flags "" "" "" "bad.tmpl" "out.txt" false false)
            _ _ _ _ Hstat Hf _ Hcreate _ Hparse); discriminate.
Defined.

Lemma RunE_reports_success_when_open_fails_witness :
  rootcmd.RunE "secret.xml" (samplehost.flags "" "" "" "" "" false false)
  = ([], Returns (Some [], None)).
Proof.
  assert (Hf : cmd.RunE_fCfg (samplehost.flags "" "" "" "" "" false false)
               = inl {| parser.beforeDate := time.AddDate time.Now 100 0 0;
                        parser.afterDate := time.Unix 0 0;
                        parser.dateFormat := ""; parser.pkgWhiteList := [];
                        parser.updateType := "" |})
    by reflexivity.
  assert (Hnew : outcfg.NewOutputConfig
                   (rootcmd.RunE_oOpts (samplehost.flags "" "" "" "" "" false false))
                 = (inl (@parser.Build_outputConfig sample.urls sample.engine
                           [] None (Some tt) false), []))
    by reflexivity.
  assert (Hopen : os.Open "secret.xml"
                  = inr (errorString "open secret.xml: permission denied"))
    by reflexivity.
  assert (Hstat : outcfg.Stat "secret.xml" = None) by reflexivity.
  exact (RunE_reports_success_when_open_fails "secret.xml" _ _ _ _ _
           Hstat Hopen Hf Hnew).
Defined.

Lemma RunE_renders_the_survivors_witness :
  exists fCfg oCfg tmpl,
    cmd.RunE_fCfg (samplehost.flags "" "" "" "" "" false false) = inl fCfg
    /\ parser.template oCfg = Some tmpl
    /\ props.runSections tmpl
         (props.layout (props.survivors sample.feed fCfg)) (parser.output oCfg)
       = ([ sample.section "header" None;
            sample.section "body"
              (Some (sample.record "security" "SUSE-2023-1"
                       (Some (time.Unix 1700000000 0)) "glibc"));
            sample.section "join" None;
            sample.section "body"
              (Some (sample.record "bugfix" "SUSE-2023-2"
                       (Some (time.Unix 1700000100 0)) "vim"));
            sample.section "footer" None ], None).
Proof.
  assert (Hopen : os.Open "updateinfo.xml" = inl samplehost.feedFile) by reflexivity.
  assert (Hrun : rootcmd.RunE "updateinfo.xml"
                   (samplehost.flags "" "" "" "" "" false false)
                 = ([], Returns
                          (Some
                             [ sample.section "header" None;
                               sample.section "body"
                                 (Some (sample.record "security" "SUSE-2023-1"
                                          (Some (time.Unix 1700000000 0)) "glibc"));
                               sample.section "join" None;
                               sample.section "body"
                                 (Some (sample.record "bugfix" "SUSE-2023-2"
                                          (Some (time.Unix 1700000100 0)) "vim"));
                               sample.section "footer" None ], None)))
    by reflexivity.
  assert (Hjson : cmd.json (samplehost.flags "" "" "" "" "" false false) = false)
    by reflexivity.
  destruct (RunE_renders_the_survivors _ _ _ _ _ Hjson Hopen Hrun)
    as (fCfg & oCfg & tmpl & Hf & _ & Ht & Hrun' & _).
  exists fCfg, oCfg, tmpl. split; [exact Hf | split; [exact Ht | exact Hrun']].
Defined.

End MoreWitnesses.
